(** * Semantic analysis and constant folding of the DIESEL front end

    A shallow embedding of [semantic.cc] (the type checker) and of
    [optimize.cc] (the constant folder), and the properties of the two
    passes that the design document states about them.

    The C++ code mutates the syntax tree in place.  Every node is owned by
    exactly one parent, so a pass is embedded as a function that returns the
    node it was called on, with its fields and children as the pass leaves
    them. *)

From Stdlib Require Import ZArith List String Bool Lia.
From Stdlib Require Import Floats.PrimFloat.
Import ListNotations.

Open Scope string_scope.
Open Scope Z_scope.

(** ** Host arithmetic *)

(** [long] is the 64-bit two's complement integer of the host. *)
Definition LONG_MIN : Z := - 2 ^ 63.
Definition LONG_MAX : Z := 2 ^ 63 - 1.

Definition long_wrap (z : Z) : Z := (z + 2 ^ 63) mod 2 ^ 64 - 2 ^ 63.

(** Truth value of a [long] and of a [double] in a C++ condition, and the
    conversion of the resulting [bool] back to a number. *)
Definition long_truth (z : Z) : bool := negb (z =? 0).
Definition double_truth (x : float) : bool := negb (PrimFloat.eqb x 0%float).
Definition long_of_bool (b : bool) : Z := if b then 1 else 0.
Definition double_of_bool (b : bool) : float := if b then 1%float else 0%float.

(** ** Outcomes *)

(** A pass either returns, or the process stops: [fatal] aborts the
    compiler, the host's integer division faults, or a node or a constant is
    read as something it is not.  [out_of_fuel] belongs to the embedding
    only (see [fold_constants]). *)
Inductive halt_reason : Type :=
| fatal_error (msg : string)
| arithmetic_fault
| bad_access
| out_of_fuel.

Inductive outcome (A : Type) : Type :=
| Done (a : A)
| Halt (r : halt_reason).
Arguments Done {A} a.
Arguments Halt {A} r.

Definition obind {A B} (m : outcome A) (k : A -> outcome B) : outcome B :=
  match m with
  | Done a => k a
  | Halt r => Halt r
  end.

Declare Scope outcome_scope.
Delimit Scope outcome_scope with outcome.
Notation "x <~ m ;; k" := (obind m (fun x => k))
  (at level 61, m at next level, right associativity) : outcome_scope.

(** ** The symbol table, as the two passes see it

    The classes of the symbol table and of the syntax tree are declared in
    headers outside the two files.  The embedding gives them the fields and
    the tags that the two files read and write. *)

Definition sym_index : Type := Z.

(** Modelled from the spec: the built-in type handles [void_type],
    [integer_type] and [real_type] are globals of the symbol table, outside
    the two files; they are three distinct indices. *)
Definition void_type : sym_index := 1.

(** Modelled from the spec: the handle of the built-in type integer (see
    [void_type]). *)
Definition integer_type : sym_index := 2.

(** Modelled from the spec: the handle of the built-in type real (see
    [void_type]). *)
Definition real_type : sym_index := 3.

Inductive sym_type : Type :=
| SYM_ARRAY | SYM_FUNC | SYM_PROC | SYM_VAR | SYM_PARAM | SYM_CONST
| SYM_NAMETYPE | SYM_UNDEF.

Definition sym_type_eqb (a b : sym_type) : bool :=
  match a, b with
  | SYM_ARRAY, SYM_ARRAY | SYM_FUNC, SYM_FUNC | SYM_PROC, SYM_PROC
  | SYM_VAR, SYM_VAR | SYM_PARAM, SYM_PARAM | SYM_CONST, SYM_CONST
  | SYM_NAMETYPE, SYM_NAMETYPE | SYM_UNDEF, SYM_UNDEF => true
  | _, _ => false
  end.

(** The union holding a constant's value. *)
Inductive constant_value : Type :=
| ival (v : Z)
| rval (v : float).

Module Symtab.
(** [last_parameter] lists the types of the formal parameters, the last
    parameter first, as the [preceding] links of [parameter_symbol] do. *)
Record symbol : Type := mk_symbol {
  tag : sym_type;
  type : sym_index;
  last_parameter : list sym_index;
  const_value : constant_value
}.
End Symtab.

(** ** Syntax trees *)

Definition position_information : Type := nat.

Inductive ast_node_type : Type :=
| AST_ID | AST_INDEXED
| AST_ADD | AST_SUB | AST_OR | AST_AND | AST_MULT | AST_DIVIDE | AST_IDIV
| AST_MOD
| AST_EQUAL | AST_NOTEQUAL | AST_LESSTHAN | AST_GREATERTHAN
| AST_UMINUS | AST_NOT | AST_CAST | AST_INTEGER | AST_REAL
| AST_FUNCTIONCALL.

(** The concrete subclasses of [ast_binaryoperation] and of
    [ast_binaryrelation]; each has the two fields [left] and [right]. *)
Inductive binaryoperation : Type :=
| op_add | op_sub | op_or | op_and | op_mult | op_divide | op_idiv | op_mod.

Inductive binaryrelation : Type :=
| rel_equal | rel_notequal | rel_lessthan | rel_greaterthan.

Record ast_id : Type := mk_ast_id {
  id_pos : position_information;
  id_type : sym_index;
  sym_p : sym_index
}.

(** A value of [ast_expression] is a pointer to an expression node, never
    null; a value of [ast_expr_list] is a pointer to a list cell, null for
    the empty list.  The second argument of every node that has one is its
    resolved-type field.  A literal has the type its constructor gives it,
    which nothing assigns afterwards. *)
Inductive ast_expression : Type :=
| ast_id_expr (id : ast_id)
| ast_indexed (pos : position_information) (ty : sym_index)
    (id : ast_id) (index : ast_expression)
| ast_binaryoperation (op : binaryoperation) (pos : position_information)
    (ty : sym_index) (left right : ast_expression)
| ast_binaryrelation (rel : binaryrelation) (pos : position_information)
    (ty : sym_index) (left right : ast_expression)
| ast_uminus (pos : position_information) (ty : sym_index)
    (expr : ast_expression)
| ast_not (pos : position_information) (ty : sym_index)
    (expr : ast_expression)
| ast_cast (pos : position_information) (ty : sym_index)
    (expr : ast_expression)
| ast_integer (pos : position_information) (value : Z)
| ast_real (pos : position_information) (value : float)
| ast_functioncall (pos : position_information) (ty : sym_index)
    (id : ast_id) (parameter_list : ast_expr_list)
with ast_expr_list : Type :=
| expr_list_null
| expr_list_node (pos : position_information) (preceding : ast_expr_list)
    (last_expr : ast_expression).

Scheme ast_expression_mut := Induction for ast_expression Sort Prop
  with ast_expr_list_mut := Induction for ast_expr_list Sort Prop.
Combined Scheme ast_expression_mutind
  from ast_expression_mut, ast_expr_list_mut.

(** Statements.  [stmt_null], [stmt_list_null] and [elsif_list_null] are the
    null pointers the grammar produces for an empty statement, an empty
    body and a missing elsif chain. *)
Inductive ast_statement : Type :=
| stmt_null
| ast_procedurecall (pos : position_information) (id : ast_id)
    (parameter_list : ast_expr_list)
| ast_assign (pos : position_information) (lhs rhs : ast_expression)
| ast_while (pos : position_information) (condition : ast_expression)
    (body : ast_stmt_list)
| ast_if (pos : position_information) (condition : ast_expression)
    (body : ast_stmt_list) (elsif_list : ast_elsif_list)
    (else_body : ast_stmt_list)
| ast_return (pos : position_information) (value : option ast_expression)
with ast_stmt_list : Type :=
| stmt_list_null
| stmt_list_node (pos : position_information) (preceding : ast_stmt_list)
    (last_stmt : ast_statement)
with ast_elsif : Type :=
| mk_ast_elsif (pos : position_information) (condition : ast_expression)
    (body : ast_stmt_list)
with ast_elsif_list : Type :=
| elsif_list_null
| elsif_list_node (pos : position_information) (preceding : ast_elsif_list)
    (last_elsif : ast_elsif).

Scheme ast_statement_mut := Induction for ast_statement Sort Prop
  with ast_stmt_list_mut := Induction for ast_stmt_list Sort Prop
  with ast_elsif_mut := Induction for ast_elsif Sort Prop
  with ast_elsif_list_mut := Induction for ast_elsif_list Sort Prop.
Combined Scheme ast_statement_mutind
  from ast_statement_mut, ast_stmt_list_mut, ast_elsif_mut,
       ast_elsif_list_mut.

(** Field reads [node->tag], [node->pos] and [node->type]. *)
Definition binop_tag (op : binaryoperation) : ast_node_type :=
  match op with
  | op_add => AST_ADD | op_sub => AST_SUB | op_or => AST_OR
  | op_and => AST_AND | op_mult => AST_MULT | op_divide => AST_DIVIDE
  | op_idiv => AST_IDIV | op_mod => AST_MOD
  end.

Definition binrel_tag (rel : binaryrelation) : ast_node_type :=
  match rel with
  | rel_equal => AST_EQUAL | rel_notequal => AST_NOTEQUAL
  | rel_lessthan => AST_LESSTHAN | rel_greaterthan => AST_GREATERTHAN
  end.

Definition tag (node : ast_expression) : ast_node_type :=
  match node with
  | ast_id_expr _ => AST_ID
  | ast_indexed _ _ _ _ => AST_INDEXED
  | ast_binaryoperation op _ _ _ _ => binop_tag op
  | ast_binaryrelation rel _ _ _ _ => binrel_tag rel
  | ast_uminus _ _ _ => AST_UMINUS
  | ast_not _ _ _ => AST_NOT
  | ast_cast _ _ _ => AST_CAST
  | ast_integer _ _ => AST_INTEGER
  | ast_real _ _ => AST_REAL
  | ast_functioncall _ _ _ _ => AST_FUNCTIONCALL
  end.

Definition pos (node : ast_expression) : position_information :=
  match node with
  | ast_id_expr i => id_pos i
  | ast_indexed p _ _ _ | ast_binaryoperation _ p _ _ _
  | ast_binaryrelation _ p _ _ _ | ast_uminus p _ _ | ast_not p _ _
  | ast_cast p _ _ | ast_integer p _ | ast_real p _
  | ast_functioncall p _ _ _ => p
  end.

(** Modelled from the spec: the constructors of the literal nodes are
    outside the two files; an integer literal carries resolved type
    [integer] and a real literal [real]. *)
Definition type (node : ast_expression) : sym_index :=
  match node with
  | ast_id_expr i => id_type i
  | ast_indexed _ t _ _ | ast_binaryoperation _ _ t _ _
  | ast_binaryrelation _ _ t _ _ | ast_uminus _ t _ | ast_not _ t _
  | ast_cast _ t _ | ast_functioncall _ t _ _ => t
  | ast_integer _ _ => integer_type
  | ast_real _ _ => real_type
  end.

(** Modelled from the spec: the constructor of a cast node is outside the
    two files; a cast node carries resolved type [real]. *)
Definition new_ast_cast (p : position_information) (e : ast_expression)
  : ast_expression :=
  ast_cast p real_type e.

(** [node->type = t].  The source assigns the field of a node it has just
    made with [new ast_cast]; a literal has no field to assign here. *)
Definition set_type (node : ast_expression) (t : sym_index) : ast_expression :=
  match node with
  | ast_id_expr i => ast_id_expr (mk_ast_id (id_pos i) t (sym_p i))
  | ast_indexed p _ i x => ast_indexed p t i x
  | ast_binaryoperation op p _ l r => ast_binaryoperation op p t l r
  | ast_binaryrelation rel p _ l r => ast_binaryrelation rel p t l r
  | ast_uminus p _ e => ast_uminus p t e
  | ast_not p _ e => ast_not p t e
  | ast_cast p _ e => ast_cast p t e
  | ast_integer _ _ | ast_real _ _ => node
  | ast_functioncall p _ i l => ast_functioncall p t i l
  end.

(** ** The type checker ([semantic.cc]) *)

(** What [type_error] sends to the diagnostics sink: a position, when one is
    given, and the text (without its line end). *)
Record diagnostic : Type := mk_diagnostic {
  diag_pos : option position_information;
  diag_msg : string
}.

(** The file's static flag [has_return] and the sink. *)
Record tc_state : Type := mk_tc_state {
  has_return : bool;
  diagnostics : list diagnostic
}.

Definition M (A : Type) : Type := tc_state -> outcome (A * tc_state).

Definition ret {A} (a : A) : M A := fun s => Done (a, s).

Definition bind {A B} (m : M A) (k : A -> M B) : M B :=
  fun s =>
    match m s with
    | Done (a, s') => k a s'
    | Halt r => Halt r
    end.

Definition fatal {A} (msg : string) : M A := fun _ => Halt (fatal_error msg).

Definition type_error (p : option position_information) (msg : string)
  : M unit :=
  fun s =>
    Done (tt, mk_tc_state (has_return s)
                (diagnostics s ++ [mk_diagnostic p msg])).

Definition set_has_return (b : bool) : M unit :=
  fun s => Done (tt, mk_tc_state b (diagnostics s)).

Definition get_has_return : M bool := fun s => Done (has_return s, s).

(** [if (c) type_error(p) << msg;] *)
Definition error_if (c : bool) (p : option position_information)
  (msg : string) : M unit :=
  if c then type_error p msg else ret tt.

Declare Scope tc_scope.
Delimit Scope tc_scope with tc.
Notation "x <- m ;; k" := (bind m (fun x => k))
  (at level 61, m at next level, right associativity) : tc_scope.
Notation "' p <- m ;; k" := (bind m (fun x => let 'p := x in k))
  (at level 61, p pattern, m at next level, right associativity) : tc_scope.
Notation "m ;;; k" := (bind m (fun _ => k))
  (at level 61, right associativity) : tc_scope.

Definition neq (a b : sym_index) : bool := negb (a =? b).

Section Semantic.

(** [sym_tab->get_symbol] and [sym_tab->current_environment()]. *)
Variable get_symbol : sym_index -> Symtab.symbol.
Variable current_environment : sym_index.

Open Scope tc_scope.

(** Compare formal vs. actual parameters recursively.  The result is the
    boolean together with the list of actuals as the call leaves it. *)
Fixpoint chk_param (formals : list sym_index) (actuals : ast_expr_list)
  : bool * ast_expr_list :=
  match actuals, formals with
  | expr_list_null, [] => (true, actuals)
  | expr_list_null, _ :: _ => (false, actuals)
  | expr_list_node _ _ _, [] => (false, actuals)
  | expr_list_node p preceding last_expr, formal :: formals_preceding =>
      let '(ok, preceding') := chk_param formals_preceding preceding in
      if negb ok then (false, expr_list_node p preceding' last_expr)
      else if neq (type last_expr) formal then
        if formal =? real_type
        then (true, expr_list_node p preceding'
                      (new_ast_cast (pos last_expr) last_expr))
        else (false, expr_list_node p preceding' last_expr)
      else (true, expr_list_node p preceding' last_expr)
  end.

Definition ast_id_type_check (id : ast_id) : sym_index :=
  if negb (sym_type_eqb (Symtab.tag (get_symbol (sym_p id))) SYM_NAMETYPE)
  then id_type id
  else sym_p id.

(** The three convenience methods of [semantic]; [type_check] is the
    virtual method they call on the two operands.  Each returns the two
    operands as it leaves them and the type it synthesizes. *)
Definition check_binop1
  (type_check : ast_expression -> M (ast_expression * sym_index))
  (left right : ast_expression)
  : M (ast_expression * ast_expression * sym_index) :=
  '(left', left_type) <- type_check left ;;
  '(right', right_type) <- type_check right ;;
  if neq left_type right_type then
    let left' := if neq left_type real_type
                 then new_ast_cast (pos left') left' else left' in
    let right' := if neq right_type real_type
                  then new_ast_cast (pos right') right' else right' in
    ret (left', right', real_type)
  else ret (left', right', left_type).

Definition check_binop2
  (type_check : ast_expression -> M (ast_expression * sym_index))
  (node_pos : position_information) (left right : ast_expression)
  (s : string)
  : M (ast_expression * ast_expression * sym_index) :=
  '(left', left_type) <- type_check left ;;
  '(right', right_type) <- type_check right ;;
  error_if (neq right_type integer_type) (Some node_pos)
    ("Rifht part:" ++ s ++ " should be an integer") ;;;
  error_if (neq left_type integer_type) (Some node_pos)
    ("Left part:" ++ s ++ " should be an integer") ;;;
  ret (left', right', integer_type).

Definition check_binrel
  (type_check : ast_expression -> M (ast_expression * sym_index))
  (left right : ast_expression)
  : M (ast_expression * ast_expression * sym_index) :=
  '(left', left_type) <- type_check left ;;
  '(right', right_type) <- type_check right ;;
  if neq left_type right_type then
    let left' := if neq left_type real_type
                 then set_type (new_ast_cast (pos left') left') real_type
                 else left' in
    let right' := if neq right_type real_type
                  then set_type (new_ast_cast (pos right') right') real_type
                  else right' in
    ret (left', right', integer_type)
  else ret (left', right', integer_type).

(** [ast_divide::type_check], on the two operands. *)
Definition check_divide
  (type_check : ast_expression -> M (ast_expression * sym_index))
  (left right : ast_expression)
  : M (ast_expression * ast_expression * sym_index) :=
  '(left', left_type) <- type_check left ;;
  '(right', right_type) <- type_check right ;;
  let right' := if right_type =? integer_type
                then set_type (new_ast_cast (pos right') right') real_type
                else right' in
  let left' := if left_type =? integer_type
               then set_type (new_ast_cast (pos left') left') real_type
               else left' in
  ret (left', right', real_type).

(** Check formal vs. actual parameters at procedure/function calls. *)
Definition check_parameters
  (type_check_list : ast_expr_list -> M (ast_expr_list * sym_index))
  (call_id : ast_id) (param_list : ast_expr_list) : M ast_expr_list :=
  '(param_list, _) <- type_check_list param_list ;;
  let s := get_symbol (sym_p call_id) in
  formals_param <-
    match Symtab.tag s with
    | SYM_FUNC => ret (Symtab.last_parameter s)
    | SYM_PROC => ret (Symtab.last_parameter s)
    | _ => fatal "error: unknown symbol type"
    end ;;
  ret (snd (chk_param formals_param param_list)).

(** The virtual method [type_check] on expressions and on expression
    lists: the node as the call leaves it, and the returned type.  The
    source calls it on a list pointer only when the pointer is not null;
    here the call on a null pointer does nothing. *)
Fixpoint type_check (node : ast_expression)
  : M (ast_expression * sym_index) :=
  match node with
  | ast_id_expr id => ret (node, ast_id_type_check id)
  | ast_indexed p _ id index =>
      '(index, index_type) <- type_check index ;;
      error_if (neq index_type integer_type) (Some p)
        "Index of an array must be an Integer" ;;;
      let t := ast_id_type_check id in
      ret (ast_indexed p t id index, t)
  | ast_binaryoperation op p ty left0 right0 =>
      match op with
      | op_add | op_sub | op_mult =>
          '(left', right', t) <- check_binop1 type_check left0 right0 ;;
          ret (ast_binaryoperation op p t left' right', t)
      | op_divide =>
          '(left', right', t) <- check_divide type_check left0 right0 ;;
          ret (ast_binaryoperation op p t left' right', t)
      | op_or =>
          '(left', right', t) <- check_binop2 type_check p left0 right0 "OR" ;;
          ret (ast_binaryoperation op p ty left' right', t)
      | op_and =>
          '(left', right', t) <- check_binop2 type_check p left0 right0 "AND" ;;
          ret (ast_binaryoperation op p t left' right', t)
      | op_idiv =>
          '(left', right', t) <- check_binop2 type_check p left0 right0 "DIV" ;;
          ret (ast_binaryoperation op p t left' right', t)
      | op_mod =>
          '(left', right', t) <- check_binop2 type_check p left0 right0 "MOD" ;;
          ret (ast_binaryoperation op p t left' right', t)
      end
  | ast_binaryrelation rel p _ left0 right0 =>
      '(left', right', t) <- check_binrel type_check left0 right0 ;;
      ret (ast_binaryrelation rel p t left' right', t)
  | ast_uminus p ty expr =>
      '(expr, t) <- type_check expr ;;
      ret (ast_uminus p ty expr, t)
  | ast_not p ty expr =>
      '(expr, t) <- type_check expr ;;
      if neq t integer_type then
        type_error (Some (pos expr)) "Should be an integer" ;;;
        ret (ast_not p ty expr, void_type)
      else ret (ast_not p ty expr, integer_type)
  | ast_cast _ _ _ =>
      fatal "Trying to type check abstract class ast_expression."
  | ast_integer _ _ => ret (node, integer_type)
  | ast_real _ _ => ret (node, real_type)
  | ast_functioncall p ty id parameter_list =>
      parameter_list <-
        check_parameters type_check_expr_list id parameter_list ;;
      ret (ast_functioncall p ty id parameter_list, ty)
  end
with type_check_expr_list (node : ast_expr_list)
  : M (ast_expr_list * sym_index) :=
  match node with
  | expr_list_null => ret (node, void_type)
  | expr_list_node p preceding last_expr =>
      '(preceding, _) <- type_check_expr_list preceding ;;
      '(last_expr, _) <- type_check last_expr ;;
      ret (expr_list_node p preceding last_expr, void_type)
  end.

(** [ast_return::type_check]. *)
Definition type_check_return (p : position_information)
  (value : option ast_expression) : M (ast_statement * sym_index) :=
  set_has_return true ;;;
  let tmp := get_symbol current_environment in
  match value with
  | None =>
      error_if (negb (sym_type_eqb (Symtab.tag tmp) SYM_PROC)) (Some p)
        "Must return a value from a function." ;;;
      ret (ast_return p value, void_type)
  | Some value =>
      '(value, value_type) <- type_check value ;;
      if negb (sym_type_eqb (Symtab.tag tmp) SYM_FUNC) then
        type_error (Some p) "Procedures may not return a value." ;;;
        ret (ast_return p (Some value), void_type)
      else
        error_if (neq (Symtab.type tmp) value_type) (Some (pos value))
          "Bad return type from function." ;;;
        ret (ast_return p (Some value), void_type)
  end.

(** [ast_assign::type_check]. *)
Definition type_check_assign (p : position_information)
  (lhs rhs : ast_expression) : M (ast_statement * sym_index) :=
  '(lhs, left_type) <- type_check lhs ;;
  '(rhs, right_type) <- type_check rhs ;;
  error_if ((left_type =? integer_type) && (right_type =? real_type))
    (Some (pos rhs))
    "Variable of type integer can't be assigned a real value." ;;;
  let rhs := if (left_type =? real_type) && (right_type =? integer_type)
             then set_type (new_ast_cast (pos rhs) rhs) real_type
             else rhs in
  ret (ast_assign p lhs rhs, left_type).

(** The virtual method [type_check] on statements, statement lists,
    elsif clauses and elsif lists. *)
Fixpoint type_check_stmt (node : ast_statement)
  : M (ast_statement * sym_index) :=
  match node with
  | stmt_null => ret (node, void_type)
  | ast_procedurecall p id parameter_list =>
      parameter_list <-
        check_parameters type_check_expr_list id parameter_list ;;
      ret (ast_procedurecall p id parameter_list, void_type)
  | ast_assign p lhs rhs => type_check_assign p lhs rhs
  | ast_while p condition body =>
      '(condition, t) <- type_check condition ;;
      error_if (neq t integer_type) (Some (pos condition))
        "while predicate must be of integer type." ;;;
      '(body, _) <- type_check_stmt_list body ;;
      ret (ast_while p condition body, void_type)
  | ast_if p condition body elsif_list else_body =>
      '(condition, t) <- type_check condition ;;
      error_if (neq t integer_type) (Some p)
        "Your condition should be an integer." ;;;
      '(body, _) <- type_check_stmt_list body ;;
      '(elsif_list, _) <- type_check_elsif_list elsif_list ;;
      '(else_body, _) <- type_check_stmt_list else_body ;;
      ret (ast_if p condition body elsif_list else_body, void_type)
  | ast_return p value => type_check_return p value
  end
with type_check_stmt_list (node : ast_stmt_list)
  : M (ast_stmt_list * sym_index) :=
  match node with
  | stmt_list_null => ret (node, void_type)
  | stmt_list_node p preceding last_stmt =>
      '(preceding, _) <- type_check_stmt_list preceding ;;
      '(last_stmt, _) <- type_check_stmt last_stmt ;;
      ret (stmt_list_node p preceding last_stmt, void_type)
  end
with type_check_elsif (node : ast_elsif) : M (ast_elsif * sym_index) :=
  match node with
  | mk_ast_elsif p condition body =>
      '(condition, t) <- type_check condition ;;
      if neq t integer_type then
        type_error (Some (pos condition)) "Should be an integer" ;;;
        ret (mk_ast_elsif p condition body, void_type)
      else
        '(body, _) <- type_check_stmt_list body ;;
        ret (mk_ast_elsif p condition body, void_type)
  end
with type_check_elsif_list (node : ast_elsif_list)
  : M (ast_elsif_list * sym_index) :=
  match node with
  | elsif_list_null => ret (node, void_type)
  | elsif_list_node p preceding last_elsif =>
      '(preceding, _) <- type_check_elsif_list preceding ;;
      '(last_elsif, _) <- type_check_elsif last_elsif ;;
      ret (elsif_list_node p preceding last_elsif, void_type)
  end.

Definition stmt_list_pos (body : ast_stmt_list)
  : option position_information :=
  match body with
  | stmt_list_null => None
  | stmt_list_node p _ _ => Some p
  end.

(** Interface for type checking a block of code. *)
Definition do_typecheck (env : Symtab.symbol) (body : ast_stmt_list)
  : M ast_stmt_list :=
  set_has_return false ;;;
  '(body, _) <- type_check_stmt_list body ;;
  returned <- get_has_return ;;
  error_if (sym_type_eqb (Symtab.tag env) SYM_FUNC && negb returned)
    (stmt_list_pos body) "A function must return a value." ;;;
  ret body.

End Semantic.

(** ** The constant folder ([optimize.cc]) *)

(** [left_value / right_value] and [left_value % right_value] on [long]:
    the host's division instruction faults on a zero divisor and on the one
    quotient that does not fit. *)
Definition long_div (l r : Z) : outcome Z :=
  if r =? 0 then Halt arithmetic_fault
  else if (l =? LONG_MIN) && (r =? -1) then Halt arithmetic_fault
  else Done (Z.quot l r).

Definition long_mod (l r : Z) : outcome Z :=
  if r =? 0 then Halt arithmetic_fault
  else if (l =? LONG_MIN) && (r =? -1) then Halt arithmetic_fault
  else Done (Z.rem l r).

Section Optimize.

Variable get_symbol : sym_index -> Symtab.symbol.

Open Scope outcome_scope.

(** Returns true if an expression is a subclass of
    [ast_binaryoperation], ie, eligible for constant folding. *)
Definition is_binop (node : ast_expression) : bool :=
  match tag node with
  | AST_ADD | AST_SUB | AST_OR | AST_AND | AST_MULT | AST_DIVIDE
  | AST_IDIV | AST_MOD => true
  | _ => false
  end.

Definition is_const (expr : ast_expression) : bool :=
  match expr with
  | ast_integer _ _ => true
  | ast_real _ _ => true
  | ast_id_expr id =>
      sym_type_eqb (Symtab.tag (get_symbol (sym_p id))) SYM_CONST
  | _ => false
  end.

(** The value of a constant operand, read as [long]: the [ival] member of
    the constant's union for an identifier, the [value] field of an
    [ast_integer] otherwise. *)
Definition long_value (e : ast_expression) : outcome Z :=
  match e with
  | ast_id_expr id =>
      match Symtab.const_value (get_symbol (sym_p id)) with
      | ival v => Done v
      | rval _ => Halt bad_access
      end
  | ast_integer _ v => Done v
  | _ => Halt bad_access
  end.

(** The same, read as [double]. *)
Definition double_value (e : ast_expression) : outcome float :=
  match e with
  | ast_id_expr id =>
      match Symtab.const_value (get_symbol (sym_p id)) with
      | rval v => Done v
      | ival _ => Halt bad_access
      end
  | ast_real _ v => Done v
  | _ => Halt bad_access
  end.

(** The two [switch] statements of [fold_constants]. *)
Definition fold_long (op : binaryoperation) (p : position_information)
  (node : ast_expression) (left_value right_value : Z)
  : outcome ast_expression :=
  match op with
  | op_add => Done (ast_integer p (long_wrap (left_value + right_value)))
  | op_sub => Done (ast_integer p (long_wrap (left_value - right_value)))
  | op_mult => Done (ast_integer p (long_wrap (left_value * right_value)))
  | op_and =>
      Done (ast_integer p
              (long_of_bool
                 (long_truth left_value && long_truth right_value)))
  | op_or =>
      Done (ast_integer p
              (long_of_bool
                 (long_truth left_value || long_truth right_value)))
  | op_idiv =>
      q <~ long_div left_value right_value ;; Done (ast_integer p q)
  | op_mod =>
      q <~ long_mod left_value right_value ;; Done (ast_integer p q)
  | op_divide => Done node
  end.

Definition fold_double (op : binaryoperation) (p : position_information)
  (node : ast_expression) (left_value right_value : float)
  : outcome ast_expression :=
  match op with
  | op_add => Done (ast_real p (left_value + right_value)%float)
  | op_sub => Done (ast_real p (left_value - right_value)%float)
  | op_mult => Done (ast_real p (left_value * right_value)%float)
  | op_and =>
      Done (ast_real p
              (double_of_bool
                 (double_truth left_value && double_truth right_value)))
  | op_or =>
      Done (ast_real p
              (double_of_bool
                 (double_truth left_value || double_truth right_value)))
  | op_divide => Done (ast_real p (left_value / right_value)%float)
  | op_idiv | op_mod => Done node
  end.

(** [ast_expr_list::optimize], given [fold_constants]. *)
Fixpoint optimize_expr_list
  (fold : ast_expression -> outcome ast_expression)
  (node : ast_expr_list) : outcome ast_expr_list :=
  match node with
  | expr_list_null => Done node
  | expr_list_node p preceding last_expr =>
      preceding <~ optimize_expr_list fold preceding ;;
      last_expr <~ fold last_expr ;;
      Done (expr_list_node p preceding last_expr)
  end.

(** The virtual method [optimize] on expression nodes, given
    [fold_constants]: the node itself, with its children folded. *)
Definition optimize (fold : ast_expression -> outcome ast_expression)
  (node : ast_expression) : outcome ast_expression :=
  match node with
  | ast_id_expr _ => Done node
  | ast_indexed p ty id index =>
      index <~ fold index ;; Done (ast_indexed p ty id index)
  | ast_binaryoperation op p ty left0 right0 =>
      left' <~ fold left0 ;;
      right' <~ fold right0 ;;
      Done (ast_binaryoperation op p ty left' right')
  | ast_binaryrelation rel p ty left0 right0 =>
      left' <~ fold left0 ;;
      right' <~ fold right0 ;;
      Done (ast_binaryrelation rel p ty left' right')
  | ast_uminus p ty expr =>
      expr <~ fold expr ;; Done (ast_uminus p ty expr)
  | ast_not p ty expr =>
      expr <~ fold expr ;; Done (ast_not p ty expr)
  | ast_cast _ _ _ | ast_integer _ _ | ast_real _ _ => Done node
  | ast_functioncall p ty id parameter_list =>
      parameter_list <~ optimize_expr_list fold parameter_list ;;
      Done (ast_functioncall p ty id parameter_list)
  end.

(** The part of [fold_constants] under [if (is_binop(node))]. *)
Definition fold_binaryoperation
  (fold : ast_expression -> outcome ast_expression)
  (node : ast_expression) : outcome ast_expression :=
  match node with
  | ast_binaryoperation op p ty left0 right0 =>
      left' <~ fold left0 ;;
      right' <~ fold right0 ;;
      let node := ast_binaryoperation op p ty left' right' in
      if negb (is_const left' && is_const right') then Done node
      else if (type left' =? integer_type) && (type right' =? integer_type)
      then
        left_value <~ long_value left' ;;
        right_value <~ long_value right' ;;
        fold_long op p node left_value right_value
      else if (type left' =? real_type) && (type right' =? real_type)
      then
        left_value <~ double_value left' ;;
        right_value <~ double_value right' ;;
        fold_double op p node left_value right_value
      else Done node
  | _ => Done node
  end.

(** [fold_constants] calls itself on the children that [node->optimize()]
    has already folded, so its recursion is not structural: the embedding
    counts the nesting of calls down from [fuel]. *)
Fixpoint fold_constants (fuel : nat) (node : ast_expression)
  : outcome ast_expression :=
  match fuel with
  | O => Halt out_of_fuel
  | S fuel =>
      node <~ optimize (fold_constants fuel) node ;;
      if is_binop node
      then fold_binaryoperation (fold_constants fuel) node
      else Done node
  end.

(** The virtual method [optimize] on statements, statement lists, elsif
    clauses and elsif lists, given [fold_constants]. *)
Fixpoint optimize_stmt (fold : ast_expression -> outcome ast_expression)
  (node : ast_statement) : outcome ast_statement :=
  match node with
  | stmt_null => Done node
  | ast_procedurecall p id parameter_list =>
      parameter_list <~ optimize_expr_list fold parameter_list ;;
      Done (ast_procedurecall p id parameter_list)
  | ast_assign p lhs rhs =>
      rhs <~ fold rhs ;; Done (ast_assign p lhs rhs)
  | ast_while p condition body =>
      condition <~ fold condition ;;
      body <~ optimize_stmt_list fold body ;;
      Done (ast_while p condition body)
  | ast_if p condition body elsif_list else_body =>
      condition <~ fold condition ;;
      body <~ optimize_stmt_list fold body ;;
      elsif_list <~ optimize_elsif_list fold elsif_list ;;
      else_body <~ optimize_stmt_list fold else_body ;;
      Done (ast_if p condition body elsif_list else_body)
  | ast_return p value =>
      match value with
      | Some value =>
          value <~ fold value ;; Done (ast_return p (Some value))
      | None => Done node
      end
  end
with optimize_stmt_list (fold : ast_expression -> outcome ast_expression)
  (node : ast_stmt_list) : outcome ast_stmt_list :=
  match node with
  | stmt_list_null => Done node
  | stmt_list_node p preceding last_stmt =>
      preceding <~ optimize_stmt_list fold preceding ;;
      last_stmt <~ optimize_stmt fold last_stmt ;;
      Done (stmt_list_node p preceding last_stmt)
  end
with optimize_elsif (fold : ast_expression -> outcome ast_expression)
  (node : ast_elsif) : outcome ast_elsif :=
  match node with
  | mk_ast_elsif p condition body =>
      condition <~ fold condition ;;
      body <~ optimize_stmt_list fold body ;;
      Done (mk_ast_elsif p condition body)
  end
with optimize_elsif_list (fold : ast_expression -> outcome ast_expression)
  (node : ast_elsif_list) : outcome ast_elsif_list :=
  match node with
  | elsif_list_null => Done node
  | elsif_list_node p preceding last_elsif =>
      preceding <~ optimize_elsif_list fold preceding ;;
      last_elsif <~ optimize_elsif fold last_elsif ;;
      Done (elsif_list_node p preceding last_elsif)
  end.

(** The optimizer's interface method. *)
Definition do_optimize (fuel : nat) (body : ast_stmt_list)
  : outcome ast_stmt_list :=
  optimize_stmt_list (fold_constants fuel) body.

End Optimize.

(** ** Sample programs and auxiliary notions *)

(** A symbol table with the integer constant [N = 7] at 10, the function
    [f (a : integer; b : real) : integer] at 11, a procedure without
    parameters at 12, and integer variables everywhere else. *)
Definition sample_symbols (i : sym_index) : Symtab.symbol :=
  if i =? 10 then Symtab.mk_symbol SYM_CONST integer_type [] (ival 7)
  else if i =? 11
  then Symtab.mk_symbol SYM_FUNC integer_type [real_type; integer_type]
         (ival 0)
  else if i =? 12 then Symtab.mk_symbol SYM_PROC void_type [] (ival 0)
  else Symtab.mk_symbol SYM_VAR integer_type [] (ival 0).

Definition initial_state : tc_state := mk_tc_state false [].

(** [DIV] gives the quotient and [MOD] the remainder of the division that
    truncates towards zero. *)
Definition truncating (op : binaryoperation) (a b : Z) : Z :=
  match op with
  | op_mod => Z.rem a b
  | _ => Z.quot a b
  end.

(** Reading the last actual of a list, and the length of a list. *)
Definition last_actual (l : ast_expr_list) : option ast_expression :=
  match l with
  | expr_list_null => None
  | expr_list_node _ _ e => Some e
  end.

Fixpoint expr_list_length (l : ast_expr_list) : nat :=
  match l with
  | expr_list_null => O
  | expr_list_node _ preceding _ => S (expr_list_length preceding)
  end.

(** A return statement occurs somewhere in the statement tree. *)
Fixpoint stmt_has_return (node : ast_statement) : bool :=
  match node with
  | stmt_null | ast_procedurecall _ _ _ | ast_assign _ _ _ => false
  | ast_while _ _ body => stmt_list_has_return body
  | ast_if _ _ body elsif_list else_body =>
      stmt_list_has_return body || elsif_list_has_return elsif_list
      || stmt_list_has_return else_body
  | ast_return _ _ => true
  end
with stmt_list_has_return (node : ast_stmt_list) : bool :=
  match node with
  | stmt_list_null => false
  | stmt_list_node _ preceding last_stmt =>
      stmt_list_has_return preceding || stmt_has_return last_stmt
  end
with elsif_has_return (node : ast_elsif) : bool :=
  match node with
  | mk_ast_elsif _ _ body => stmt_list_has_return body
  end
with elsif_list_has_return (node : ast_elsif_list) : bool :=
  match node with
  | elsif_list_null => false
  | elsif_list_node _ preceding last_elsif =>
      elsif_list_has_return preceding || elsif_has_return last_elsif
  end.

(** ** The statements of the design document that the code does not meet,
    as the document words them *)

(** "Folding never changes a node's resolved type", for every checked
    node. *)
Definition folding_keeps_resolved_type : Prop :=
  forall get_symbol e s e' t s' fuel x,
    type_check get_symbol e s = Done ((e', t), s') ->
    is_binop e' = true ->
    fold_constants get_symbol fuel e' = Done x ->
    tag x = AST_INTEGER \/ tag x = AST_REAL ->
    type x = t.

(** "Any operand not already real is cast to real" by a division. *)
Definition divide_casts_every_non_real_operand : Prop :=
  forall get_symbol p ty l r s l1 lt s1 r1 rt s2,
    type_check get_symbol l s = Done ((l1, lt), s1) ->
    type_check get_symbol r s1 = Done ((r1, rt), s2) ->
    type_check get_symbol (ast_binaryoperation op_divide p ty l r) s =
    Done ((ast_binaryoperation op_divide p real_type
             (if lt =? real_type then l1
              else ast_cast (pos l1) real_type l1)
             (if rt =? real_type then r1
              else ast_cast (pos r1) real_type r1),
           real_type), s2).

(** "For aligned pairs whose types differ, the actual is cast-wrapped
    exactly when the formal's type is real." *)
Definition differing_actual_cast_iff_formal_real : Prop :=
  forall formal formals p preceding actual,
    type actual <> formal ->
    last_actual
      (snd (chk_param (formal :: formals)
              (expr_list_node p preceding actual))) =
    Some (new_ast_cast (pos actual) actual)
    <-> formal = real_type.

(** "Under the precondition that the divisor constant is nonzero the
    evaluation is well defined": it yields the quotient or remainder. *)
Definition nonzero_divisor_folds : Prop :=
  forall get_symbol fuel op p ty l r l' r' a b,
    op = op_idiv \/ op = op_mod ->
    fold_constants get_symbol fuel l = Done l' ->
    fold_constants get_symbol fuel r = Done r' ->
    is_const get_symbol l' = true -> is_const get_symbol r' = true ->
    type l' = integer_type -> type r' = integer_type ->
    long_value get_symbol l' = Done a ->
    long_value get_symbol r' = Done b ->
    b <> 0 ->
    fold_constants get_symbol (S fuel) (ast_binaryoperation op p ty l r) =
    Done (ast_integer p (truncating op a b)).

(** "The NOT node's result type is always integer." *)
Definition not_resolves_to_integer : Prop :=
  forall get_symbol p ty e s r t s',
    type_check get_symbol (ast_not p ty e) s = Done ((r, t), s') ->
    t = integer_type.

(** ** Notions for the further properties *)

(** What the type checker may write, erased: cast nodes are dropped and the
    type fields that the check of an indexed access, a binary operation or
    a binary relation assigns are cleared. *)
Fixpoint erase (node : ast_expression) : ast_expression :=
  match node with
  | ast_id_expr _ | ast_integer _ _ | ast_real _ _ => node
  | ast_indexed p _ id index => ast_indexed p void_type id (erase index)
  | ast_binaryoperation op p _ l r =>
      ast_binaryoperation op p void_type (erase l) (erase r)
  | ast_binaryrelation rel p _ l r =>
      ast_binaryrelation rel p void_type (erase l) (erase r)
  | ast_uminus p ty e => ast_uminus p ty (erase e)
  | ast_not p ty e => ast_not p ty (erase e)
  | ast_cast _ _ e => erase e
  | ast_functioncall p ty id l => ast_functioncall p ty id (erase_list l)
  end
with erase_list (node : ast_expr_list) : ast_expr_list :=
  match node with
  | expr_list_null => expr_list_null
  | expr_list_node p preceding e =>
      expr_list_node p (erase_list preceding) (erase e)
  end.

Definition is_cast (node : ast_expression) : bool :=
  match node with
  | ast_cast _ _ _ => true
  | _ => false
  end.

(** Every cast node is typed real and wraps a node that is not a cast. *)
Fixpoint well_cast (node : ast_expression) : bool :=
  match node with
  | ast_id_expr _ | ast_integer _ _ | ast_real _ _ => true
  | ast_indexed _ _ _ index => well_cast index
  | ast_binaryoperation _ _ _ l r | ast_binaryrelation _ _ _ l r =>
      well_cast l && well_cast r
  | ast_uminus _ _ e | ast_not _ _ e => well_cast e
  | ast_cast _ ty e => (ty =? real_type) && negb (is_cast e) && well_cast e
  | ast_functioncall _ _ _ l => well_cast_list l
  end
with well_cast_list (node : ast_expr_list) : bool :=
  match node with
  | expr_list_null => true
  | expr_list_node _ preceding e => well_cast_list preceding && well_cast e
  end.

(** No cast node occurs, and every call names a function or a procedure. *)
Definition callable (t : sym_type) : bool :=
  match t with
  | SYM_FUNC | SYM_PROC => true
  | _ => false
  end.

Fixpoint checkable (get_symbol : sym_index -> Symtab.symbol)
  (node : ast_expression) : bool :=
  match node with
  | ast_id_expr _ | ast_integer _ _ | ast_real _ _ => true
  | ast_indexed _ _ _ index => checkable get_symbol index
  | ast_binaryoperation _ _ _ l r | ast_binaryrelation _ _ _ l r =>
      checkable get_symbol l && checkable get_symbol r
  | ast_uminus _ _ e | ast_not _ _ e => checkable get_symbol e
  | ast_cast _ _ _ => false
  | ast_functioncall _ _ id l =>
      checkable_list get_symbol l
      && callable (Symtab.tag (get_symbol (sym_p id)))
  end
with checkable_list (get_symbol : sym_index -> Symtab.symbol)
  (node : ast_expr_list) : bool :=
  match node with
  | expr_list_null => true
  | expr_list_node _ preceding e =>
      checkable_list get_symbol preceding && checkable get_symbol e
  end.

(** [erase] on every expression of a statement tree. *)
Fixpoint erase_stmt (node : ast_statement) : ast_statement :=
  match node with
  | stmt_null => stmt_null
  | ast_procedurecall p id l => ast_procedurecall p id (erase_list l)
  | ast_assign p lhs rhs => ast_assign p (erase lhs) (erase rhs)
  | ast_while p c body => ast_while p (erase c) (erase_stmt_list body)
  | ast_if p c body elsif_list else_body =>
      ast_if p (erase c) (erase_stmt_list body)
        (erase_elsif_list elsif_list) (erase_stmt_list else_body)
  | ast_return p value => ast_return p (option_map erase value)
  end
with erase_stmt_list (node : ast_stmt_list) : ast_stmt_list :=
  match node with
  | stmt_list_null => stmt_list_null
  | stmt_list_node p preceding last_stmt =>
      stmt_list_node p (erase_stmt_list preceding) (erase_stmt last_stmt)
  end
with erase_elsif (node : ast_elsif) : ast_elsif :=
  match node with
  | mk_ast_elsif p c body => mk_ast_elsif p (erase c) (erase_stmt_list body)
  end
with erase_elsif_list (node : ast_elsif_list) : ast_elsif_list :=
  match node with
  | elsif_list_null => elsif_list_null
  | elsif_list_node p preceding last_elsif =>
      elsif_list_node p (erase_elsif_list preceding)
        (erase_elsif last_elsif)
  end.

(** The expressions that hang off a statement tree, in source order: the
    actuals of calls, both sides of assignments, conditions and returned
    values. *)
Fixpoint expr_list_exprs (node : ast_expr_list) : list ast_expression :=
  match node with
  | expr_list_null => []
  | expr_list_node _ preceding e => (expr_list_exprs preceding ++ [e])%list
  end.

Fixpoint stmt_exprs (node : ast_statement) : list ast_expression :=
  match node with
  | stmt_null => []
  | ast_procedurecall _ _ l => expr_list_exprs l
  | ast_assign _ lhs rhs => [lhs; rhs]
  | ast_while _ c body => c :: stmt_list_exprs body
  | ast_if _ c body elsif_list else_body =>
      (c :: stmt_list_exprs body ++ elsif_list_exprs elsif_list
         ++ stmt_list_exprs else_body)%list
  | ast_return _ value =>
      match value with
      | Some e => [e]
      | None => []
      end
  end
with stmt_list_exprs (node : ast_stmt_list) : list ast_expression :=
  match node with
  | stmt_list_null => []
  | stmt_list_node _ preceding last_stmt =>
      (stmt_list_exprs preceding ++ stmt_exprs last_stmt)%list
  end
with elsif_exprs (node : ast_elsif) : list ast_expression :=
  match node with
  | mk_ast_elsif _ c body => c :: stmt_list_exprs body
  end
with elsif_list_exprs (node : ast_elsif_list) : list ast_expression :=
  match node with
  | elsif_list_null => []
  | elsif_list_node _ preceding last_elsif =>
      (elsif_list_exprs preceding ++ elsif_exprs last_elsif)%list
  end.

(** A pass returned, rather than stopped. *)
Definition completes {A} (o : outcome A) : bool :=
  match o with
  | Done _ => true
  | Halt _ => false
  end.

(** [checkable] on a statement tree: it holds for every expression, and
    every procedure call names a function or a procedure. *)
Fixpoint checkable_stmt (get_symbol : sym_index -> Symtab.symbol)
  (node : ast_statement) : bool :=
  match node with
  | stmt_null => true
  | ast_procedurecall _ id l =>
      checkable_list get_symbol l
      && callable (Symtab.tag (get_symbol (sym_p id)))
  | ast_assign _ lhs rhs =>
      checkable get_symbol lhs && checkable get_symbol rhs
  | ast_while _ c body =>
      checkable get_symbol c && checkable_stmt_list get_symbol body
  | ast_if _ c body elsif_list else_body =>
      checkable get_symbol c && checkable_stmt_list get_symbol body
      && checkable_elsif_list get_symbol elsif_list
      && checkable_stmt_list get_symbol else_body
  | ast_return _ value =>
      match value with
      | Some e => checkable get_symbol e
      | None => true
      end
  end
with checkable_stmt_list (get_symbol : sym_index -> Symtab.symbol)
  (node : ast_stmt_list) : bool :=
  match node with
  | stmt_list_null => true
  | stmt_list_node _ preceding last_stmt =>
      checkable_stmt_list get_symbol preceding
      && checkable_stmt get_symbol last_stmt
  end
with checkable_elsif (get_symbol : sym_index -> Symtab.symbol)
  (node : ast_elsif) : bool :=
  match node with
  | mk_ast_elsif _ c body =>
      checkable get_symbol c && checkable_stmt_list get_symbol body
  end
with checkable_elsif_list (get_symbol : sym_index -> Symtab.symbol)
  (node : ast_elsif_list) : bool :=
  match node with
  | elsif_list_null => true
  | elsif_list_node _ preceding last_elsif =>
      checkable_elsif_list get_symbol preceding
      && checkable_elsif get_symbol last_elsif
  end.

(** A return statement occurs in the statement tree outside the bodies of
    its elsif clauses. *)
Fixpoint stmt_returns_outside_elsif (node : ast_statement) : bool :=
  match node with
  | stmt_null | ast_procedurecall _ _ _ | ast_assign _ _ _ => false
  | ast_while _ _ body => stmt_list_returns_outside_elsif body
  | ast_if _ _ body _ else_body =>
      stmt_list_returns_outside_elsif body
      || stmt_list_returns_outside_elsif else_body
  | ast_return _ _ => true
  end
with stmt_list_returns_outside_elsif (node : ast_stmt_list) : bool :=
  match node with
  | stmt_list_null => false
  | stmt_list_node _ preceding last_stmt =>
      stmt_list_returns_outside_elsif preceding
      || stmt_returns_outside_elsif last_stmt
  end.

(** What one step of the check does to the state: it only adds
    diagnostics, it never clears the flag, it sets the flag only if [may],
    and it does set it if [must]. *)
Definition flag_step (may must : bool) (s s' : tc_state) : Prop :=
  (exists l, diagnostics s' = (diagnostics s ++ l)%list) /\
  (has_return s = true -> has_return s' = true) /\
  (has_return s' = true -> has_return s = true \/ may = true) /\
  (must = true -> has_return s' = true).

(** The type fields of the actuals of a list, the last actual first, as
    the formals are listed. *)
Fixpoint actual_types (node : ast_expr_list) : list sym_index :=
  match node with
  | expr_list_null => []
  | expr_list_node _ preceding e => type e :: actual_types preceding
  end.

(** The operator name that [ast_or], [ast_and], [ast_idiv] and [ast_mod]
    pass to [check_binop2]. *)
Definition binop2_name (op : binaryoperation) : string :=
  match op with
  | op_or => "OR"
  | op_and => "AND"
  | op_idiv => "DIV"
  | _ => "MOD"
  end.

(** ** Folding in one pass

    The fold that recurses into the children once and then decides on the
    node itself: [fold_constants] without the second fold of the children
    that [node->optimize()] has folded already.  It is structurally
    recursive, and is compared with [fold_constants] below. *)
Fixpoint fold_once (get_symbol : sym_index -> Symtab.symbol)
  (node : ast_expression) : outcome ast_expression :=
  match node with
  | ast_id_expr _ | ast_cast _ _ _ | ast_integer _ _ | ast_real _ _ =>
      Done node
  | ast_indexed p ty id index =>
      obind (fold_once get_symbol index)
        (fun index' => Done (ast_indexed p ty id index'))
  | ast_binaryoperation op p ty l r =>
      obind (fold_once get_symbol l) (fun l' =>
      obind (fold_once get_symbol r) (fun r' =>
      fold_binaryoperation get_symbol (fun e => Done e)
        (ast_binaryoperation op p ty l' r')))
  | ast_binaryrelation rel p ty l r =>
      obind (fold_once get_symbol l) (fun l' =>
      obind (fold_once get_symbol r) (fun r' =>
      Done (ast_binaryrelation rel p ty l' r')))
  | ast_uminus p ty e =>
      obind (fold_once get_symbol e) (fun e' => Done (ast_uminus p ty e'))
  | ast_not p ty e =>
      obind (fold_once get_symbol e) (fun e' => Done (ast_not p ty e'))
  | ast_functioncall p ty id l =>
      obind (fold_once_list get_symbol l)
        (fun l' => Done (ast_functioncall p ty id l'))
  end
with fold_once_list (get_symbol : sym_index -> Symtab.symbol)
  (node : ast_expr_list) : outcome ast_expr_list :=
  match node with
  | expr_list_null => Done node
  | expr_list_node p preceding e =>
      obind (fold_once_list get_symbol preceding) (fun preceding' =>
      obind (fold_once get_symbol e) (fun e' =>
      Done (expr_list_node p preceding' e')))
  end.

(** The number of nodes of an expression. *)
Fixpoint size (node : ast_expression) : nat :=
  match node with
  | ast_id_expr _ | ast_integer _ _ | ast_real _ _ => 1
  | ast_indexed _ _ _ e | ast_uminus _ _ e | ast_not _ _ e
  | ast_cast _ _ e => S (size e)
  | ast_binaryoperation _ _ _ l r | ast_binaryrelation _ _ _ l r =>
      S (size l + size r)
  | ast_functioncall _ _ _ l => S (size_list l)
  end
with size_list (node : ast_expr_list) : nat :=
  match node with
  | expr_list_null => 0
  | expr_list_node _ preceding e => (size_list preceding + size e)%nat
  end.

Definition total_size (l : list ast_expression) : nat :=
  fold_right (fun e n => (size e + n)%nat) 0%nat l.

(** A DIV or MOD node occurs in the expression. *)
Fixpoint has_idiv_mod (node : ast_expression) : bool :=
  match node with
  | ast_id_expr _ | ast_integer _ _ | ast_real _ _ => false
  | ast_indexed _ _ _ e | ast_uminus _ _ e | ast_not _ _ e
  | ast_cast _ _ e => has_idiv_mod e
  | ast_binaryoperation op _ _ l r =>
      match op with
      | op_idiv | op_mod => true
      | _ => has_idiv_mod l || has_idiv_mod r
      end
  | ast_binaryrelation _ _ _ l r => has_idiv_mod l || has_idiv_mod r
  | ast_functioncall _ _ _ l => has_idiv_mod_list l
  end
with has_idiv_mod_list (node : ast_expr_list) : bool :=
  match node with
  | expr_list_null => false
  | expr_list_node _ preceding e =>
      has_idiv_mod_list preceding || has_idiv_mod e
  end.

(** The identifier's type field does not contradict the member its
    constant holds: no real-typed identifier of an integer constant, no
    integer-typed identifier of a real constant. *)
Definition constant_fits (get_symbol : sym_index -> Symtab.symbol)
  (id : ast_id) : bool :=
  match Symtab.tag (get_symbol (sym_p id)) with
  | SYM_CONST =>
      match Symtab.const_value (get_symbol (sym_p id)) with
      | ival _ => negb (id_type id =? real_type)
      | rval _ => negb (id_type id =? integer_type)
      end
  | _ => true
  end.

Definition in_long (z : Z) : bool := (LONG_MIN <=? z) && (z <=? LONG_MAX).

(** The same, and an integer constant's value is a [long]. *)
Definition constant_in_long (get_symbol : sym_index -> Symtab.symbol)
  (id : ast_id) : bool :=
  match Symtab.tag (get_symbol (sym_p id)) with
  | SYM_CONST =>
      match Symtab.const_value (get_symbol (sym_p id)) with
      | ival v => in_long v
      | rval _ => true
      end
  | _ => true
  end.

(** A property of every identifier and of every integer literal of an
    expression. *)
Fixpoint leaves (on_id : ast_id -> bool) (on_long : Z -> bool)
  (node : ast_expression) : bool :=
  match node with
  | ast_id_expr id => on_id id
  | ast_integer _ v => on_long v
  | ast_real _ _ => true
  | ast_indexed _ _ id e => on_id id && leaves on_id on_long e
  | ast_uminus _ _ e | ast_not _ _ e | ast_cast _ _ e =>
      leaves on_id on_long e
  | ast_binaryoperation _ _ _ l r | ast_binaryrelation _ _ _ l r =>
      leaves on_id on_long l && leaves on_id on_long r
  | ast_functioncall _ _ _ l => leaves_list on_id on_long l
  end
with leaves_list (on_id : ast_id -> bool) (on_long : Z -> bool)
  (node : ast_expr_list) : bool :=
  match node with
  | expr_list_null => true
  | expr_list_node _ preceding e =>
      leaves_list on_id on_long preceding && leaves on_id on_long e
  end.

(** An expression built from integer literals, integer-typed identifiers
    of integer constants and the operators [+], [-], [*], AND and OR. *)
Fixpoint integer_constant_expression
  (get_symbol : sym_index -> Symtab.symbol) (node : ast_expression) : bool :=
  match node with
  | ast_integer _ _ => true
  | ast_id_expr id =>
      sym_type_eqb (Symtab.tag (get_symbol (sym_p id))) SYM_CONST
      && (id_type id =? integer_type)
      && match Symtab.const_value (get_symbol (sym_p id)) with
         | ival _ => true
         | rval _ => false
         end
  | ast_binaryoperation op _ _ l r =>
      match op with
      | op_add | op_sub | op_mult | op_and | op_or =>
          integer_constant_expression get_symbol l
          && integer_constant_expression get_symbol r
      | op_divide | op_idiv | op_mod => false
      end
  | _ => false
  end.

(** The left sides of the assignments of a statement, in the order of the
    walk. *)
Fixpoint stmt_targets (node : ast_statement) : list ast_expression :=
  match node with
  | ast_assign _ lhs _ => [lhs]
  | ast_while _ _ body => stmt_list_targets body
  | ast_if _ _ body elsif_list else_body =>
      (stmt_list_targets body ++ elsif_list_targets elsif_list
         ++ stmt_list_targets else_body)%list
  | stmt_null | ast_procedurecall _ _ _ | ast_return _ _ => []
  end
with stmt_list_targets (node : ast_stmt_list) : list ast_expression :=
  match node with
  | stmt_list_null => []
  | stmt_list_node _ preceding last_stmt =>
      (stmt_list_targets preceding ++ stmt_targets last_stmt)%list
  end
with elsif_targets (node : ast_elsif) : list ast_expression :=
  match node with
  | mk_ast_elsif _ _ body => stmt_list_targets body
  end
with elsif_list_targets (node : ast_elsif_list) : list ast_expression :=
  match node with
  | elsif_list_null => []
  | elsif_list_node _ preceding last_elsif =>
      (elsif_list_targets preceding ++ elsif_targets last_elsif)%list
  end.

(** ** The statement of the design document on what is replaced *)

(** The expressions directly under a node, in the order of the fields;
    the identifier of an indexed access or of a call is an [ast_id], which
    no [optimize] method folds. *)
Definition children (node : ast_expression) : list ast_expression :=
  match node with
  | ast_id_expr _ | ast_integer _ _ | ast_real _ _ => []
  | ast_indexed _ _ _ index => [index]
  | ast_binaryoperation _ _ _ l r | ast_binaryrelation _ _ _ l r => [l; r]
  | ast_uminus _ _ e | ast_not _ _ e | ast_cast _ _ e => [e]
  | ast_functioncall _ _ _ l => expr_list_exprs l
  end.

(** The positions of the nodes of an expression list, first to last. *)
Fixpoint expr_list_positions (node : ast_expr_list)
  : list position_information :=
  match node with
  | expr_list_null => []
  | expr_list_node p preceding _ =>
      (expr_list_positions preceding ++ [p])%list
  end.

(** "Relational nodes, unary minus, NOT, cast, call, indexed, and
    identifier nodes are never themselves replaced - only their children
    are folded": what comes back has the node's tag and, child by child,
    the fold of the node's children. *)
Definition children_of_other_nodes_are_folded : Prop :=
  forall get_symbol fuel node x,
    is_binop node = false ->
    fold_constants get_symbol (S fuel) node = Done x ->
    tag x = tag node /\
    Forall2 (fun e e' => fold_constants get_symbol fuel e = Done e')
      (children node) (children x).

(** * Properties *)

Ltac inv H := inversion H; subst; clear H.

(** ** Outcomes and fuel *)

(** [f] and [g] agree wherever [f] does not run out of fuel. *)
Definition refines {A B} (f g : A -> outcome B) : Prop :=
  forall a o, f a = o -> o <> Halt out_of_fuel -> g a = o.

Lemma refines_refl {A B} (f : A -> outcome B) : refines f f.
Proof. intros a o H _. exact H. Qed.

Lemma refines_trans {A B} (f g h : A -> outcome B) :
  refines f g -> refines g h -> refines f h.
Proof.
  intros Hfg Hgh a o H Ho. apply Hgh; [apply Hfg|]; assumption.
Qed.

Lemma obind_refines {A B} (m m' : outcome A) (k k' : A -> outcome B) o :
  obind m k = o -> o <> Halt out_of_fuel ->
  (forall o', m = o' -> o' <> Halt out_of_fuel -> m' = o') ->
  refines k k' ->
  obind m' k' = o.
Proof.
  intros H Ho Hm Hk. destruct m as [a|r]; simpl in H.
  - rewrite (Hm (Done a) eq_refl) by discriminate. simpl. now apply Hk.
  - subst o. rewrite (Hm (Halt r) eq_refl); [reflexivity|].
    intros E. apply Ho. congruence.
Qed.

Lemma obind_done {A B} (m : outcome A) (k : A -> outcome B) b :
  obind m k = Done b -> exists a, m = Done a /\ k a = Done b.
Proof.
  destruct m as [a|r]; simpl; intros H; [eauto | discriminate].
Qed.

Ltac obind_inv H :=
  repeat match type of H with
         | obind _ _ = Done _ =>
             let a := fresh "x" in
             let E := fresh "E" in
             apply obind_done in H; destruct H as (a & E & H)
         end.

Section OptimizeFacts.

Variable get_symbol : sym_index -> Symtab.symbol.

#[local] Abbreviation fold_constants := (fold_constants get_symbol).
#[local] Abbreviation fold_binaryoperation := (fold_binaryoperation get_symbol).
#[local] Abbreviation is_const := (is_const get_symbol).

Lemma optimize_expr_list_refines f g :
  refines f g -> refines (optimize_expr_list f) (optimize_expr_list g).
Proof.
  intros Hfg l. induction l as [|p prec IH last]; intros o H Ho.
  - exact H.
  - simpl in *. eapply obind_refines; [exact H|exact Ho|exact IH|].
    intros prec' o1 H1 Ho1.
    eapply obind_refines; [exact H1|exact Ho1|apply Hfg|].
    apply refines_refl.
Qed.

Lemma optimize_refines f g :
  refines f g -> refines (optimize f) (optimize g).
Proof.
  intros Hfg e o H Ho.
  destruct e; simpl in *; try exact H;
    try (eapply obind_refines; [exact H|exact Ho|apply Hfg|];
         first [ apply refines_refl
               | intros a1 o1 H1 Ho1;
                 eapply obind_refines; [exact H1|exact Ho1|apply Hfg|];
                 apply refines_refl ]).
  eapply obind_refines; [exact H|exact Ho| |apply refines_refl].
  apply optimize_expr_list_refines; assumption.
Qed.

Lemma fold_binaryoperation_refines f g :
  refines f g -> refines (fold_binaryoperation f) (fold_binaryoperation g).
Proof.
  intros Hfg e o H Ho.
  destruct e; simpl in *; try exact H.
  eapply obind_refines; [exact H|exact Ho|apply Hfg|].
  intros a1 o1 H1 Ho1.
  eapply obind_refines; [exact H1|exact Ho1|apply Hfg|].
  apply refines_refl.
Qed.

Lemma fold_constants_step_refines fuel :
  refines (fold_constants fuel) (fold_constants (S fuel)).
Proof.
  induction fuel as [|n IH]; intros e o H Ho.
  - simpl in H. subst o. congruence.
  - change (fold_constants (S n) e) with
      (obind (optimize (fold_constants n) e)
         (fun node => if is_binop node
                      then fold_binaryoperation (fold_constants n) node
                      else Done node)) in H.
    change (fold_constants (S (S n)) e) with
      (obind (optimize (fold_constants (S n)) e)
         (fun node => if is_binop node
                      then fold_binaryoperation (fold_constants (S n)) node
                      else Done node)).
    eapply obind_refines; [exact H|exact Ho| |].
    + apply optimize_refines, IH.
    + intros node o1 H1 Ho1. destruct (is_binop node); [|exact H1].
      eapply fold_binaryoperation_refines; eauto.
Qed.

Lemma fold_constants_refines fuel fuel' :
  (fuel <= fuel')%nat ->
  refines (fold_constants fuel) (fold_constants fuel').
Proof.
  induction 1 as [|m _ IH]; [apply refines_refl|].
  eapply refines_trans; [exact IH|apply fold_constants_step_refines].
Qed.

(** *** A second run changes nothing *)

Definition idempotent {A} (f : A -> outcome A) : Prop :=
  forall a r, f a = Done r -> f r = Done r.

Lemma optimize_expr_list_idempotent f :
  idempotent f -> idempotent (optimize_expr_list f).
Proof.
  intros Hf l. induction l as [|p prec IH last]; intros r H.
  - inv H. reflexivity.
  - simpl in H.
    apply obind_done in H. destruct H as (prec' & Hp & H).
    apply obind_done in H. destruct H as (last' & Hl & H).
    inv H. simpl. rewrite (IH _ Hp). simpl. rewrite (Hf _ _ Hl).
    reflexivity.
Qed.

(** What [fold_constants] can return for a binary operation: the node
    itself, or a new literal at the node's position. *)
Lemma fold_long_cases op p node l r x :
  fold_long op p node l r = Done x ->
  x = node \/ exists v, x = ast_integer p v.
Proof.
  destruct op; simpl; intros H;
    try (inv H; eauto; fail);
    apply obind_done in H; destruct H as (q & _ & H); inv H; eauto.
Qed.

Lemma fold_double_cases op p node l r x :
  fold_double op p node l r = Done x ->
  x = node \/ exists v, x = ast_real p v.
Proof.
  destruct op; simpl; intros H; inv H; eauto.
Qed.

Lemma fold_binaryoperation_cases f op p ty l r x :
  fold_binaryoperation f (ast_binaryoperation op p ty l r) = Done x ->
  exists l' r',
    f l = Done l' /\ f r = Done r' /\
    (x = ast_binaryoperation op p ty l' r' \/
     (exists v, x = ast_integer p v) \/ (exists v, x = ast_real p v)).
Proof.
  simpl. intros H.
  apply obind_done in H. destruct H as (l' & Hl & H).
  apply obind_done in H. destruct H as (r' & Hr & H).
  exists l', r'. split; [assumption|]. split; [assumption|].
  destruct (negb (is_const l' && is_const r')); [inv H; auto|].
  destruct ((type l' =? integer_type) && (type r' =? integer_type)).
  { apply obind_done in H. destruct H as (lv & _ & H).
    apply obind_done in H. destruct H as (rv & _ & H).
    apply fold_long_cases in H. tauto. }
  destruct ((type l' =? real_type) && (type r' =? real_type)).
  { apply obind_done in H. destruct H as (lv & _ & H).
    apply obind_done in H. destruct H as (rv & _ & H).
    apply fold_double_cases in H. tauto. }
  inv H. auto.
Qed.

Lemma fold_constants_literal fuel e :
  is_binop e = false -> optimize (fold_constants fuel) e = Done e ->
  fold_constants (S fuel) e = Done e.
Proof.
  intros Hb Ho. simpl. rewrite Ho. simpl. rewrite Hb. reflexivity.
Qed.

Lemma fold_constants_idempotent fuel : idempotent (fold_constants fuel).
Proof.
  induction fuel as [|n IH]; intros e x H; [discriminate|].
  simpl in H. apply obind_done in H. destruct H as (e1 & Ho & H).
  destruct e; simpl in Ho.
  - inv Ho. inv H. reflexivity.
  - apply obind_done in Ho. destruct Ho as (i' & Hi & Ho). inv Ho.
    inv H. apply fold_constants_literal; [reflexivity|].
    simpl. rewrite (IH _ _ Hi). reflexivity.
  - apply obind_done in Ho. destruct Ho as (l1 & Hl & Ho).
    apply obind_done in Ho. destruct Ho as (r1 & Hr & Ho). inv Ho.
    assert (Hb : is_binop (ast_binaryoperation op pos0 ty l1 r1) = true)
      by (destruct op; reflexivity).
    rewrite Hb in H.
    pose proof (IH _ _ Hl) as Hl1. pose proof (IH _ _ Hr) as Hr1.
    destruct (fold_binaryoperation_cases _ _ _ _ _ _ _ H)
      as (l2 & r2 & Hl2 & Hr2 & Hx).
    rewrite Hl1 in Hl2. rewrite Hr1 in Hr2. inv Hl2. inv Hr2.
    destruct Hx as [Hx | [[v Hx] | [v Hx]]]; subst x.
    + change (fold_constants (S n) (ast_binaryoperation op pos0 ty l2 r2))
        with
        (obind (optimize (fold_constants n)
                  (ast_binaryoperation op pos0 ty l2 r2))
           (fun node => if is_binop node
                        then fold_binaryoperation (fold_constants n) node
                        else Done node)).
      simpl optimize. rewrite Hl1, Hr1. simpl obind. rewrite Hb. exact H.
    + reflexivity.
    + reflexivity.
  - apply obind_done in Ho. destruct Ho as (l1 & Hl & Ho).
    apply obind_done in Ho. destruct Ho as (r1 & Hr & Ho). inv Ho.
    assert (Hb : is_binop (ast_binaryrelation rel pos0 ty l1 r1) = false)
      by (destruct rel; reflexivity).
    rewrite Hb in H. inv H. apply fold_constants_literal; [assumption|].
    simpl. rewrite (IH _ _ Hl). simpl. rewrite (IH _ _ Hr). reflexivity.
  - apply obind_done in Ho. destruct Ho as (e' & He & Ho). inv Ho.
    inv H. apply fold_constants_literal; [reflexivity|].
    simpl. rewrite (IH _ _ He). reflexivity.
  - apply obind_done in Ho. destruct Ho as (e' & He & Ho). inv Ho.
    inv H. apply fold_constants_literal; [reflexivity|].
    simpl. rewrite (IH _ _ He). reflexivity.
  - inv Ho. inv H. reflexivity.
  - inv Ho. inv H. reflexivity.
  - inv Ho. inv H. reflexivity.
  - apply obind_done in Ho. destruct Ho as (l' & Hl & Ho). inv Ho.
    inv H. apply fold_constants_literal; [reflexivity|].
    simpl. rewrite (optimize_expr_list_idempotent _ IH _ _ Hl).
    reflexivity.
Qed.

Lemma optimize_stmt_idempotent f :
  idempotent f ->
  idempotent (optimize_stmt f) /\ idempotent (optimize_stmt_list f) /\
  idempotent (optimize_elsif f) /\ idempotent (optimize_elsif_list f).
Proof.
  intros Hf. unfold idempotent.
  apply ast_statement_mutind; intros; simpl in *.
  - inv H. reflexivity.
  - obind_inv H. inv H. simpl.
    rewrite (optimize_expr_list_idempotent _ Hf _ _ E). reflexivity.
  - obind_inv H. inv H. simpl. rewrite (Hf _ _ E). reflexivity.
  - obind_inv H0. inv H0. simpl.
    rewrite (Hf _ _ E). simpl. rewrite (H _ E0). reflexivity.
  - obind_inv H2. inv H2. simpl.
    rewrite (Hf _ _ E). simpl. rewrite (H _ E0). simpl.
    rewrite (H0 _ E1). simpl. rewrite (H1 _ E2). reflexivity.
  - destruct value as [v|].
    + obind_inv H. inv H. simpl. rewrite (Hf _ _ E). reflexivity.
    + inv H. reflexivity.
  - inv H. reflexivity.
  - obind_inv H1. inv H1. simpl.
    rewrite (H _ E). simpl. rewrite (H0 _ E0). reflexivity.
  - obind_inv H0. inv H0. simpl.
    rewrite (Hf _ _ E). simpl. rewrite (H _ E0). reflexivity.
  - inv H. reflexivity.
  - obind_inv H1. inv H1. simpl.
    rewrite (H _ E). simpl. rewrite (H0 _ E0). reflexivity.
Qed.

Lemma optimize_stmt_refines f g :
  refines f g ->
  refines (optimize_stmt f) (optimize_stmt g) /\
  refines (optimize_stmt_list f) (optimize_stmt_list g) /\
  refines (optimize_elsif f) (optimize_elsif g) /\
  refines (optimize_elsif_list f) (optimize_elsif_list g).
Proof.
  intros Hfg.
  pose proof (optimize_expr_list_refines _ _ Hfg) as Hl.
  unfold refines in *.
  apply ast_statement_mutind; intros; simpl in *;
    try assumption;
    try (destruct value; [|assumption]);
    repeat match goal with
           | H : obind _ _ = ?o, Ho : ?o <> Halt out_of_fuel |- _ =>
               eapply obind_refines; [exact H|exact Ho|solve [eauto]|];
               clear H Ho; intros ? ? ? ?
           end;
    assumption.
Qed.

Lemma do_optimize_refines fuel fuel' :
  (fuel <= fuel')%nat ->
  refines (do_optimize get_symbol fuel) (do_optimize get_symbol fuel').
Proof.
  intros Hle. unfold do_optimize.
  apply optimize_stmt_refines, fold_constants_refines, Hle.
Qed.

(** *** Enough fuel always exists *)

Definition fueled {A} (o : outcome A) : Prop := o <> Halt out_of_fuel.

Lemma obind_fueled {A B} (m : outcome A) (k : A -> outcome B) :
  fueled m -> (forall a, m = Done a -> fueled (k a)) -> fueled (obind m k).
Proof.
  unfold fueled. intros Hm Hk. destruct m as [a|r]; simpl.
  - apply Hk. reflexivity.
  - intros E. apply Hm. congruence.
Qed.

Lemma done_fueled {A} (a : A) : fueled (Done a).
Proof. discriminate. Qed.

Lemma fold_binaryoperation_fueled f op p ty l r :
  f l = Done l -> f r = Done r ->
  fueled (fold_binaryoperation f (ast_binaryoperation op p ty l r)).
Proof.
  intros Hl Hr. simpl. rewrite Hl, Hr. simpl.
  destruct (negb (is_const l && is_const r)); [apply done_fueled|].
  destruct ((type l =? integer_type) && (type r =? integer_type)).
  { apply obind_fueled.
    - destruct l; simpl; try discriminate.
      destruct (Symtab.const_value _); discriminate.
    - intros lv _. apply obind_fueled.
      + destruct r; simpl; try discriminate.
        destruct (Symtab.const_value _); discriminate.
      + intros rv _. destruct op; simpl; try apply done_fueled.
        * unfold long_div.
          destruct (rv =? 0); [discriminate|].
          destruct ((lv =? LONG_MIN) && (rv =? -1)); discriminate.
        * unfold long_mod.
          destruct (rv =? 0); [discriminate|].
          destruct ((lv =? LONG_MIN) && (rv =? -1)); discriminate. }
  destruct ((type l =? real_type) && (type r =? real_type));
    [|apply done_fueled].
  apply obind_fueled.
  - destruct l; simpl; try discriminate.
    destruct (Symtab.const_value _); discriminate.
  - intros lv _. apply obind_fueled.
    + destruct r; simpl; try discriminate.
      destruct (Symtab.const_value _); discriminate.
    + intros rv _. destruct op; simpl; apply done_fueled.
Qed.

Definition eventually_fueled {A B} (f : nat -> A -> outcome B) (a : A)
  : Prop :=
  exists n, forall m, (n <= m)%nat -> fueled (f m a).

Lemma fold_constants_terminates :
  (forall e, eventually_fueled fold_constants e) /\
  (forall l,
      eventually_fueled
        (fun m => optimize_expr_list (fold_constants m)) l).
Proof.
  apply ast_expression_mutind; unfold eventually_fueled; intros.
  - exists 1%nat. intros [|m] Hm; [lia|]. discriminate.
  - destruct H as [n Hn]. exists (S n). intros [|m] Hm; [lia|].
    simpl. apply obind_fueled.
    + apply obind_fueled; [apply Hn; lia|]. intros; apply done_fueled.
    + intros a Ha. obind_inv Ha. inv Ha. apply done_fueled.
  - destruct H as [n1 Hn1]. destruct H0 as [n2 Hn2].
    exists (S (Nat.max n1 n2)). intros [|m] Hm; [lia|].
    simpl. apply obind_fueled.
    + apply obind_fueled; [apply Hn1; lia|]. intros l1 _.
      apply obind_fueled; [apply Hn2; lia|]. intros; apply done_fueled.
    + intros a Ha. obind_inv Ha. inv Ha.
      replace (is_binop (ast_binaryoperation op pos0 ty x x0)) with true
        by (destruct op; reflexivity).
      apply fold_binaryoperation_fueled;
        eapply fold_constants_idempotent; eassumption.
  - destruct H as [n1 Hn1]. destruct H0 as [n2 Hn2].
    exists (S (Nat.max n1 n2)). intros [|m] Hm; [lia|].
    simpl. apply obind_fueled.
    + apply obind_fueled; [apply Hn1; lia|]. intros l1 _.
      apply obind_fueled; [apply Hn2; lia|]. intros; apply done_fueled.
    + intros a Ha. obind_inv Ha. inv Ha.
      replace (is_binop (ast_binaryrelation rel pos0 ty x x0)) with false
        by (destruct rel; reflexivity).
      apply done_fueled.
  - destruct H as [n Hn]. exists (S n). intros [|m] Hm; [lia|].
    simpl. apply obind_fueled.
    + apply obind_fueled; [apply Hn; lia|]. intros; apply done_fueled.
    + intros a Ha. obind_inv Ha. inv Ha. apply done_fueled.
  - destruct H as [n Hn]. exists (S n). intros [|m] Hm; [lia|].
    simpl. apply obind_fueled.
    + apply obind_fueled; [apply Hn; lia|]. intros; apply done_fueled.
    + intros a Ha. obind_inv Ha. inv Ha. apply done_fueled.
  - exists 1%nat. intros [|m] Hm; [lia|]. discriminate.
  - exists 1%nat. intros [|m] Hm; [lia|]. discriminate.
  - exists 1%nat. intros [|m] Hm; [lia|]. discriminate.
  - destruct H as [n Hn]. exists (S n). intros [|m] Hm; [lia|].
    simpl. apply obind_fueled.
    + apply obind_fueled; [apply Hn; lia|]. intros; apply done_fueled.
    + intros a Ha. obind_inv Ha. inv Ha. apply done_fueled.
  - exists 0%nat. intros m _. apply done_fueled.
  - destruct H as [n1 Hn1]. destruct H0 as [n2 Hn2].
    exists (Nat.max n1 n2). intros m Hm. simpl.
    apply obind_fueled; [apply Hn1; lia|]. intros l1 _.
    apply obind_fueled; [apply Hn2; lia|]. intros; apply done_fueled.
Qed.

Lemma do_optimize_terminates body :
  eventually_fueled (do_optimize get_symbol) body.
Proof.
  destruct fold_constants_terminates as [He Hl].
  unfold do_optimize.
  cut ((forall s,
           eventually_fueled (fun m => optimize_stmt (fold_constants m)) s)
       /\ (forall l,
             eventually_fueled
               (fun m => optimize_stmt_list (fold_constants m)) l)
       /\ (forall c,
             eventually_fueled
               (fun m => optimize_elsif (fold_constants m)) c)
       /\ (forall l,
             eventually_fueled
               (fun m => optimize_elsif_list (fold_constants m)) l)).
  { intros H. apply H. }
  apply ast_statement_mutind; unfold eventually_fueled in *; intros;
    simpl.
  - exists 0%nat. intros; apply done_fueled.
  - destruct (Hl parameter_list) as [n Hn]. exists n. intros m Hm.
    apply obind_fueled; [apply Hn; lia|]. intros; apply done_fueled.
  - destruct (He rhs) as [n Hn]. exists n. intros m Hm.
    apply obind_fueled; [apply Hn; lia|]. intros; apply done_fueled.
  - destruct (He condition) as [n Hn]. destruct H as [n1 Hn1].
    exists (Nat.max n n1). intros m Hm.
    apply obind_fueled; [apply Hn; lia|]. intros.
    apply obind_fueled; [apply Hn1; lia|]. intros; apply done_fueled.
  - destruct (He condition) as [n Hn]. destruct H as [n1 Hn1].
    destruct H0 as [n2 Hn2]. destruct H1 as [n3 Hn3].
    exists (Nat.max (Nat.max n n1) (Nat.max n2 n3)). intros m Hm.
    apply obind_fueled; [apply Hn; lia|]. intros.
    apply obind_fueled; [apply Hn1; lia|]. intros.
    apply obind_fueled; [apply Hn2; lia|]. intros.
    apply obind_fueled; [apply Hn3; lia|]. intros; apply done_fueled.
  - destruct value as [v|].
    + destruct (He v) as [n Hn]. exists n. intros m Hm.
      apply obind_fueled; [apply Hn; lia|]. intros; apply done_fueled.
    + exists 0%nat. intros; apply done_fueled.
  - exists 0%nat. intros; apply done_fueled.
  - destruct H as [n1 Hn1]. destruct H0 as [n2 Hn2].
    exists (Nat.max n1 n2). intros m Hm.
    apply obind_fueled; [apply Hn1; lia|]. intros.
    apply obind_fueled; [apply Hn2; lia|]. intros; apply done_fueled.
  - destruct (He condition) as [n Hn]. destruct H as [n1 Hn1].
    exists (Nat.max n n1). intros m Hm.
    apply obind_fueled; [apply Hn; lia|]. intros.
    apply obind_fueled; [apply Hn1; lia|]. intros; apply done_fueled.
  - exists 0%nat. intros; apply done_fueled.
  - destruct H as [n1 Hn1]. destruct H0 as [n2 Hn2].
    exists (Nat.max n1 n2). intros m Hm.
    apply obind_fueled; [apply Hn1; lia|]. intros.
    apply obind_fueled; [apply Hn2; lia|]. intros; apply done_fueled.
Qed.

End OptimizeFacts.

(** ** The type checker's monad *)

Lemma bind_done {A B} (m : M A) (k : A -> M B) s b s' :
  bind m k s = Done (b, s') ->
  exists a s1, m s = Done (a, s1) /\ k a s1 = Done (b, s').
Proof.
  unfold bind. destruct (m s) as [[a s1]|r]; [eauto | discriminate].
Qed.

(** [s'] has the diagnostics of [s], and possibly more after them. *)
Definition extends (s s' : tc_state) : Prop :=
  exists l, diagnostics s' = (diagnostics s ++ l)%list.

Lemma extends_refl s : extends s s.
Proof. exists []. now rewrite app_nil_r. Qed.

Lemma extends_trans s1 s2 s3 : extends s1 s2 -> extends s2 s3 -> extends s1 s3.
Proof.
  intros [l1 H1] [l2 H2]. exists (l1 ++ l2)%list. now rewrite H2, H1, app_assoc.
Qed.

Lemma extends_quiet s1 s2 s3 :
  extends s1 s2 -> extends s2 s3 -> diagnostics s3 = diagnostics s1 ->
  diagnostics s2 = diagnostics s1 /\ diagnostics s3 = diagnostics s2.
Proof.
  intros [l1 H1] [l2 H2] H. rewrite H2, H1 in H.
  rewrite <- app_assoc in H.
  rewrite <- (app_nil_r (diagnostics s1)) in H at 2.
  apply app_inv_head in H. apply app_eq_nil in H. destruct H as [-> ->].
  rewrite app_nil_r in *. split; congruence.
Qed.

Lemma type_error_extends p msg s u s' :
  type_error p msg s = Done (u, s') -> extends s s'.
Proof. intros H. inv H. simpl. eexists. reflexivity. Qed.

Lemma type_error_loud p msg s u s' :
  type_error p msg s = Done (u, s') -> diagnostics s' <> diagnostics s.
Proof.
  intros H. inv H. simpl. intros E.
  rewrite <- (app_nil_r (diagnostics s)) in E at 2.
  apply app_inv_head in E. discriminate.
Qed.

Lemma error_if_extends c p msg s u s' :
  error_if c p msg s = Done (u, s') -> extends s s'.
Proof.
  destruct c; simpl; intros H.
  - eapply type_error_extends; eassumption.
  - inv H. apply extends_refl.
Qed.

Lemma error_if_quiet c p msg s u s' :
  error_if c p msg s = Done (u, s') -> diagnostics s' = diagnostics s ->
  c = false /\ s' = s.
Proof.
  destruct c; simpl; intros H E.
  - exfalso. eapply type_error_loud; eassumption.
  - inv H. auto.
Qed.

Ltac bind_inv H :=
  repeat match type of H with
         | bind _ _ _ = Done _ =>
             let a := fresh "a" in
             let s := fresh "s" in
             let E := fresh "E" in
             apply bind_done in H; destruct H as (a & s & E & H)
         | (let '(_, _) := ?x in _) _ = Done _ => destruct x
         | (let (_, _) := ?x in _) _ = Done _ => destruct x
         end.

Lemma neq_false a b : neq a b = false -> a = b.
Proof. unfold neq. intros H. apply negb_false_iff in H. now apply Z.eqb_eq. Qed.

Lemma neq_true a b : neq a b = true -> a <> b.
Proof. unfold neq. intros H. apply negb_true_iff in H. now apply Z.eqb_neq. Qed.

Section SemanticFacts.

Variable get_symbol : sym_index -> Symtab.symbol.

#[local] Abbreviation type_check := (type_check get_symbol).
#[local] Abbreviation type_check_expr_list :=
  (type_check_expr_list get_symbol).

(** *** The four operand checks, read backwards *)

Lemma check_binop1_inv tc l r s x s' :
  check_binop1 tc l r s = Done (x, s') ->
  exists l1 lt s1 r1 rt,
    tc l s = Done ((l1, lt), s1) /\ tc r s1 = Done ((r1, rt), s') /\
    x = if neq lt rt
        then (if neq lt real_type then new_ast_cast (pos l1) l1 else l1,
              if neq rt real_type then new_ast_cast (pos r1) r1 else r1,
              real_type)
        else (l1, r1, lt).
Proof.
  unfold check_binop1. intros H. bind_inv H.
  match type of H with
  | (if ?c then _ else _) _ = _ => destruct c eqn:C
  end; inv H; do 5 eexists;
    (split; [eassumption|]); (split; [eassumption|]);
    rewrite C; reflexivity.
Qed.

Lemma check_divide_inv tc l r s x s' :
  check_divide tc l r s = Done (x, s') ->
  exists l1 lt s1 r1 rt,
    tc l s = Done ((l1, lt), s1) /\ tc r s1 = Done ((r1, rt), s') /\
    x = (if lt =? integer_type
         then set_type (new_ast_cast (pos l1) l1) real_type else l1,
         if rt =? integer_type
         then set_type (new_ast_cast (pos r1) r1) real_type else r1,
         real_type).
Proof.
  unfold check_divide. intros H. bind_inv H. inv H.
  do 5 eexists. split; [eassumption|]. split; [eassumption|]. reflexivity.
Qed.

Lemma check_binop2_inv tc p l r name s x s' :
  check_binop2 tc p l r name s = Done (x, s') ->
  exists l1 lt s1 r1 rt s2,
    tc l s = Done ((l1, lt), s1) /\ tc r s1 = Done ((r1, rt), s2) /\
    x = (l1, r1, integer_type) /\ extends s2 s' /\
    (diagnostics s' = diagnostics s2 ->
     lt = integer_type /\ rt = integer_type /\ s' = s2).
Proof.
  unfold check_binop2. intros H. bind_inv H. inv H.
  match goal with
  | E1 : error_if (neq _ integer_type) _ _ _ = Done (_, ?sa),
    E2 : error_if (neq _ integer_type) _ _ ?sa = Done _ |- _ =>
      pose proof (error_if_extends _ _ _ _ _ _ E1) as X1;
      pose proof (error_if_extends _ _ _ _ _ _ E2) as X2;
      do 6 eexists;
      (split; [eassumption|]); (split; [eassumption|]);
      (split; [reflexivity|]);
      (split; [eapply extends_trans; eassumption|]);
      intros Hq; destruct (extends_quiet _ _ _ X1 X2 Hq) as [Q1 Q2];
      destruct (error_if_quiet _ _ _ _ _ _ E1 Q1) as [N1 ->];
      destruct (error_if_quiet _ _ _ _ _ _ E2 Q2) as [N2 ->];
      auto using neq_false
  end.
Qed.

Lemma check_binrel_inv tc l r s x s' :
  check_binrel tc l r s = Done (x, s') ->
  exists l1 lt s1 r1 rt,
    tc l s = Done ((l1, lt), s1) /\ tc r s1 = Done ((r1, rt), s') /\
    snd x = integer_type.
Proof.
  unfold check_binrel. intros H. bind_inv H.
  match type of H with
  | (if ?c then _ else _) _ = _ => destruct c
  end; inv H; do 5 eexists;
    (split; [eassumption|]); (split; [eassumption|]); reflexivity.
Qed.

(** *** Diagnostics are only ever added *)

Lemma check_parameters_inv tcl id params s x s' :
  check_parameters get_symbol tcl id params s = Done (x, s') ->
  exists params1 t,
    tcl params s = Done ((params1, t), s') /\
    x = snd (chk_param
               (Symtab.last_parameter (get_symbol (sym_p id))) params1).
Proof.
  unfold check_parameters. intros H. bind_inv H. inv H.
  destruct (Symtab.tag (get_symbol (sym_p id))); inv E0; eauto.
Qed.

Lemma type_check_extends :
  (forall e s r s', type_check e s = Done (r, s') -> extends s s') /\
  (forall l s r s',
      type_check_expr_list l s = Done (r, s') -> extends s s').
Proof.
  apply ast_expression_mutind; intros; simpl in *.
  - inv H. apply extends_refl.
  - bind_inv H0. inv H0.
    eapply extends_trans; [eapply H; eassumption|].
    eapply error_if_extends; eassumption.
  - destruct op; bind_inv H1; inv H1;
      match goal with
      | E : check_binop1 _ _ _ _ = _ |- _ =>
          apply check_binop1_inv in E;
          destruct E as (? & ? & ? & ? & ? & ? & ? & _)
      | E : check_divide _ _ _ _ = _ |- _ =>
          apply check_divide_inv in E;
          destruct E as (? & ? & ? & ? & ? & ? & ? & _)
      | E : check_binop2 _ _ _ _ _ _ = _ |- _ =>
          apply check_binop2_inv in E;
          destruct E as (? & ? & ? & ? & ? & ? & ? & ? & _ & ? & _)
      end;
      eauto 6 using extends_trans.
  - bind_inv H1. inv H1.
    apply check_binrel_inv in E.
    destruct E as (? & ? & ? & ? & ? & ? & ? & _).
    eapply extends_trans; eauto.
  - bind_inv H0. inv H0. eauto.
  - bind_inv H0.
    destruct (neq s1 integer_type).
    + bind_inv H0. inv H0.
      eapply extends_trans; [eauto|].
      eapply type_error_extends; eassumption.
    + inv H0. eauto.
  - discriminate.
  - inv H. apply extends_refl.
  - inv H. apply extends_refl.
  - bind_inv H0. inv H0. apply check_parameters_inv in E.
    destruct E as (? & ? & ? & _). eauto.
  - inv H. apply extends_refl.
  - bind_inv H1. inv H1. eapply extends_trans; eauto.
Qed.

End SemanticFacts.

Lemma sym_type_eqb_eq a b : sym_type_eqb a b = true <-> a = b.
Proof. destruct a, b; simpl; split; intros H; congruence. Qed.

(** ** Folding after type checking *)

Section FoldFacts.

Variable get_symbol : sym_index -> Symtab.symbol.

#[local] Abbreviation type_check := (type_check get_symbol).
#[local] Abbreviation fold_constants := (fold_constants get_symbol).
#[local] Abbreviation fold_binaryoperation :=
  (fold_binaryoperation get_symbol).
#[local] Abbreviation is_const := (is_const get_symbol).

Lemma optimize_keeps_node f e x :
  optimize f e = Done x ->
  tag x = tag e /\ pos x = pos e /\ type x = type e.
Proof.
  destruct e; simpl; intros H; obind_inv H; inv H; auto.
Qed.

Lemma fold_constants_not_binop fuel e x :
  is_binop e = false -> fold_constants fuel e = Done x ->
  optimize (fold_constants (pred fuel)) e = Done x.
Proof.
  intros Hb H. destruct fuel as [|n]; [discriminate|].
  simpl in H. obind_inv H. simpl pred. rewrite E.
  destruct (optimize_keeps_node _ _ _ E) as (Ht & _).
  unfold is_binop in *. rewrite Ht, Hb in H. exact H.
Qed.

Lemma is_const_tag x :
  is_const x = true ->
  tag x = AST_ID \/ tag x = AST_INTEGER \/ tag x = AST_REAL.
Proof. destruct x; simpl; intros H; try discriminate; auto. Qed.

(** A node that is neither a binary operation nor a constant does not
    fold to a constant. *)
Lemma fold_constants_not_const fuel e x :
  is_binop e = false -> is_const e = false ->
  tag e <> AST_ID ->
  fold_constants fuel e = Done x -> is_const x = false.
Proof.
  intros Hb Hc Hid H. apply fold_constants_not_binop in H; [|assumption].
  destruct (optimize_keeps_node _ _ _ H) as (Ht & _).
  destruct (is_const x) eqn:Hx; [|reflexivity]. exfalso.
  destruct (is_const_tag _ Hx) as [T|[T|T]]; rewrite Ht in T;
    destruct e; simpl in *; try congruence; try discriminate;
    try (destruct op; discriminate); try (destruct rel; discriminate).
Qed.

(** When a binary operation is replaced by a constant, the folded
    operands are constants of one type, which the literal has too. *)
Lemma fold_binaryoperation_const f op p ty l r x :
  fold_binaryoperation f (ast_binaryoperation op p ty l r) = Done x ->
  is_const x = true ->
  exists l' r',
    f l = Done l' /\ f r = Done r' /\
    is_const l' = true /\ is_const r' = true /\
    ((type l' = integer_type /\ type r' = integer_type /\
      type x = integer_type) \/
     (type l' = real_type /\ type r' = real_type /\ type x = real_type)).
Proof.
  simpl. intros H Hx. obind_inv H. exists x0, x1.
  split; [assumption|]. split; [assumption|].
  destruct (is_const x0 && is_const x1) eqn:Hc; simpl in H;
    [|inv H; discriminate].
  apply andb_true_iff in Hc. destruct Hc as [Hc0 Hc1].
  split; [assumption|]. split; [assumption|].
  destruct ((type x0 =? integer_type) && (type x1 =? integer_type)) eqn:Hi.
  { apply andb_true_iff in Hi. destruct Hi as [Hi0 Hi1].
    apply Z.eqb_eq in Hi0, Hi1. obind_inv H.
    apply fold_long_cases in H. destruct H as [-> | [v ->]];
      [discriminate|]. auto. }
  destruct ((type x0 =? real_type) && (type x1 =? real_type)) eqn:Hr.
  { apply andb_true_iff in Hr. destruct Hr as [Hr0 Hr1].
    apply Z.eqb_eq in Hr0, Hr1. obind_inv H.
    apply fold_double_cases in H. destruct H as [-> | [v ->]];
      [discriminate|]. auto. }
  inv H. discriminate.
Qed.

(** The same for [fold_constants] on a binary operation node. *)
Lemma fold_constants_binop_const fuel op p ty l r x :
  fold_constants fuel (ast_binaryoperation op p ty l r) = Done x ->
  is_const x = true ->
  exists n l' r',
    fold_constants n l = Done l' /\ fold_constants n r = Done r' /\
    is_const l' = true /\ is_const r' = true /\
    ((type l' = integer_type /\ type r' = integer_type /\
      type x = integer_type) \/
     (type l' = real_type /\ type r' = real_type /\ type x = real_type)).
Proof.
  intros H Hx. destruct fuel as [|n]; [discriminate|].
  simpl in H. obind_inv H. obind_inv E. inv E.
  match type of H with
  | context [is_binop ?node] =>
      replace (is_binop node) with true in H by (destruct op; reflexivity)
  end.
  apply fold_binaryoperation_const in H; [|assumption].
  destruct H as (l' & r' & Hl & Hr & H).
  match goal with
  | E1 : fold_constants n l = Done _, E2 : fold_constants n r = Done _
    |- _ =>
      rewrite (fold_constants_idempotent _ _ _ _ E1) in Hl;
      rewrite (fold_constants_idempotent _ _ _ _ E2) in Hr;
      inv Hl; inv Hr; exists n; eauto 10
  end.
Qed.

Lemma fold_constants_cast fuel p e x :
  fold_constants fuel (new_ast_cast p e) = Done x -> is_const x = false.
Proof.
  apply fold_constants_not_const; [reflexivity|reflexivity|discriminate].
Qed.

Lemma fold_constants_set_cast fuel p e x :
  fold_constants fuel (set_type (new_ast_cast p e) real_type) = Done x ->
  is_const x = false.
Proof.
  apply fold_constants_not_const; [reflexivity|reflexivity|discriminate].
Qed.

(** The invariant that links the two passes: where an expression was
    checked without a diagnostic and then folds to a constant, the
    constant's type field is the type the checker returned. *)
Lemma folded_constant_type e :
  forall s e' t s' fuel x,
    type_check e s = Done ((e', t), s') ->
    diagnostics s' = diagnostics s ->
    fold_constants fuel e' = Done x ->
    is_const x = true ->
    type x = t.
Proof.
  induction e using ast_expression_mut with (P0 := fun _ => True);
    try (intros; exact I);
    intros s e' t s' fuel x Hc Hq Hf Hx; simpl in Hc.
  - (* identifier *)
    inv Hc. destruct fuel; [discriminate|]. inv Hf.
    simpl in Hx. apply sym_type_eqb_eq in Hx.
    unfold ast_id_type_check. rewrite Hx. reflexivity.
  - (* indexed *)
    bind_inv Hc. inv Hc.
    apply fold_constants_not_const in Hf;
      [congruence|reflexivity|reflexivity|discriminate].
  - (* binary operation *)
    assert (Hstep :
      forall l1 lt s1 r1 rt s2,
        type_check e1 s = Done ((l1, lt), s1) ->
        type_check e2 s1 = Done ((r1, rt), s2) ->
        diagnostics s2 = diagnostics s ->
        (forall n l', fold_constants n l1 = Done l' ->
                      is_const l' = true -> type l' = lt) /\
        (forall n r', fold_constants n r1 = Done r' ->
                      is_const r' = true -> type r' = rt)).
    { intros l1 lt s1 r1 rt s2 Hl Hr Hq2.
      destruct type_check_extends with (get_symbol := get_symbol)
        as [Hext _].
      destruct (extends_quiet _ _ _ (Hext _ _ _ _ Hl) (Hext _ _ _ _ Hr)
                  Hq2) as [Q1 Q2].
      split; intros n c Hn Hcn.
      - eapply IHe1; eassumption.
      - eapply IHe2; eassumption. }
    destruct (type_check_extends get_symbol) as [Hext _].
    destruct op; bind_inv Hc; inv Hc;
      apply fold_constants_binop_const in Hf; try assumption;
      destruct Hf as (n & l' & r' & Fl & Fr & Cl & Cr & Ht);
      match goal with
      | E : check_binop1 _ _ _ _ = _ |- _ =>
          (* add, sub, mult *)
          apply check_binop1_inv in E;
          destruct E as (l1 & lt & s1 & r1 & rt & Hl & Hr & Hres);
          destruct (Hstep _ _ _ _ _ _ Hl Hr Hq) as [Il Ir];
          destruct (neq lt rt) eqn:N; inv Hres;
          [ apply neq_true in N;
            destruct (neq lt real_type) eqn:Nl;
            [apply fold_constants_cast in Fl; congruence|];
            destruct (neq rt real_type) eqn:Nr;
            [apply fold_constants_cast in Fr; congruence|];
            apply neq_false in Nl, Nr; congruence
          | apply neq_false in N; subst rt;
            specialize (Il _ _ Fl Cl); specialize (Ir _ _ Fr Cr);
            destruct Ht as [(? & ? & ?)|(? & ? & ?)]; congruence ]
      | E : check_binop2 _ _ _ _ _ _ = _ |- _ =>
          (* or, and, idiv, mod *)
          apply check_binop2_inv in E;
          destruct E
            as (l1 & lt & s1 & r1 & rt & s2 & Hl & Hr & Hres & X & Q);
          inv Hres;
          pose proof (extends_trans _ _ _ (Hext _ _ _ _ Hl)
                        (Hext _ _ _ _ Hr)) as X0;
          destruct (extends_quiet _ _ _ X0 X Hq) as [Q0 Q1];
          destruct (Q Q1) as (-> & -> & _);
          destruct (Hstep _ _ _ _ _ _ Hl Hr Q0) as [Il Ir];
          specialize (Il _ _ Fl Cl);
          destruct Ht as [(? & ? & ?)|(? & ? & ?)];
          [assumption | unfold integer_type, real_type in *; congruence]
      | E : check_divide _ _ _ _ = _ |- _ =>
          apply check_divide_inv in E;
          destruct E as (l1 & lt & s1 & r1 & rt & Hl & Hr & Hres);
          inv Hres;
          destruct (Hstep _ _ _ _ _ _ Hl Hr Hq) as [Il Ir];
          destruct Ht as [(Tl & _ & _)|(_ & _ & ?)]; [|assumption];
          destruct (lt =? integer_type) eqn:N;
          [ apply fold_constants_set_cast in Fl; congruence
          | specialize (Il _ _ Fl Cl); apply Z.eqb_neq in N; congruence ]
      end.
  - (* binary relation *)
    bind_inv Hc. inv Hc.
    apply fold_constants_not_const in Hf;
      [congruence|destruct rel; reflexivity|reflexivity
      |destruct rel; discriminate].
  - (* unary minus *)
    bind_inv Hc. inv Hc.
    apply fold_constants_not_const in Hf;
      [congruence|reflexivity|reflexivity|discriminate].
  - (* not *)
    bind_inv Hc.
    match type of Hc with
    | (if ?c then _ else _) _ = _ => destruct c
    end; bind_inv Hc; inv Hc;
      (apply fold_constants_not_const in Hf;
       [congruence|reflexivity|reflexivity|discriminate]).
  - (* cast *)
    discriminate.
  - (* integer literal *)
    inv Hc. destruct fuel; [discriminate|]. inv Hf. reflexivity.
  - (* real literal *)
    inv Hc. destruct fuel; [discriminate|]. inv Hf. reflexivity.
  - (* function call *)
    bind_inv Hc. inv Hc.
    apply fold_constants_not_const in Hf;
      [congruence|reflexivity|reflexivity|discriminate].
Qed.

End FoldFacts.

(** ** The two passes on small programs *)

Example fold_two_plus_three :
  fold_constants sample_symbols 2
    (ast_binaryoperation op_add 1%nat integer_type
       (ast_integer 2%nat 2) (ast_integer 3%nat 3)) =
  Done (ast_integer 1%nat 5).
Proof. reflexivity. Qed.

Example fold_named_constant_times_two :
  fold_constants sample_symbols 2
    (ast_binaryoperation op_mult 1%nat integer_type
       (ast_id_expr (mk_ast_id 2%nat integer_type 10))
       (ast_integer 3%nat 2)) =
  Done (ast_integer 1%nat 14).
Proof. reflexivity. Qed.

Example fold_variable_plus_one :
  fold_constants sample_symbols 2
    (ast_binaryoperation op_add 1%nat integer_type
       (ast_id_expr (mk_ast_id 2%nat integer_type 20))
       (ast_integer 3%nat 1)) =
  Done (ast_binaryoperation op_add 1%nat integer_type
          (ast_id_expr (mk_ast_id 2%nat integer_type 20))
          (ast_integer 3%nat 1)).
Proof. reflexivity. Qed.

Example fold_out_of_fuel :
  fold_constants sample_symbols 1
    (ast_binaryoperation op_add 1%nat integer_type
       (ast_integer 2%nat 2) (ast_integer 3%nat 3)) =
  Halt out_of_fuel.
Proof. reflexivity. Qed.

Example check_then_fold_two_plus_real_three :
  type_check sample_symbols
    (ast_binaryoperation op_add 1%nat void_type
       (ast_integer 2%nat 2) (ast_real 3%nat 3%float)) initial_state =
  Done ((ast_binaryoperation op_add 1%nat real_type
           (ast_cast 2%nat real_type (ast_integer 2%nat 2))
           (ast_real 3%nat 3%float), real_type), initial_state) /\
  fold_constants sample_symbols 2
    (ast_binaryoperation op_add 1%nat real_type
       (ast_cast 2%nat real_type (ast_integer 2%nat 2))
       (ast_real 3%nat 3%float)) =
  Done (ast_binaryoperation op_add 1%nat real_type
          (ast_cast 2%nat real_type (ast_integer 2%nat 2))
          (ast_real 3%nat 3%float)).
Proof. split; reflexivity. Qed.

Example assign_real_to_integer_variable :
  type_check_stmt sample_symbols 12
    (ast_assign 1%nat (ast_id_expr (mk_ast_id 2%nat integer_type 20))
       (ast_real 3%nat 1.5%float)) initial_state =
  Done ((ast_assign 1%nat (ast_id_expr (mk_ast_id 2%nat integer_type 20))
           (ast_real 3%nat 1.5%float), integer_type),
        mk_tc_state false
          [mk_diagnostic (Some 3%nat)
             "Variable of type integer can't be assigned a real value."]).
Proof. reflexivity. Qed.

Example function_without_return :
  do_typecheck sample_symbols 11 (sample_symbols 11)
    (stmt_list_node 1%nat stmt_list_null stmt_null) initial_state =
  Done (stmt_list_node 1%nat stmt_list_null stmt_null,
        mk_tc_state false
          [mk_diagnostic (Some 1%nat) "A function must return a value."]).
Proof. reflexivity. Qed.

Example function_with_return_under_if :
  do_typecheck sample_symbols 11 (sample_symbols 11)
    (stmt_list_node 1%nat stmt_list_null
       (ast_if 1%nat (ast_integer 1%nat 1)
          (stmt_list_node 2%nat stmt_list_null
             (ast_return 2%nat (Some (ast_integer 2%nat 1))))
          elsif_list_null stmt_list_null)) initial_state =
  Done (stmt_list_node 1%nat stmt_list_null
          (ast_if 1%nat (ast_integer 1%nat 1)
             (stmt_list_node 2%nat stmt_list_null
                (ast_return 2%nat (Some (ast_integer 2%nat 1))))
             elsif_list_null stmt_list_null),
        mk_tc_state true []).
Proof. reflexivity. Qed.

(** ** Nodes whose check leaves the type field alone, and the elsif clause
    that leaves its body alone *)

Lemma type_check_keeps_type_field get_symbol node s node' t s' :
  tag node = AST_OR \/ tag node = AST_UMINUS \/ tag node = AST_NOT ->
  type_check get_symbol node s = Done ((node', t), s') ->
  type node' = type node.
Proof.
  intros Ht H.
  destruct node; simpl in Ht;
    try (destruct Ht as [Ht | [Ht | Ht]]; discriminate).
  - destruct op;
      try (destruct Ht as [Ht | [Ht | Ht]]; discriminate).
    simpl in H. bind_inv H. inv H. reflexivity.
  - destruct rel; destruct Ht as [Ht | [Ht | Ht]]; discriminate.
  - simpl in H. bind_inv H. inv H. reflexivity.
  - simpl in H. bind_inv H.
    match type of H with
    | (if ?c then _ else _) _ = _ => destruct c
    end; bind_inv H; inv H; reflexivity.
Qed.

Lemma type_check_elsif_skips_body
  get_symbol env p condition body s condition' t s1 :
  type_check get_symbol condition s = Done ((condition', t), s1) ->
  t <> integer_type ->
  type_check_elsif get_symbol env (mk_ast_elsif p condition body) s =
  Done ((mk_ast_elsif p condition' body, void_type),
        mk_tc_state (has_return s1)
          (diagnostics s1 ++
           [mk_diagnostic (Some (pos condition')) "Should be an integer"])).
Proof.
  intros Hc Ht. cbn [type_check_elsif]. unfold bind at 1. rewrite Hc.
  cbn beta iota. unfold neq. apply Z.eqb_neq in Ht. rewrite Ht. reflexivity.
Qed.

(** * The claims *)

(** C3 (as the code has it): a division node resolves to real, and each
    operand whose resolved type is integer is wrapped in a cast node typed
    real, both operands when both are integer; an operand of any other type,
    real or not, stays as it is. *)
Theorem divide_casts_integer_operands :
  forall get_symbol p ty l r s l1 lt s1 r1 rt s2,
    type_check get_symbol l s = Done ((l1, lt), s1) ->
    type_check get_symbol r s1 = Done ((r1, rt), s2) ->
    type_check get_symbol (ast_binaryoperation op_divide p ty l r) s =
    Done ((ast_binaryoperation op_divide p real_type
             (if lt =? integer_type
              then ast_cast (pos l1) real_type l1 else l1)
             (if rt =? integer_type
              then ast_cast (pos r1) real_type r1 else r1),
           real_type), s2).
Proof.
  intros gs p ty l r s l1 lt s1 r1 rt s2 Hl Hr.
  cbn [type_check]. unfold check_divide, bind.
  rewrite Hl. cbn beta iota. rewrite Hr. reflexivity.
Qed.

Lemma divide_casts_integer_operands_witness :
  type_check sample_symbols
    (ast_binaryoperation op_divide 1%nat void_type
       (ast_integer 2%nat 1) (ast_integer 3%nat 2)) initial_state =
  Done ((ast_binaryoperation op_divide 1%nat real_type
           (ast_cast 2%nat real_type (ast_integer 2%nat 1))
           (ast_cast 3%nat real_type (ast_integer 3%nat 2)),
         real_type), initial_state).
Proof.
  exact (divide_casts_integer_operands sample_symbols 1%nat void_type
           (ast_integer 2%nat 1) (ast_integer 3%nat 2) initial_state
           (ast_integer 2%nat 1) integer_type initial_state
           (ast_integer 3%nat 2) integer_type initial_state
           eq_refl eq_refl).
Defined.

(** C3, as worded, fails on [(NOT 1.5) / 2.5]: the left operand resolves to
    void, which is not real, and it is not wrapped. *)
Lemma divide_leaves_void_operand_uncast :
  ~ divide_casts_every_non_real_operand.
Proof.
  intros H.
  specialize
    (H sample_symbols 1%nat void_type
       (ast_not 2%nat void_type (ast_real 3%nat 1.5%float))
       (ast_real 4%nat 2.5%float) initial_state
       (ast_not 2%nat void_type (ast_real 3%nat 1.5%float)) void_type
       (mk_tc_state false
          [mk_diagnostic (Some 3%nat) "Should be an integer"])
       (ast_real 4%nat 2.5%float) real_type
       (mk_tc_state false
          [mk_diagnostic (Some 3%nat) "Should be an integer"])
       eq_refl eq_refl).
  vm_compute in H. discriminate H.
Qed.

(** C4: for an addition, subtraction or multiplication node, if the
    operands' resolved types differ, each operand that is not real is
    wrapped in a cast node and the node resolves to real; if they are equal,
    the operands stay as they are and the node resolves to the common type.
    In both cases the resolved type is also written to the node. *)
Theorem check_binop1_coerces_to_real :
  forall get_symbol op p ty l r s l1 lt s1 r1 rt s2,
    op = op_add \/ op = op_sub \/ op = op_mult ->
    type_check get_symbol l s = Done ((l1, lt), s1) ->
    type_check get_symbol r s1 = Done ((r1, rt), s2) ->
    (lt <> rt ->
     type_check get_symbol (ast_binaryoperation op p ty l r) s =
     Done ((ast_binaryoperation op p real_type
              (if lt =? real_type then l1
               else ast_cast (pos l1) real_type l1)
              (if rt =? real_type then r1
               else ast_cast (pos r1) real_type r1),
            real_type), s2)) /\
    (lt = rt ->
     type_check get_symbol (ast_binaryoperation op p ty l r) s =
     Done ((ast_binaryoperation op p lt l1 r1, lt), s2)).
Proof.
  intros gs op p ty l r s l1 lt s1 r1 rt s2 Hop Hl Hr.
  assert (Hcheck :
    check_binop1 (type_check gs) l r s =
    Done (if neq lt rt
          then (if neq lt real_type then new_ast_cast (pos l1) l1 else l1,
                if neq rt real_type then new_ast_cast (pos r1) r1 else r1,
                real_type)
          else (l1, r1, lt), s2)).
  { unfold check_binop1, bind. rewrite Hl. cbn beta iota. rewrite Hr.
    destruct (neq lt rt); reflexivity. }
  assert (Hnode :
    type_check gs (ast_binaryoperation op p ty l r) s =
    bind (check_binop1 (type_check gs) l r)
      (fun x => let '(left', right', t) := x in
                ret (ast_binaryoperation op p t left' right', t)) s).
  { destruct Hop as [-> | [-> | ->]]; reflexivity. }
  split; intros Ht; rewrite Hnode; unfold bind at 1; rewrite Hcheck;
    unfold neq.
  - apply Z.eqb_neq in Ht. rewrite Ht. cbn.
    destruct (lt =? real_type), (rt =? real_type); reflexivity.
  - subst rt. rewrite Z.eqb_refl. reflexivity.
Qed.

Lemma check_binop1_coerces_to_real_witness :
  type_check sample_symbols
    (ast_binaryoperation op_add 1%nat void_type
       (ast_integer 2%nat 1) (ast_real 3%nat 2.5%float)) initial_state =
  Done ((ast_binaryoperation op_add 1%nat real_type
           (ast_cast 2%nat real_type (ast_integer 2%nat 1))
           (ast_real 3%nat 2.5%float),
         real_type), initial_state)
  /\
  type_check sample_symbols
    (ast_binaryoperation op_mult 1%nat void_type
       (ast_integer 2%nat 6) (ast_integer 3%nat 7)) initial_state =
  Done ((ast_binaryoperation op_mult 1%nat integer_type
           (ast_integer 2%nat 6) (ast_integer 3%nat 7),
         integer_type), initial_state).
Proof.
  split.
  - apply (check_binop1_coerces_to_real sample_symbols op_add 1%nat void_type
             (ast_integer 2%nat 1) (ast_real 3%nat 2.5%float) initial_state
             (ast_integer 2%nat 1) integer_type initial_state
             (ast_real 3%nat 2.5%float) real_type initial_state
             (or_introl eq_refl) eq_refl eq_refl).
    discriminate.
  - apply (check_binop1_coerces_to_real sample_symbols op_mult 1%nat
             void_type
             (ast_integer 2%nat 6) (ast_integer 3%nat 7) initial_state
             (ast_integer 2%nat 6) integer_type initial_state
             (ast_integer 3%nat 7) integer_type initial_state
             (or_intror (or_intror eq_refl)) eq_refl eq_refl).
    reflexivity.
Defined.

(** C8 (as the code has it): a unary minus returns its operand's resolved
    type and inserts no coercion; a NOT whose operand resolves to integer
    returns integer; a NOT whose operand resolves to anything else reports
    an error at the operand and returns void.  Neither node's own type
    field is assigned. *)
Theorem uminus_and_not_result_types :
  forall get_symbol p ty e s e1 t s1,
    type_check get_symbol e s = Done ((e1, t), s1) ->
    type_check get_symbol (ast_uminus p ty e) s =
      Done ((ast_uminus p ty e1, t), s1) /\
    (t = integer_type ->
     type_check get_symbol (ast_not p ty e) s =
       Done ((ast_not p ty e1, integer_type), s1)) /\
    (t <> integer_type ->
     type_check get_symbol (ast_not p ty e) s =
       Done ((ast_not p ty e1, void_type),
             mk_tc_state (has_return s1)
               (diagnostics s1 ++
                [mk_diagnostic (Some (pos e1)) "Should be an integer"]))).
Proof.
  intros gs p ty e s e1 t s1 He.
  split; [|split]; [|intros Ht|intros Ht];
    cbn [type_check]; unfold bind at 1; rewrite He; cbn beta iota.
  - reflexivity.
  - subst t. reflexivity.
  - unfold neq. apply Z.eqb_neq in Ht. rewrite Ht. reflexivity.
Qed.

Lemma uminus_and_not_result_types_witness :
  type_check sample_symbols
    (ast_uminus 1%nat void_type (ast_real 2%nat 1.5%float)) initial_state =
  Done ((ast_uminus 1%nat void_type (ast_real 2%nat 1.5%float), real_type),
        initial_state)
  /\
  type_check sample_symbols
    (ast_not 1%nat void_type (ast_integer 2%nat 0)) initial_state =
  Done ((ast_not 1%nat void_type (ast_integer 2%nat 0), integer_type),
        initial_state).
Proof.
  split.
  - apply (uminus_and_not_result_types sample_symbols 1%nat void_type
             (ast_real 2%nat 1.5%float) initial_state
             (ast_real 2%nat 1.5%float) real_type initial_state eq_refl).
  - apply (uminus_and_not_result_types sample_symbols 1%nat void_type
             (ast_integer 2%nat 0) initial_state
             (ast_integer 2%nat 0) integer_type initial_state eq_refl).
    reflexivity.
Defined.

(** C8, as worded, fails on [NOT 1.5]: the result type is void. *)
Lemma not_of_real_resolves_to_void : ~ not_resolves_to_integer.
Proof.
  intros H.
  specialize
    (H sample_symbols 1%nat void_type (ast_real 2%nat 1.5%float)
       initial_state
       (ast_not 1%nat void_type (ast_real 2%nat 1.5%float)) void_type
       (mk_tc_state false
          [mk_diagnostic (Some 2%nat) "Should be an integer"])
       eq_refl).
  discriminate H.
Qed.

(** C1 (the code does not meet it): the body [x := 1 OR 2] of a procedure
    is checked without a diagnostic and comes back as it went in; its OR
    node resolves to integer, yet its resolved-type field still holds
    whatever [ty] it held before the pass, whereas the same node with AND
    gets the field written. *)
Theorem or_node_type_field_not_written :
  forall ty : sym_index,
  let or_node :=
    ast_binaryoperation op_or 2%nat ty
      (ast_integer 3%nat 1) (ast_integer 4%nat 2) in
  let and_node :=
    ast_binaryoperation op_and 2%nat ty
      (ast_integer 3%nat 1) (ast_integer 4%nat 2) in
  let body :=
    stmt_list_node 1%nat stmt_list_null
      (ast_assign 1%nat (ast_id_expr (mk_ast_id 1%nat integer_type 20))
         or_node) in
  do_typecheck sample_symbols 12 (sample_symbols 12) body initial_state =
    Done (body, initial_state) /\
  type_check sample_symbols or_node initial_state =
    Done ((or_node, integer_type), initial_state) /\
  type or_node = ty /\
  type_check sample_symbols and_node initial_state =
    Done ((ast_binaryoperation op_and 2%nat integer_type
             (ast_integer 3%nat 1) (ast_integer 4%nat 2),
           integer_type), initial_state).
Proof. intros ty. repeat split. Qed.

(** C6 (the code does not meet it): in the body
    [if 1 then elsif 1.5 then return 1 end] of a function a return
    statement occurs, and the check still reports that the function must
    return a value: the elsif clause, having reported its condition, is
    left before its body is visited. *)
Theorem return_under_rejected_elsif_not_seen :
  let body :=
    stmt_list_node 1%nat stmt_list_null
      (ast_if 1%nat (ast_integer 1%nat 1) stmt_list_null
         (elsif_list_node 2%nat elsif_list_null
            (mk_ast_elsif 2%nat (ast_real 2%nat 1.5%float)
               (stmt_list_node 3%nat stmt_list_null
                  (ast_return 3%nat (Some (ast_integer 3%nat 1))))))
         stmt_list_null) in
  stmt_list_has_return body = true /\
  do_typecheck sample_symbols 11 (sample_symbols 11) body initial_state =
    Done (body,
          mk_tc_state false
            [mk_diagnostic (Some 2%nat) "Should be an integer";
             mk_diagnostic (Some 1%nat) "A function must return a value."]).
Proof. split; reflexivity. Qed.

Lemma literal_is_const get_symbol x :
  tag x = AST_INTEGER \/ tag x = AST_REAL -> is_const get_symbol x = true.
Proof.
  destruct x; simpl; intros [H|H]; try discriminate; try reflexivity;
    try (destruct op; discriminate); destruct rel; discriminate.
Qed.

(** C2 (as the code has it): when the check of a node reported no
    diagnostic and [fold_constants] replaces the node with a literal, the
    literal's type is the type the checker resolved the node to. *)
Theorem fold_constants_keeps_checked_type :
  forall get_symbol e s e' t s' fuel x,
    type_check get_symbol e s = Done ((e', t), s') ->
    diagnostics s' = diagnostics s ->
    is_binop e' = true ->
    fold_constants get_symbol fuel e' = Done x ->
    tag x = AST_INTEGER \/ tag x = AST_REAL ->
    type x = t.
Proof.
  intros gs e s e' t s' fuel x Hc Hq _ Hf Hx.
  eapply folded_constant_type; try eassumption.
  apply literal_is_const, Hx.
Qed.

Lemma fold_constants_keeps_checked_type_witness :
  type (ast_integer 1%nat 5) = integer_type.
Proof.
  apply (fold_constants_keeps_checked_type sample_symbols
           (ast_binaryoperation op_add 1%nat void_type
              (ast_integer 2%nat 2) (ast_integer 3%nat 3))
           initial_state
           (ast_binaryoperation op_add 1%nat integer_type
              (ast_integer 2%nat 2) (ast_integer 3%nat 3))
           integer_type initial_state 2%nat (ast_integer 1%nat 5));
    first [reflexivity | left; reflexivity].
Defined.

(** C2, as worded, fails on [1.5 AND 2.5]: the checker resolves the node to
    integer (and reports both operands), the folder replaces it with a real
    literal. *)
Lemma and_of_reals_folds_to_real : ~ folding_keeps_resolved_type.
Proof.
  intros H.
  specialize
    (H sample_symbols
       (ast_binaryoperation op_and 1%nat void_type
          (ast_real 2%nat 1.5%float) (ast_real 3%nat 2.5%float))
       initial_state
       (ast_binaryoperation op_and 1%nat integer_type
          (ast_real 2%nat 1.5%float) (ast_real 3%nat 2.5%float))
       integer_type
       (mk_tc_state false
          [mk_diagnostic (Some 1%nat) "Rifht part:AND should be an integer";
           mk_diagnostic (Some 1%nat) "Left part:AND should be an integer"])
       2%nat (ast_real 1%nat 1%float)
       eq_refl eq_refl eq_refl (or_intror eq_refl)).
  discriminate H.
Qed.

Lemma chk_param_length_mismatch formals :
  forall actuals,
    List.length formals <> expr_list_length actuals ->
    chk_param formals actuals = (false, actuals).
Proof.
  induction formals as [|formal formals IH]; intros [|p preceding actual] H;
    simpl in *; try reflexivity; try congruence.
  rewrite IH by congruence. reflexivity.
Qed.

(** C5 (as the code has it): [check_parameters] leaves the state exactly as
    the check of the actuals left it, so neither a length mismatch nor a
    type mismatch adds a diagnostic; on a length mismatch [chk_param]
    returns false and wraps nothing; an actual whose type differs from its
    formal's is wrapped in a cast exactly when the formal is real, provided
    the pairs before it passed; once a pair before it has failed, an actual
    is left as it is, whatever its formal. *)
Theorem check_parameters_silent_and_casts_for_real :
  forall get_symbol,
    (forall id params s x s',
        check_parameters get_symbol (type_check_expr_list get_symbol)
          id params s = Done (x, s') ->
        exists params1 t,
          type_check_expr_list get_symbol params s =
            Done ((params1, t), s') /\
          x = snd (chk_param
                     (Symtab.last_parameter (get_symbol (sym_p id)))
                     params1)) /\
    (forall formals actuals,
        List.length formals <> expr_list_length actuals ->
        chk_param formals actuals = (false, actuals)) /\
    (forall formal formals p preceding actual,
        fst (chk_param formals preceding) = true ->
        type actual <> formal ->
        chk_param (formal :: formals) (expr_list_node p preceding actual) =
        if formal =? real_type
        then (true,
              expr_list_node p (snd (chk_param formals preceding))
                (new_ast_cast (pos actual) actual))
        else (false,
              expr_list_node p (snd (chk_param formals preceding)) actual))
    /\
    (forall formal formals p preceding actual,
        fst (chk_param formals preceding) = false ->
        chk_param (formal :: formals) (expr_list_node p preceding actual) =
        (false,
         expr_list_node p (snd (chk_param formals preceding)) actual)).
Proof.
  intros gs. split; [|split; [|split]].
  - intros id params s x s' H. apply check_parameters_inv in H. exact H.
  - intros formals actuals. apply chk_param_length_mismatch.
  - intros formal formals p preceding actual Hok Ht. simpl.
    destruct (chk_param formals preceding) as [ok preceding'].
    simpl in Hok. subst ok. simpl.
    unfold neq. apply Z.eqb_neq in Ht. rewrite Ht. reflexivity.
  - intros formal formals p preceding actual Hok. simpl.
    destruct (chk_param formals preceding) as [ok preceding'].
    simpl in Hok. subst ok. reflexivity.
Qed.

Lemma check_parameters_silent_and_casts_for_real_witness :
  (exists params1 t,
      type_check_expr_list sample_symbols
        (expr_list_node 1%nat
           (expr_list_node 1%nat expr_list_null (ast_integer 2%nat 1))
           (ast_integer 3%nat 2)) initial_state =
      Done ((params1, t), initial_state) /\
      expr_list_node 1%nat
        (expr_list_node 1%nat expr_list_null (ast_integer 2%nat 1))
        (ast_cast 3%nat real_type (ast_integer 3%nat 2)) =
      snd (chk_param
             (Symtab.last_parameter
                (sample_symbols (sym_p (mk_ast_id 1%nat integer_type 11))))
             params1)) /\
  chk_param [real_type; integer_type]
    (expr_list_node 1%nat expr_list_null (ast_integer 2%nat 1)) =
  (false, expr_list_node 1%nat expr_list_null (ast_integer 2%nat 1)) /\
  chk_param [real_type; integer_type]
    (expr_list_node 1%nat
       (expr_list_node 1%nat expr_list_null (ast_integer 2%nat 1))
       (ast_integer 3%nat 2)) =
  (true,
   expr_list_node 1%nat
     (expr_list_node 1%nat expr_list_null (ast_integer 2%nat 1))
     (ast_cast 3%nat real_type (ast_integer 3%nat 2))) /\
  chk_param [real_type; integer_type]
    (expr_list_node 1%nat
       (expr_list_node 1%nat expr_list_null (ast_real 2%nat 1.5%float))
       (ast_integer 3%nat 2)) =
  (false,
   expr_list_node 1%nat
     (expr_list_node 1%nat expr_list_null (ast_real 2%nat 1.5%float))
     (ast_integer 3%nat 2)).
Proof.
  destruct (check_parameters_silent_and_casts_for_real sample_symbols)
    as (Hsilent & Hlength & Hpair & Hfailed).
  split; [|split; [|split]].
  - apply (Hsilent (mk_ast_id 1%nat integer_type 11) _ initial_state).
    reflexivity.
  - apply Hlength. simpl. lia.
  - apply (Hpair real_type [integer_type] 1%nat
             (expr_list_node 1%nat expr_list_null (ast_integer 2%nat 1))
             (ast_integer 3%nat 2)).
    + reflexivity.
    + discriminate.
  - apply (Hfailed real_type [integer_type] 1%nat
             (expr_list_node 1%nat expr_list_null
                (ast_real 2%nat 1.5%float))
             (ast_integer 3%nat 2)).
    reflexivity.
Defined.

(** C5, as worded, fails on the formals [(a : integer; b : real)] with the
    actuals [(1.5, 2)]: the second actual is an integer and its formal is
    real, yet it is not wrapped, because the first pair has failed. *)
Lemma actual_after_failed_pair_not_cast :
  ~ differing_actual_cast_iff_formal_real.
Proof.
  intros H.
  specialize
    (H real_type [integer_type] 1%nat
       (expr_list_node 1%nat expr_list_null (ast_real 2%nat 1.5%float))
       (ast_integer 3%nat 2)).
  destruct H as [_ H]; [discriminate|].
  specialize (H eq_refl). discriminate H.
Qed.

Lemma fold_constants_idiv_mod get_symbol fuel op p ty l r l' r' a b :
  op = op_idiv \/ op = op_mod ->
  fold_constants get_symbol fuel l = Done l' ->
  fold_constants get_symbol fuel r = Done r' ->
  is_const get_symbol l' = true -> is_const get_symbol r' = true ->
  type l' = integer_type -> type r' = integer_type ->
  long_value get_symbol l' = Done a ->
  long_value get_symbol r' = Done b ->
  fold_constants get_symbol (S fuel) (ast_binaryoperation op p ty l r) =
  obind (match op with
         | op_mod => long_mod a b
         | _ => long_div a b
         end)
    (fun q => Done (ast_integer p q)).
Proof.
  intros Hop Fl Fr Cl Cr Tl Tr Vl Vr.
  pose proof (fold_constants_idempotent _ _ _ _ Fl) as Il.
  pose proof (fold_constants_idempotent _ _ _ _ Fr) as Ir.
  destruct Hop as [-> | ->]; cbn [fold_constants optimize];
    rewrite Fl; cbn [obind]; rewrite Fr; cbn [obind];
    cbn [is_binop tag binop_tag fold_binaryoperation];
    rewrite Il; cbn [obind]; rewrite Ir; cbn [obind];
    rewrite Cl, Cr, Tl, Tr; cbn [andb negb];
    rewrite Z.eqb_refl; cbn [andb];
    rewrite Vl; cbn [obind]; rewrite Vr; cbn [obind]; reflexivity.
Qed.

(** C7 (as the code has it): a DIV or MOD node whose folded children are
    integer-typed constants [a] and [b] is replaced by the literal of the
    truncating quotient, respectively of its remainder, when [b] is not
    zero and the pair is not the least [long] divided by [-1]; nothing
    guards a zero divisor, nor that pair: there the host's division faults
    and no node is returned. *)
Theorem idiv_mod_fold_unguarded :
  forall get_symbol fuel op p ty l r l' r' a b,
    op = op_idiv \/ op = op_mod ->
    fold_constants get_symbol fuel l = Done l' ->
    fold_constants get_symbol fuel r = Done r' ->
    is_const get_symbol l' = true -> is_const get_symbol r' = true ->
    type l' = integer_type -> type r' = integer_type ->
    long_value get_symbol l' = Done a ->
    long_value get_symbol r' = Done b ->
    (b <> 0 -> ~ (a = LONG_MIN /\ b = -1) ->
     fold_constants get_symbol (S fuel) (ast_binaryoperation op p ty l r) =
     Done (ast_integer p (truncating op a b))) /\
    (b = 0 \/ (a = LONG_MIN /\ b = -1) ->
     fold_constants get_symbol (S fuel) (ast_binaryoperation op p ty l r) =
     Halt arithmetic_fault).
Proof.
  intros gs fuel op p ty l r l' r' a b Hop Fl Fr Cl Cr Tl Tr Vl Vr.
  rewrite (fold_constants_idiv_mod gs fuel op p ty l r l' r' a b)
    by assumption.
  assert (Hpair : (a =? LONG_MIN) && (b =? -1) = true <->
                  a = LONG_MIN /\ b = -1).
  { rewrite andb_true_iff, !Z.eqb_eq. reflexivity. }
  split.
  - intros Hb Hmin. apply Z.eqb_neq in Hb.
    destruct ((a =? LONG_MIN) && (b =? -1)) eqn:E;
      [exfalso; apply Hmin, Hpair; reflexivity|].
    destruct Hop as [-> | ->]; unfold long_div, long_mod;
      rewrite Hb, E; reflexivity.
  - intros Hbad.
    destruct Hop as [-> | ->]; unfold long_div, long_mod;
      (destruct (b =? 0) eqn:Eb; [reflexivity|]);
      (destruct Hbad as [-> | Hmin]; [discriminate|]);
      apply Hpair in Hmin; rewrite Hmin; reflexivity.
Qed.

Lemma idiv_mod_fold_unguarded_witness :
  fold_constants sample_symbols 2
    (ast_binaryoperation op_idiv 1%nat integer_type
       (ast_integer 2%nat (-7)) (ast_integer 3%nat 2)) =
  Done (ast_integer 1%nat (-3)) /\
  fold_constants sample_symbols 2
    (ast_binaryoperation op_mod 1%nat integer_type
       (ast_integer 2%nat (-7)) (ast_integer 3%nat 0)) =
  Halt arithmetic_fault.
Proof.
  split.
  - apply (idiv_mod_fold_unguarded sample_symbols 1%nat op_idiv 1%nat
             integer_type (ast_integer 2%nat (-7)) (ast_integer 3%nat 2)
             (ast_integer 2%nat (-7)) (ast_integer 3%nat 2) (-7) 2
             (or_introl eq_refl) eq_refl eq_refl eq_refl eq_refl eq_refl
             eq_refl eq_refl eq_refl).
    + discriminate.
    + intros [H _]. discriminate H.
  - apply (idiv_mod_fold_unguarded sample_symbols 1%nat op_mod 1%nat
             integer_type (ast_integer 2%nat (-7)) (ast_integer 3%nat 0)
             (ast_integer 2%nat (-7)) (ast_integer 3%nat 0) (-7) 0
             (or_intror eq_refl) eq_refl eq_refl eq_refl eq_refl eq_refl
             eq_refl eq_refl eq_refl).
    left. reflexivity.
Defined.

(** C7, as worded, fails on [(0 - 9223372036854775807 - 1) DIV (0 - 1)]:
    the operands fold to the least [long] and to [-1], the divisor is not
    zero, and the division does not produce a quotient. *)
Lemma least_long_by_minus_one_faults : ~ nonzero_divisor_folds.
Proof.
  intros H.
  specialize
    (H sample_symbols 3%nat op_idiv 1%nat integer_type
       (ast_binaryoperation op_sub 2%nat integer_type
          (ast_binaryoperation op_sub 3%nat integer_type
             (ast_integer 4%nat 0) (ast_integer 5%nat LONG_MAX))
          (ast_integer 6%nat 1))
       (ast_binaryoperation op_sub 7%nat integer_type
          (ast_integer 8%nat 0) (ast_integer 9%nat 1))
       (ast_integer 2%nat LONG_MIN) (ast_integer 7%nat (-1))
       LONG_MIN (-1)
       (or_introl eq_refl) eq_refl eq_refl eq_refl eq_refl eq_refl eq_refl
       eq_refl eq_refl).
  assert (Hb : -1 <> 0) by discriminate.
  specialize (H Hb). vm_compute in H. discriminate H.
Qed.

(** C9: a body on which the folding pass has run to completion is returned
    unchanged by a second run of the pass, with the same or more fuel; the
    second run completes.  (The folder has no access to the diagnostics
    sink: neither run can emit one.) *)
Theorem do_optimize_idempotent :
  forall get_symbol fuel body body',
    do_optimize get_symbol fuel body = Done body' ->
    forall fuel', (fuel <= fuel')%nat ->
      do_optimize get_symbol fuel' body' = Done body'.
Proof.
  intros gs fuel body body' H fuel' Hle.
  apply (do_optimize_refines gs fuel fuel' Hle); [|discriminate].
  unfold do_optimize in *.
  destruct (optimize_stmt_idempotent (fold_constants gs fuel)
              (fold_constants_idempotent gs fuel)) as (_ & Hl & _).
  apply (Hl _ _ H).
Qed.

Lemma do_optimize_idempotent_witness :
  do_optimize sample_symbols 5
    (stmt_list_node 1%nat stmt_list_null
       (ast_assign 1%nat (ast_id_expr (mk_ast_id 1%nat integer_type 20))
          (ast_integer 2%nat 14))) =
  Done
    (stmt_list_node 1%nat stmt_list_null
       (ast_assign 1%nat (ast_id_expr (mk_ast_id 1%nat integer_type 20))
          (ast_integer 2%nat 14))).
Proof.
  apply (do_optimize_idempotent sample_symbols 3
           (stmt_list_node 1%nat stmt_list_null
              (ast_assign 1%nat
                 (ast_id_expr (mk_ast_id 1%nat integer_type 20))
                 (ast_binaryoperation op_mult 2%nat integer_type
                    (ast_id_expr (mk_ast_id 3%nat integer_type 10))
                    (ast_integer 4%nat 2))))).
  - reflexivity.
  - lia.
Defined.

(** What [ast_expr_list::optimize] returns: the list with its nodes where
    they were and each expression folded. *)
Lemma optimize_expr_list_folds_each f l l' :
  optimize_expr_list f l = Done l' <->
  expr_list_positions l' = expr_list_positions l /\
  Forall2 (fun e e' => f e = Done e')
    (expr_list_exprs l) (expr_list_exprs l').
Proof.
  revert l'. induction l as [|p preceding IH e]; intros l'; simpl.
  - split.
    + intros H. inv H. split; [reflexivity | constructor].
    + intros [Hp _]. destruct l' as [|p' preceding' e']; [reflexivity|].
      simpl in Hp. apply app_eq_nil in Hp.
      destruct Hp as [_ Hp]. discriminate.
  - split.
    + intros H. apply obind_done in H. destruct H as (q & Hq & H).
      apply obind_done in H. destruct H as (e' & He & H). inv H.
      apply IH in Hq. destruct Hq as [Hp Hf]. simpl. split.
      * now rewrite Hp.
      * apply Forall2_app; [assumption|]. constructor; [assumption|].
        constructor.
    + intros [Hp Hf]. destruct l' as [|p' preceding' e'].
      * simpl in Hp. symmetry in Hp. apply app_eq_nil in Hp.
        destruct Hp as [_ Hp]. discriminate.
      * simpl in Hp, Hf. apply app_inj_tail in Hp. destruct Hp as [Hp ->].
        apply Forall2_app_inv_l in Hf.
        destruct Hf as (l1 & l2 & H1 & H2 & Heq).
        inversion H2 as [|a b la lb Hab Hnil]; subst.
        inversion Hnil; subst.
        apply app_inj_tail in Heq. destruct Heq as [<- <-].
        rewrite (proj2 (IH preceding') (conj Hp H1)). simpl.
        rewrite Hab. reflexivity.
Qed.

(** C10: on a node that is not a binary operation [fold_constants] does
    what [node->optimize()] does and nothing more, so the node comes back
    with its tag, position and type field, and a node that comes back
    with another tag is one of the eight binary operations.  What comes
    back is, node by node: an identifier, a literal and a cast as they
    are, the operand of the cast not folded; an indexed access with its
    index folded; a relation with its left and then its right operand
    folded; a unary minus and a NOT with the operand folded; a call with
    its list nodes where they were and every parameter folded. *)
Theorem fold_constants_replaces_only_binops :
  forall get_symbol fuel,
    (forall node,
        is_binop node = false ->
        fold_constants get_symbol (S fuel) node =
        optimize (fold_constants get_symbol fuel) node) /\
    (forall node x,
        optimize (fold_constants get_symbol fuel) node = Done x ->
        tag x = tag node /\ pos x = pos node /\ type x = type node) /\
    (forall node x,
        fold_constants get_symbol (S fuel) node = Done x ->
        tag x <> tag node ->
        tag node = AST_ADD \/ tag node = AST_SUB \/ tag node = AST_OR \/
        tag node = AST_AND \/ tag node = AST_MULT \/
        tag node = AST_DIVIDE \/ tag node = AST_IDIV \/
        tag node = AST_MOD) /\
    (forall id,
        fold_constants get_symbol (S fuel) (ast_id_expr id) =
        Done (ast_id_expr id)) /\
    (forall p v,
        fold_constants get_symbol (S fuel) (ast_integer p v) =
        Done (ast_integer p v)) /\
    (forall p v,
        fold_constants get_symbol (S fuel) (ast_real p v) =
        Done (ast_real p v)) /\
    (forall p ty e,
        fold_constants get_symbol (S fuel) (ast_cast p ty e) =
        Done (ast_cast p ty e)) /\
    (forall p ty id index,
        fold_constants get_symbol (S fuel) (ast_indexed p ty id index) =
        obind (fold_constants get_symbol fuel index)
          (fun index' => Done (ast_indexed p ty id index'))) /\
    (forall rel p ty l r,
        fold_constants get_symbol (S fuel) (ast_binaryrelation rel p ty l r) =
        obind (fold_constants get_symbol fuel l) (fun l' =>
        obind (fold_constants get_symbol fuel r) (fun r' =>
        Done (ast_binaryrelation rel p ty l' r')))) /\
    (forall p ty e,
        fold_constants get_symbol (S fuel) (ast_uminus p ty e) =
        obind (fold_constants get_symbol fuel e)
          (fun e' => Done (ast_uminus p ty e'))) /\
    (forall p ty e,
        fold_constants get_symbol (S fuel) (ast_not p ty e) =
        obind (fold_constants get_symbol fuel e)
          (fun e' => Done (ast_not p ty e'))) /\
    (forall p ty id l x,
        fold_constants get_symbol (S fuel) (ast_functioncall p ty id l) =
        Done x <->
        exists l',
          x = ast_functioncall p ty id l' /\
          expr_list_positions l' = expr_list_positions l /\
          Forall2 (fun e e' => fold_constants get_symbol fuel e = Done e')
            (expr_list_exprs l) (expr_list_exprs l')).
Proof.
  intros gs fuel.
  assert (Hkeep :
    forall node x, optimize (fold_constants gs fuel) node = Done x ->
                   tag x = tag node /\ pos x = pos node /\
                   type x = type node)
    by (intros node x; apply optimize_keeps_node).
  assert (Hstep :
    forall node, is_binop node = false ->
                 fold_constants gs (S fuel) node =
                 optimize (fold_constants gs fuel) node).
  { intros node Hb. cbn [fold_constants].
    destruct (optimize (fold_constants gs fuel) node) as [x|r] eqn:Ho;
      [|reflexivity].
    cbn [obind]. destruct (Hkeep node x Ho) as (Ht & _).
    unfold is_binop in *. rewrite Ht, Hb. reflexivity. }
  split; [exact Hstep|]. split; [exact Hkeep|]. split.
  { intros node x H Ht. destruct (is_binop node) eqn:Hb.
    - unfold is_binop in Hb. destruct (tag node); try discriminate; tauto.
    - exfalso. apply Ht.
      apply (fold_constants_not_binop gs _ _ _ Hb) in H.
      apply (Hkeep node x H). }
  repeat apply conj; intros;
    try (rewrite Hstep by reflexivity; reflexivity).
  - rewrite Hstep by (destruct rel; reflexivity). reflexivity.
  - rewrite Hstep by reflexivity. cbn [optimize]. split.
    + intros H. apply obind_done in H. destruct H as (l' & Hl & H).
      inv H. exists l'. split; [reflexivity|].
      apply optimize_expr_list_folds_each. assumption.
    + intros (l' & -> & Hl). apply optimize_expr_list_folds_each in Hl.
      rewrite Hl. reflexivity.
Qed.

Lemma fold_constants_replaces_only_binops_witness :
  fold_constants sample_symbols 3
    (ast_binaryrelation rel_lessthan 1%nat integer_type
       (ast_binaryoperation op_add 2%nat integer_type
          (ast_integer 3%nat 2) (ast_integer 4%nat 3))
       (ast_integer 5%nat 7)) =
  Done (ast_binaryrelation rel_lessthan 1%nat integer_type
          (ast_integer 2%nat 5) (ast_integer 5%nat 7)) /\
  fold_constants sample_symbols 3
    (ast_functioncall 1%nat integer_type (mk_ast_id 1%nat integer_type 11)
       (expr_list_node 2%nat
          (expr_list_node 3%nat expr_list_null (ast_real 3%nat 1.5%float))
          (ast_binaryoperation op_add 4%nat integer_type
             (ast_integer 5%nat 2) (ast_integer 6%nat 3)))) =
  Done (ast_functioncall 1%nat integer_type (mk_ast_id 1%nat integer_type 11)
          (expr_list_node 2%nat
             (expr_list_node 3%nat expr_list_null (ast_real 3%nat 1.5%float))
             (ast_integer 4%nat 5))).
Proof.
  destruct (fold_constants_replaces_only_binops sample_symbols 2)
    as (_ & _ & _ & _ & _ & _ & _ & _ & Hrel & _ & _ & Hcall).
  split.
  - rewrite Hrel. reflexivity.
  - apply Hcall. eexists. split; [reflexivity|]. split; [reflexivity|].
    repeat constructor.
Defined.

(** The operand of a cast is not folded: [ast_cast::optimize] is empty,
    so the cast over [1 + 2] comes back over [1 + 2], not over [3]. *)
Lemma cast_operand_is_left_unfolded :
  ~ children_of_other_nodes_are_folded.
Proof.
  intros H.
  destruct (H sample_symbols 2%nat
              (ast_cast 1%nat real_type
                 (ast_binaryoperation op_add 2%nat integer_type
                    (ast_integer 3%nat 1) (ast_integer 4%nat 2)))
              _ eq_refl eq_refl) as [_ Hc].
  simpl children in Hc. inversion Hc as [|e e' l l' He _]; subst.
  vm_compute in He. discriminate.
Qed.

(** * Further properties of the type checker *)

Lemma check_binrel_result tc l r s x s' :
  check_binrel tc l r s = Done (x, s') ->
  exists l1 lt s1 r1 rt,
    tc l s = Done ((l1, lt), s1) /\ tc r s1 = Done ((r1, rt), s') /\
    x = (if neq lt rt && neq lt real_type
         then ast_cast (pos l1) real_type l1 else l1,
         if neq lt rt && neq rt real_type
         then ast_cast (pos r1) real_type r1 else r1,
         integer_type).
Proof.
  unfold check_binrel. intros H. bind_inv H.
  match type of H with
  | (if ?c then _ else _) _ = _ => destruct c eqn:C
  end; inv H; do 5 eexists;
    (split; [eassumption|]); (split; [eassumption|]);
    rewrite C; cbn [andb];
    repeat match goal with |- context [neq ?a ?b] => destruct (neq a b) end;
    reflexivity.
Qed.

Lemma chk_param_erase formals :
  forall actuals,
    erase_list (snd (chk_param formals actuals)) = erase_list actuals.
Proof.
  induction formals as [|formal formals IH]; intros [|p preceding e];
    try reflexivity.
  simpl. specialize (IH preceding).
  destruct (chk_param formals preceding) as [ok preceding']. simpl in IH.
  destruct ok; simpl; [|now rewrite IH].
  destruct (neq (type e) formal); [destruct (formal =? real_type)|];
    simpl; now rewrite IH.
Qed.

Lemma type_check_erase get_symbol :
  (forall e s e' t s',
      type_check get_symbol e s = Done ((e', t), s') ->
      erase e' = erase e) /\
  (forall l s l' t s',
      type_check_expr_list get_symbol l s = Done ((l', t), s') ->
      erase_list l' = erase_list l).
Proof.
  apply ast_expression_mutind; intros; simpl in *.
  - inv H. reflexivity.
  - bind_inv H0. inv H0. simpl. f_equal. eauto.
  - destruct op; bind_inv H1; inv H1;
      match goal with
      | E : check_binop1 _ _ _ _ = _ |- _ =>
          apply check_binop1_inv in E;
          destruct E as (l1 & lt & s1 & r1 & rt & Hl & Hr & Hx);
          destruct (neq lt rt); inv Hx
      | E : check_divide _ _ _ _ = _ |- _ =>
          apply check_divide_inv in E;
          destruct E as (l1 & lt & s1 & r1 & rt & Hl & Hr & Hx);
          inv Hx
      | E : check_binop2 _ _ _ _ _ _ = _ |- _ =>
          apply check_binop2_inv in E;
          destruct E as (l1 & lt & s1 & r1 & rt & s2 & Hl & Hr & Hx & _);
          inv Hx
      end;
      repeat match goal with
             | |- context [if ?c then _ else _] => destruct c
             end;
      simpl; f_equal; eauto.
  - bind_inv H1. inv H1. apply check_binrel_result in E.
    destruct E as (l1 & lt & s1 & r1 & rt & Hl & Hr & Hx). inv Hx.
    repeat match goal with
           | |- context [if ?c then _ else _] => destruct c
           end;
      simpl; f_equal; eauto.
  - bind_inv H0. inv H0. simpl. f_equal. eauto.
  - bind_inv H0.
    match type of H0 with
    | (if ?c then _ else _) _ = _ => destruct c
    end; bind_inv H0; inv H0; simpl; f_equal; eauto.
  - discriminate.
  - inv H. reflexivity.
  - inv H. reflexivity.
  - bind_inv H0. inv H0. apply check_parameters_inv in E.
    destruct E as (l1 & t1 & Hl & ->). simpl.
    rewrite chk_param_erase. f_equal. eauto.
  - inv H. reflexivity.
  - bind_inv H1. inv H1. simpl. f_equal; eauto.
Qed.

Ltac tc_step H :=
  bind_inv H;
  repeat match type of H with
         | (if ?c then _ else _) _ = Done _ => destruct c; bind_inv H
         end.

Lemma type_check_stmt_erase get_symbol env :
  (forall n s n' t s',
      type_check_stmt get_symbol env n s = Done ((n', t), s') ->
      erase_stmt n' = erase_stmt n) /\
  (forall n s n' t s',
      type_check_stmt_list get_symbol env n s = Done ((n', t), s') ->
      erase_stmt_list n' = erase_stmt_list n) /\
  (forall n s n' t s',
      type_check_elsif get_symbol env n s = Done ((n', t), s') ->
      erase_elsif n' = erase_elsif n) /\
  (forall n s n' t s',
      type_check_elsif_list get_symbol env n s = Done ((n', t), s') ->
      erase_elsif_list n' = erase_elsif_list n).
Proof.
  destruct (type_check_erase get_symbol) as [He Hl].
  apply ast_statement_mutind; intros; simpl in *.
  - inv H. reflexivity.
  - bind_inv H. inv H. apply check_parameters_inv in E.
    destruct E as (l1 & t1 & Hc & ->). simpl.
    rewrite chk_param_erase. f_equal. eauto.
  - unfold type_check_assign in H. bind_inv H. inv H.
    match goal with
    | |- context [if ?c then _ else _] => destruct c
    end; simpl; f_equal; eauto.
  - bind_inv H0. inv H0. simpl. f_equal; eauto.
  - bind_inv H2. inv H2. simpl. f_equal; eauto.
  - unfold type_check_return in H. bind_inv H.
    destruct value as [v|]; tc_step H; inv H; simpl; try reflexivity;
      do 2 f_equal; eauto.
  - inv H. reflexivity.
  - bind_inv H1. inv H1. simpl. f_equal; eauto.
  - tc_step H0; inv H0; simpl; f_equal; eauto.
  - inv H. reflexivity.
  - bind_inv H1. inv H1. simpl. f_equal; eauto.
Qed.

(** X1: the type checker changes a body only by wrapping expressions in
    cast nodes and by writing type fields: with the casts dropped and the
    written fields cleared, the checked body is the body that went in. *)
Theorem do_typecheck_only_inserts_casts :
  forall get_symbol current env body s body' s',
    do_typecheck get_symbol current env body s = Done (body', s') ->
    erase_stmt_list body' = erase_stmt_list body.
Proof.
  intros gs cur env body s body' s' H.
  unfold do_typecheck in H. bind_inv H. inv H.
  eapply (type_check_stmt_erase gs cur); eassumption.
Qed.

Lemma do_typecheck_only_inserts_casts_witness :
  erase_stmt_list
    (stmt_list_node 1%nat stmt_list_null
       (ast_assign 1%nat (ast_id_expr (mk_ast_id 1%nat real_type 20))
          (ast_cast 2%nat real_type
             (ast_binaryoperation op_add 2%nat integer_type
                (ast_integer 3%nat 1) (ast_integer 4%nat 2))))) =
  erase_stmt_list
    (stmt_list_node 1%nat stmt_list_null
       (ast_assign 1%nat (ast_id_expr (mk_ast_id 1%nat real_type 20))
          (ast_binaryoperation op_add 2%nat void_type
             (ast_integer 3%nat 1) (ast_integer 4%nat 2)))).
Proof.
  apply (do_typecheck_only_inserts_casts
           (fun _ => Symtab.mk_symbol SYM_VAR real_type [] (ival 0)) 12
           (sample_symbols 12) _ initial_state _ initial_state).
  reflexivity.
Defined.

Lemma well_cast_list_exprs l :
  well_cast_list l = forallb well_cast (expr_list_exprs l).
Proof.
  induction l as [|p preceding IH e]; [reflexivity|].
  simpl. rewrite forallb_app, IH. simpl. now rewrite andb_true_r.
Qed.

Lemma chk_param_well_cast formals :
  forall actuals,
    well_cast_list actuals = true ->
    forallb (fun e => negb (is_cast e)) (expr_list_exprs actuals) = true ->
    well_cast_list (snd (chk_param formals actuals)) = true.
Proof.
  induction formals as [|formal formals IH]; intros [|p preceding e] Hw Hn;
    try assumption.
  simpl in *. rewrite forallb_app in Hn.
  apply andb_true_iff in Hw, Hn. destruct Hw as [Hw He], Hn as [Hn Hc].
  simpl in Hc. rewrite andb_true_r in Hc.
  specialize (IH preceding Hw Hn).
  destruct (chk_param formals preceding) as [ok preceding']. simpl in IH.
  destruct ok; simpl; [|now rewrite IH, He].
  destruct (neq (type e) formal); [destruct (formal =? real_type)|];
    simpl; rewrite IH, ?He, ?Hc; reflexivity.
Qed.

Lemma type_check_well_cast get_symbol :
  (forall e s e' t s',
      type_check get_symbol e s = Done ((e', t), s') ->
      well_cast e' = true /\ is_cast e' = false) /\
  (forall l s l' t s',
      type_check_expr_list get_symbol l s = Done ((l', t), s') ->
      well_cast_list l' = true /\
      forallb (fun e => negb (is_cast e)) (expr_list_exprs l') = true).
Proof.
  apply ast_expression_mutind; intros; simpl in *.
  - inv H. auto.
  - bind_inv H0. inv H0. simpl. split; [|reflexivity].
    eapply H; eassumption.
  - destruct op; bind_inv H1; inv H1;
      match goal with
      | E : check_binop1 _ _ _ _ = _ |- _ =>
          apply check_binop1_inv in E;
          destruct E as (l1 & lt & s1 & r1 & rt & Hl & Hr & Hx);
          destruct (neq lt rt); inv Hx
      | E : check_divide _ _ _ _ = _ |- _ =>
          apply check_divide_inv in E;
          destruct E as (l1 & lt & s1 & r1 & rt & Hl & Hr & Hx);
          inv Hx
      | E : check_binop2 _ _ _ _ _ _ = _ |- _ =>
          apply check_binop2_inv in E;
          destruct E as (l1 & lt & s1 & r1 & rt & s2 & Hl & Hr & Hx & _);
          inv Hx
      end;
      destruct (H _ _ _ _ Hl) as [Wl Cl];
      destruct (H0 _ _ _ _ Hr) as [Wr Cr];
      repeat match goal with
             | |- context [if ?c then _ else _] => destruct c
             end;
      simpl; rewrite ?Wl, ?Wr, ?Cl, ?Cr; auto.
  - bind_inv H1. inv H1. apply check_binrel_result in E.
    destruct E as (l1 & lt & s1 & r1 & rt & Hl & Hr & Hx). inv Hx.
    destruct (H _ _ _ _ Hl) as [Wl Cl].
    destruct (H0 _ _ _ _ Hr) as [Wr Cr].
    repeat match goal with
           | |- context [if ?c then _ else _] => destruct c
           end;
      simpl; rewrite ?Wl, ?Wr, ?Cl, ?Cr; auto.
  - bind_inv H0. inv H0. simpl. split; [|reflexivity].
    eapply H; eassumption.
  - bind_inv H0.
    match type of H0 with
    | (if ?c then _ else _) _ = _ => destruct c
    end; bind_inv H0; inv H0; simpl; (split; [|reflexivity]);
      eapply H; eassumption.
  - discriminate.
  - inv H. auto.
  - inv H. auto.
  - bind_inv H0. inv H0. apply check_parameters_inv in E.
    destruct E as (l1 & t1 & Hl & ->). simpl. split; [|reflexivity].
    destruct (H _ _ _ _ Hl) as [Wl Cl].
    apply chk_param_well_cast; assumption.
  - inv H. auto.
  - bind_inv H1. inv H1. simpl.
    destruct (H _ _ _ _ E) as [Wl Cl].
    destruct (H0 _ _ _ _ E0) as [We Ce].
    rewrite Wl, We, forallb_app, Cl. simpl. rewrite Ce. auto.
Qed.

Lemma type_check_stmt_well_cast get_symbol env :
  (forall n s n' t s',
      type_check_stmt get_symbol env n s = Done ((n', t), s') ->
      forallb well_cast (stmt_exprs n) = true ->
      forallb well_cast (stmt_exprs n') = true) /\
  (forall n s n' t s',
      type_check_stmt_list get_symbol env n s = Done ((n', t), s') ->
      forallb well_cast (stmt_list_exprs n) = true ->
      forallb well_cast (stmt_list_exprs n') = true) /\
  (forall n s n' t s',
      type_check_elsif get_symbol env n s = Done ((n', t), s') ->
      forallb well_cast (elsif_exprs n) = true ->
      forallb well_cast (elsif_exprs n') = true) /\
  (forall n s n' t s',
      type_check_elsif_list get_symbol env n s = Done ((n', t), s') ->
      forallb well_cast (elsif_list_exprs n) = true ->
      forallb well_cast (elsif_list_exprs n') = true).
Proof.
  destruct (type_check_well_cast get_symbol) as [He Hl].
  assert (Hw : forall e s e' t s',
             type_check get_symbol e s = Done ((e', t), s') ->
             well_cast e' = true) by (intros; eapply He; eassumption).
  assert (Hc : forall e s e' t s',
             type_check get_symbol e s = Done ((e', t), s') ->
             is_cast e' = false) by (intros; eapply He; eassumption).
  apply ast_statement_mutind; intros; simpl in *.
  - inv H. reflexivity.
  - bind_inv H. inv H. apply check_parameters_inv in E.
    destruct E as (l1 & t1 & Hc1 & ->). simpl.
    rewrite <- well_cast_list_exprs.
    destruct (Hl _ _ _ _ _ Hc1). apply chk_param_well_cast; assumption.
  - unfold type_check_assign in H. bind_inv H. inv H.
    match goal with
    | |- context [if ?c then _ else _] => destruct c
    end; simpl;
      repeat match goal with
             | E : type_check _ _ _ = Done _ |- _ =>
                 rewrite (Hw _ _ _ _ _ E), ?(Hc _ _ _ _ _ E); clear E
             end; reflexivity.
  - bind_inv H0. inv H0. simpl. apply andb_true_iff in H1.
    destruct H1 as [_ H1].
    erewrite Hw by eassumption. simpl. eauto.
  - bind_inv H2. inv H2. simpl. apply andb_true_iff in H3.
    destruct H3 as [_ H3]. rewrite !forallb_app in *.
    apply andb_true_iff in H3. destruct H3 as [B1 H3].
    apply andb_true_iff in H3. destruct H3 as [B2 B3].
    erewrite Hw by eassumption. simpl.
    erewrite H, H0, H1 by eassumption. reflexivity.
  - unfold type_check_return in H. bind_inv H.
    destruct value as [v|]; tc_step H; inv H; simpl; try reflexivity;
      erewrite Hw by eassumption; reflexivity.
  - inv H. reflexivity.
  - bind_inv H1. inv H1. simpl. rewrite forallb_app in *.
    apply andb_true_iff in H2. destruct H2 as [B1 B2].
    erewrite H, H0 by eassumption. reflexivity.
  - apply andb_true_iff in H1. destruct H1 as [_ H1].
    tc_step H0; inv H0; simpl; erewrite Hw by eassumption; simpl; eauto.
  - inv H. reflexivity.
  - bind_inv H1. inv H1. simpl. rewrite forallb_app in *.
    apply andb_true_iff in H2. destruct H2 as [B1 B2].
    erewrite H, H0 by eassumption. reflexivity.
Qed.

(** X2: in a body whose casts (if it has any) are typed real and wrap no
    cast, the same holds after the check: every cast the checker inserts
    carries type real, and no cast ever wraps another cast. *)
Theorem do_typecheck_casts_real_and_single :
  forall get_symbol current env body s body' s',
    do_typecheck get_symbol current env body s = Done (body', s') ->
    forallb well_cast (stmt_list_exprs body) = true ->
    forallb well_cast (stmt_list_exprs body') = true.
Proof.
  intros gs cur env body s body' s' H Hb.
  unfold do_typecheck in H. bind_inv H. inv H.
  eapply (type_check_stmt_well_cast gs cur); eassumption.
Qed.

Lemma do_typecheck_casts_real_and_single_witness :
  forallb well_cast
    (stmt_list_exprs
       (stmt_list_node 1%nat stmt_list_null
          (ast_assign 1%nat (ast_id_expr (mk_ast_id 1%nat real_type 20))
             (ast_cast 2%nat real_type
                (ast_binaryoperation op_add 2%nat integer_type
                   (ast_integer 3%nat 1) (ast_integer 4%nat 2)))))) = true.
Proof.
  apply (do_typecheck_casts_real_and_single
           (fun _ => Symtab.mk_symbol SYM_VAR real_type [] (ival 0)) 12
           (sample_symbols 12)
           (stmt_list_node 1%nat stmt_list_null
              (ast_assign 1%nat (ast_id_expr (mk_ast_id 1%nat real_type 20))
                 (ast_binaryoperation op_add 2%nat void_type
                    (ast_integer 3%nat 1) (ast_integer 4%nat 2))))
           initial_state _ initial_state); reflexivity.
Defined.

Lemma completes_bind {A B} (m : M A) (k : A -> M B) s :
  completes (bind m k s) =
  match m s with
  | Done (a, s1) => completes (k a s1)
  | Halt _ => false
  end.
Proof. unfold bind. destruct (m s) as [[a s1]|r]; reflexivity. Qed.

Lemma completes_error_if {B} c p msg (k : unit -> M B) s :
  completes (bind (error_if c p msg) k s) =
  completes (k tt (if c
                   then mk_tc_state (has_return s)
                          (diagnostics s ++ [mk_diagnostic p msg])
                   else s)).
Proof. destruct c; reflexivity. Qed.

Lemma type_check_completes get_symbol :
  (forall e s,
      completes (type_check get_symbol e s) = checkable get_symbol e) /\
  (forall l s,
      completes (type_check_expr_list get_symbol l s) =
      checkable_list get_symbol l).
Proof.
  apply ast_expression_mutind; intros; simpl.
  - reflexivity.
  - rewrite completes_bind. specialize (H s).
    destruct (type_check get_symbol index s) as [[[i it] s1]|h];
      simpl in H; rewrite <- H; [|reflexivity].
    rewrite completes_error_if. reflexivity.
  - destruct op;
      unfold check_binop1, check_binop2, check_divide, bind;
      specialize (H s);
      (destruct (type_check get_symbol left s) as [[[l1 lt] s1]|h];
       simpl in H; rewrite <- H; [|reflexivity]);
      specialize (H0 s1);
      (destruct (type_check get_symbol right s1) as [[[r1 rt] s2]|h];
       simpl in H0; rewrite <- H0; [|reflexivity]);
      cbn beta iota;
      repeat match goal with
             | |- context [neq ?a ?b] => destruct (neq a b)
             end;
      reflexivity.
  - unfold check_binrel, bind. specialize (H s).
    destruct (type_check get_symbol left s) as [[[l1 lt] s1]|h];
      simpl in H; rewrite <- H; [|reflexivity].
    specialize (H0 s1).
    destruct (type_check get_symbol right s1) as [[[r1 rt] s2]|h];
      simpl in H0; rewrite <- H0; [|reflexivity].
    cbn beta iota. destruct (neq lt rt); reflexivity.
  - rewrite completes_bind. specialize (H s).
    destruct (type_check get_symbol expr s) as [[[e1 t1] s1]|h];
      simpl in H; rewrite <- H; reflexivity.
  - rewrite completes_bind. specialize (H s).
    destruct (type_check get_symbol expr s) as [[[e1 t1] s1]|h];
      simpl in H; rewrite <- H; [|reflexivity].
    destruct (neq t1 integer_type); reflexivity.
  - reflexivity.
  - reflexivity.
  - reflexivity.
  - unfold check_parameters, bind. specialize (H s).
    destruct (type_check_expr_list get_symbol parameter_list s)
      as [[[l1 t1] s1]|h]; simpl in H; rewrite <- H; [|reflexivity].
    cbn beta iota.
    destruct (Symtab.tag (get_symbol (sym_p id))); reflexivity.
  - reflexivity.
  - rewrite completes_bind. specialize (H s).
    destruct (type_check_expr_list get_symbol preceding s)
      as [[[l1 t1] s1]|h]; simpl in H; rewrite <- H; [|reflexivity].
    rewrite completes_bind. specialize (H0 s1).
    destruct (type_check get_symbol last_expr s1) as [[[e1 t2] s2]|h];
      simpl in H0; rewrite <- H0; reflexivity.
Qed.

(** X3: the check of an expression returns exactly when the expression
    holds no cast node and every call in it names a function or a
    procedure; no type error stops it. *)
Theorem type_check_completes_iff_checkable :
  forall get_symbol e s,
    completes (type_check get_symbol e s) = checkable get_symbol e.
Proof. intros gs e s. apply type_check_completes. Qed.

Lemma completes_true_inv {A} (o : outcome A) :
  completes o = true -> exists a, o = Done a.
Proof. destruct o; [eauto | discriminate]. Qed.

Lemma check_parameters_completes get_symbol id l s :
  checkable_list get_symbol l = true ->
  callable (Symtab.tag (get_symbol (sym_p id))) = true ->
  exists l' s',
    check_parameters get_symbol (type_check_expr_list get_symbol) id l s =
    Done (l', s').
Proof.
  intros Hl Hc.
  destruct (type_check_completes get_symbol) as [_ H].
  specialize (H l s). rewrite Hl in H.
  apply completes_true_inv in H. destruct H as [[[l1 t1] s1] H].
  unfold check_parameters, bind. rewrite H. cbn beta iota.
  revert Hc. destruct (Symtab.tag (get_symbol (sym_p id))); intros Hc;
    try discriminate; do 2 eexists; reflexivity.
Qed.

Lemma type_check_done get_symbol e s :
  checkable get_symbol e = true ->
  exists e' t s', type_check get_symbol e s = Done ((e', t), s').
Proof.
  intros H. destruct (type_check_completes get_symbol) as [He _].
  specialize (He e s). rewrite H in He.
  apply completes_true_inv in He. destruct He as [[[e' t] s'] He]. eauto.
Qed.

Lemma type_check_stmt_done get_symbol env :
  (forall n s, checkable_stmt get_symbol n = true ->
               completes (type_check_stmt get_symbol env n s) = true) /\
  (forall n s, checkable_stmt_list get_symbol n = true ->
               completes (type_check_stmt_list get_symbol env n s) = true) /\
  (forall n s, checkable_elsif get_symbol n = true ->
               completes (type_check_elsif get_symbol env n s) = true) /\
  (forall n s, checkable_elsif_list get_symbol n = true ->
               completes (type_check_elsif_list get_symbol env n s) = true).
Proof.
  apply ast_statement_mutind; intros; simpl in *;
    repeat match goal with
           | H : _ && _ = true |- _ =>
               apply andb_true_iff in H; destruct H
           end.
  - reflexivity.
  - destruct (check_parameters_completes get_symbol id parameter_list s)
      as (l' & s' & E); try assumption.
    rewrite completes_bind, E. reflexivity.
  - unfold type_check_assign.
    destruct (type_check_done get_symbol lhs s) as (l' & lt & s1 & El);
      [assumption|].
    destruct (type_check_done get_symbol rhs s1) as (r' & rt & s2 & Er);
      [assumption|].
    rewrite completes_bind, El. cbn beta iota.
    rewrite completes_bind, Er. cbn beta iota.
    rewrite completes_error_if. reflexivity.
  - destruct (type_check_done get_symbol condition s)
      as (c' & ct & s1 & Ec); [assumption|].
    rewrite completes_bind, Ec. cbn beta iota.
    rewrite completes_error_if, completes_bind.
    match goal with
    | |- match type_check_stmt_list _ _ body ?st with _ => _ end = _ =>
        specialize (H st); destruct (type_check_stmt_list _ _ body st)
          as [[[b' bt] s2]|h]
    end; [reflexivity|]. apply H. assumption.
  - destruct (type_check_done get_symbol condition s)
      as (c' & ct & s1 & Ec); [assumption|].
    rewrite completes_bind, Ec. cbn beta iota.
    rewrite completes_error_if, completes_bind.
    match goal with
    | |- match type_check_stmt_list _ _ body ?st with _ => _ end = _ =>
        specialize (H st); destruct (type_check_stmt_list _ _ body st)
          as [[[b' bt] s2]|h]
    end; [|apply H; assumption].
    rewrite completes_bind. specialize (H0 s2).
    destruct (type_check_elsif_list _ _ elsif_list s2)
      as [[[e' et] s3]|h]; [|apply H0; assumption].
    rewrite completes_bind. specialize (H1 s3).
    destruct (type_check_stmt_list _ _ else_body s3)
      as [[[b2 bt2] s4]|h]; [reflexivity|]. apply H1. assumption.
  - unfold type_check_return. rewrite completes_bind. cbn.
    destruct value as [v|].
    + destruct (type_check_done get_symbol v
                  (mk_tc_state true (diagnostics s)))
        as (v' & vt & s1 & Ev); [assumption|].
      rewrite completes_bind, Ev. cbn beta iota.
      destruct (negb (sym_type_eqb (Symtab.tag (get_symbol env)) SYM_FUNC)).
      * reflexivity.
      * rewrite completes_error_if. reflexivity.
    + rewrite completes_error_if. reflexivity.
  - reflexivity.
  - rewrite completes_bind. specialize (H s).
    destruct (type_check_stmt_list _ _ preceding s) as [[[p' pt] s1]|h];
      [|apply H; assumption].
    rewrite completes_bind. specialize (H0 s1).
    destruct (type_check_stmt _ _ last_stmt s1) as [[[l' lt] s2]|h];
      [reflexivity|]. apply H0. assumption.
  - destruct (type_check_done get_symbol condition s)
      as (c' & ct & s1 & Ec); [assumption|].
    rewrite completes_bind, Ec. cbn beta iota.
    destruct (neq ct integer_type); [reflexivity|].
    rewrite completes_bind.
    specialize (H s1).
    destruct (type_check_stmt_list _ _ body s1) as [[[b' bt] s2]|h];
      [reflexivity|]. apply H. assumption.
  - reflexivity.
  - rewrite completes_bind. specialize (H s).
    destruct (type_check_elsif_list _ _ preceding s) as [[[p' pt] s1]|h];
      [|apply H; assumption].
    rewrite completes_bind. specialize (H0 s1).
    destruct (type_check_elsif _ _ last_elsif s1) as [[[l' lt] s2]|h];
      [reflexivity|]. apply H0. assumption.
Qed.

(** X4: a body that holds no cast node and whose calls all name functions
    or procedures is checked to the end, whatever type errors it has: the
    check of a body stops on no user error. *)
Theorem do_typecheck_completes :
  forall get_symbol current env body s,
    checkable_stmt_list get_symbol body = true ->
    completes (do_typecheck get_symbol current env body s) = true.
Proof.
  intros gs cur env body s H. unfold do_typecheck.
  rewrite completes_bind. cbn.
  rewrite completes_bind.
  destruct (type_check_stmt_done gs cur) as (_ & Hl & _).
  specialize (Hl body (mk_tc_state false (diagnostics s)) H).
  destruct (type_check_stmt_list gs cur body _) as [[[b' bt] s1]|h];
    [|exact Hl].
  rewrite completes_bind. cbn.
  rewrite completes_error_if. reflexivity.
Qed.

Lemma do_typecheck_completes_witness :
  completes
    (do_typecheck sample_symbols 12 (sample_symbols 12)
       (stmt_list_node 1%nat stmt_list_null
          (ast_assign 1%nat (ast_id_expr (mk_ast_id 1%nat integer_type 20))
             (ast_not 2%nat void_type (ast_real 3%nat 1.5%float))))
       initial_state) = true.
Proof.
  apply (do_typecheck_completes sample_symbols 12 (sample_symbols 12)).
  reflexivity.
Defined.

(** ** The flag [has_return] and the diagnostics *)

Lemma error_if_has_return c p msg s u s' :
  error_if c p msg s = Done (u, s') -> has_return s' = has_return s.
Proof. destruct c; intros H; inv H; reflexivity. Qed.

Lemma type_error_has_return p msg s u s' :
  type_error p msg s = Done (u, s') -> has_return s' = has_return s.
Proof. intros H; inv H; reflexivity. Qed.

Ltac flag_chain :=
  repeat match goal with
         | E : error_if _ _ _ _ = Done _ |- _ =>
             apply error_if_has_return in E
         | E : type_error _ _ _ = Done _ |- _ =>
             apply type_error_has_return in E
         | IH : forall s r s', ?f ?e s = Done (r, s') -> _,
           E : ?f ?e _ = Done _ |- _ => apply IH in E
         end;
  congruence.

Ltac tc_inv_all :=
  repeat match goal with
         | H : bind _ _ _ = Done _ |- _ => bind_inv H
         | H : (let '(_, _) := ?x in _) _ = Done _ |- _ => destruct x
         | H : (if ?c then _ else _) _ = Done _ |- _ => destruct c
         | H : ret _ _ = Done _ |- _ => inv H
         end.

Lemma type_check_has_return get_symbol :
  (forall e s r s',
      type_check get_symbol e s = Done (r, s') ->
      has_return s' = has_return s) /\
  (forall l s r s',
      type_check_expr_list get_symbol l s = Done (r, s') ->
      has_return s' = has_return s).
Proof.
  apply ast_expression_mutind; intros; simpl in *.
  - inv H. reflexivity.
  - tc_inv_all. flag_chain.
  - destruct op;
      unfold check_binop1, check_binop2, check_divide in H1;
      tc_inv_all; flag_chain.
  - unfold check_binrel in H1. tc_inv_all; flag_chain.
  - tc_inv_all. flag_chain.
  - tc_inv_all; flag_chain.
  - discriminate.
  - inv H. reflexivity.
  - inv H. reflexivity.
  - bind_inv H0. inv H0. apply check_parameters_inv in E.
    destruct E as (l1 & t1 & E & _). flag_chain.
  - inv H. reflexivity.
  - tc_inv_all. flag_chain.
Qed.

Lemma flag_step_neutral s s' :
  extends s s' -> has_return s' = has_return s -> flag_step false false s s'.
Proof.
  intros He Hf. unfold flag_step. rewrite Hf.
  repeat split; auto; discriminate.
Qed.

Lemma flag_step_seq may1 must1 may2 must2 s s1 s2 :
  flag_step may1 must1 s s1 -> flag_step may2 must2 s1 s2 ->
  flag_step (may1 || may2) (must1 || must2) s s2.
Proof.
  intros (E1 & K1 & M1 & U1) (E2 & K2 & M2 & U2).
  split; [|split; [|split]].
  - apply (extends_trans s s1 s2); assumption.
  - auto.
  - intros H. rewrite orb_true_iff.
    destruct (M2 H) as [H1|H1]; [destruct (M1 H1)|]; auto.
  - intros H. apply orb_true_iff in H. destruct H; auto.
Qed.

Lemma flag_step_weaken may must may' must' s s' :
  flag_step may must s s' ->
  (may = true -> may' = true) -> (must' = true -> must = true) ->
  flag_step may' must' s s'.
Proof.
  intros (E & K & M & U) Hmay Hmust. repeat split; auto.
  intros H. destruct (M H); auto.
Qed.

Lemma flag_step_expr get_symbol e s r s' :
  type_check get_symbol e s = Done (r, s') -> flag_step false false s s'.
Proof.
  intros H. apply flag_step_neutral.
  - eapply (proj1 (type_check_extends get_symbol)); eassumption.
  - eapply (proj1 (type_check_has_return get_symbol)); eassumption.
Qed.

Lemma flag_step_error_if c p msg s u s' :
  error_if c p msg s = Done (u, s') -> flag_step false false s s'.
Proof.
  intros H. apply flag_step_neutral.
  - eapply error_if_extends; eassumption.
  - eapply error_if_has_return; eassumption.
Qed.

Lemma flag_step_type_error p msg s u s' :
  type_error p msg s = Done (u, s') -> flag_step false false s s'.
Proof.
  intros H. apply flag_step_neutral.
  - eapply type_error_extends; eassumption.
  - eapply type_error_has_return; eassumption.
Qed.

Lemma flag_step_parameters get_symbol id l s r s' :
  check_parameters get_symbol (type_check_expr_list get_symbol) id l s =
  Done (r, s') ->
  flag_step false false s s'.
Proof.
  intros H. apply check_parameters_inv in H.
  destruct H as (l1 & t1 & H & _). apply flag_step_neutral.
  - eapply (proj2 (type_check_extends get_symbol)); eassumption.
  - eapply (proj2 (type_check_has_return get_symbol)); eassumption.
Qed.

Lemma flag_step_set s u s' :
  set_has_return true s = Done (u, s') -> flag_step true true s s'.
Proof.
  intros H. inv H. repeat split; simpl; auto. apply extends_refl.
Qed.

Lemma flag_step_refl s : flag_step false false s s.
Proof. apply flag_step_neutral; [apply extends_refl | reflexivity]. Qed.

Ltac flag_steps :=
  repeat match goal with
         | E : type_check _ _ _ = Done _ |- _ =>
             apply flag_step_expr in E
         | E : error_if _ _ _ _ = Done _ |- _ =>
             apply flag_step_error_if in E
         | E : type_error _ _ _ = Done _ |- _ =>
             apply flag_step_type_error in E
         | E : check_parameters _ _ _ _ _ = Done _ |- _ =>
             apply flag_step_parameters in E
         | E : set_has_return true _ = Done _ |- _ =>
             apply flag_step_set in E
         | IH : forall s r s', ?f ?n s = Done (r, s') -> _,
           E : ?f ?n _ = Done _ |- _ => apply IH in E
         end.

Ltac flag_compose :=
  repeat match goal with
         | A : flag_step _ _ ?s ?s1, B : flag_step _ _ ?s1 ?s2 |- _ =>
             pose proof (flag_step_seq _ _ _ _ _ _ _ A B); clear A B
         end.

Ltac flag_close :=
  match goal with
  | A : flag_step _ _ ?s ?s' |- flag_step _ _ ?s ?s' =>
      apply (flag_step_weaken _ _ _ _ _ _ A);
      simpl; rewrite ?orb_true_iff, ?orb_false_r; intuition congruence
  | |- flag_step false false ?s ?s => apply flag_step_refl
  end.

Lemma type_check_stmt_flag get_symbol env :
  (forall n s r s',
      type_check_stmt get_symbol env n s = Done (r, s') ->
      flag_step (stmt_has_return n) (stmt_returns_outside_elsif n) s s') /\
  (forall n s r s',
      type_check_stmt_list get_symbol env n s = Done (r, s') ->
      flag_step (stmt_list_has_return n)
        (stmt_list_returns_outside_elsif n) s s') /\
  (forall n s r s',
      type_check_elsif get_symbol env n s = Done (r, s') ->
      flag_step (elsif_has_return n) false s s') /\
  (forall n s r s',
      type_check_elsif_list get_symbol env n s = Done (r, s') ->
      flag_step (elsif_list_has_return n) false s s').
Proof.
  apply ast_statement_mutind; intros; simpl in *.
  - inv H. flag_close.
  - tc_inv_all. flag_steps. flag_compose. flag_close.
  - unfold type_check_assign in H. tc_inv_all. flag_steps. flag_compose.
    flag_close.
  - tc_inv_all. flag_steps. flag_compose. flag_close.
  - tc_inv_all. flag_steps. flag_compose. flag_close.
  - unfold type_check_return in H. bind_inv H.
    destruct value as [v|]; tc_inv_all; flag_steps; flag_compose;
      flag_close.
  - inv H. flag_close.
  - tc_inv_all. flag_steps. flag_compose. flag_close.
  - tc_inv_all; flag_steps; flag_compose; flag_close.
  - inv H. flag_close.
  - tc_inv_all. flag_steps. flag_compose. flag_close.
Qed.

Lemma type_check_stmt_list_pos get_symbol env n s n' t s' :
  type_check_stmt_list get_symbol env n s = Done ((n', t), s') ->
  stmt_list_pos n' = stmt_list_pos n.
Proof.
  destruct n; simpl; intros H; tc_inv_all; try inv H; reflexivity.
Qed.

Lemma do_typecheck_inv get_symbol current env body s body' s' :
  do_typecheck get_symbol current env body s = Done (body', s') ->
  exists t s1,
    type_check_stmt_list get_symbol current body
      (mk_tc_state false (diagnostics s)) = Done ((body', t), s1) /\
    error_if (sym_type_eqb (Symtab.tag env) SYM_FUNC
              && negb (has_return s1))
      (stmt_list_pos body) "A function must return a value." s1 =
    Done (tt, s').
Proof.
  unfold do_typecheck. intros H. bind_inv H. inv H.
  match goal with
  | E : set_has_return false _ = Done _ |- _ => inv E
  end.
  match goal with
  | E : get_has_return _ = Done _ |- _ => inv E
  end.
  match goal with
  | E : type_check_stmt_list _ _ _ _ = Done _ |- _ =>
      rewrite (type_check_stmt_list_pos _ _ _ _ _ _ _ E) in *;
      do 2 eexists; split; [exact E|]
  end.
  match goal with
  | E : error_if _ _ _ _ = Done (?u, _) |- _ => destruct u; exact E
  end.
Qed.

(** X5: when the check of a function's body returns and no return
    statement occurs anywhere in the body, the last diagnostic is "A
    function must return a value.", at the body's position (without a
    position for an empty body), after everything reported before and
    during the walk. *)
Theorem function_without_return_reported_last :
  forall get_symbol current env body s body' s',
    do_typecheck get_symbol current env body s = Done (body', s') ->
    Symtab.tag env = SYM_FUNC ->
    stmt_list_has_return body = false ->
    exists during,
      diagnostics s' =
      (diagnostics s ++ during ++
       [mk_diagnostic (stmt_list_pos body)
          "A function must return a value."])%list.
Proof.
  intros gs cur env body s body' s' H Hf Hr.
  apply do_typecheck_inv in H. destruct H as (t & s1 & Hb & He).
  destruct (type_check_stmt_flag gs cur) as (_ & Hl & _).
  destruct (Hl _ _ _ _ Hb) as ([during Hd] & _ & Hmay & _).
  simpl in Hd, Hmay.
  assert (Hflag : has_return s1 = false).
  { destruct (has_return s1); [|reflexivity].
    destruct (Hmay eq_refl); congruence. }
  rewrite Hf, Hflag in He. simpl in He. inv He. simpl.
  exists during. rewrite Hd, app_assoc. reflexivity.
Qed.

Lemma function_without_return_reported_last_witness :
  exists during,
    [mk_diagnostic (Some 2%nat)
       "Variable of type integer can't be assigned a real value.";
     mk_diagnostic (Some 1%nat) "A function must return a value."] =
    ([] ++ during ++
     [mk_diagnostic (stmt_list_pos
                       (stmt_list_node 1%nat stmt_list_null
                          (ast_assign 1%nat
                             (ast_id_expr (mk_ast_id 1%nat integer_type 20))
                             (ast_real 2%nat 1.5%float))))
        "A function must return a value."])%list.
Proof.
  apply (function_without_return_reported_last sample_symbols 11
           (sample_symbols 11)
           (stmt_list_node 1%nat stmt_list_null
              (ast_assign 1%nat
                 (ast_id_expr (mk_ast_id 1%nat integer_type 20))
                 (ast_real 2%nat 1.5%float)))
           initial_state
           (stmt_list_node 1%nat stmt_list_null
              (ast_assign 1%nat
                 (ast_id_expr (mk_ast_id 1%nat integer_type 20))
                 (ast_real 2%nat 1.5%float)))
           (mk_tc_state false
              [mk_diagnostic (Some 2%nat)
                 "Variable of type integer can't be assigned a real value.";
               mk_diagnostic (Some 1%nat)
                 "A function must return a value."]));
    reflexivity.
Defined.

(** X6: for the body of anything but a function, and for a function's
    body with a return statement outside its elsif clauses, wherever that
    return is nested, [do_typecheck] reports nothing of its own: it ends
    in the state in which the walk over the body ended. *)
Theorem do_typecheck_adds_nothing_after_walk :
  forall get_symbol current env body s body' s',
    do_typecheck get_symbol current env body s = Done (body', s') ->
    Symtab.tag env <> SYM_FUNC \/
    stmt_list_returns_outside_elsif body = true ->
    exists t,
      type_check_stmt_list get_symbol current body
        (mk_tc_state false (diagnostics s)) = Done ((body', t), s').
Proof.
  intros gs cur env body s body' s' H Hc.
  apply do_typecheck_inv in H. destruct H as (t & s1 & Hb & He).
  exists t. rewrite Hb.
  assert (Hcond : sym_type_eqb (Symtab.tag env) SYM_FUNC
                  && negb (has_return s1) = false).
  { destruct Hc as [Hc|Hc].
    - destruct (sym_type_eqb (Symtab.tag env) SYM_FUNC) eqn:E;
        [|reflexivity].
      apply sym_type_eqb_eq in E. contradiction.
    - destruct (type_check_stmt_flag gs cur) as (_ & Hl & _).
      destruct (Hl _ _ _ _ Hb) as (_ & _ & _ & Hmust).
      rewrite (Hmust Hc). apply andb_false_r. }
  rewrite Hcond in He. inv He. reflexivity.
Qed.

Lemma do_typecheck_adds_nothing_after_walk_witness :
  exists t,
    type_check_stmt_list sample_symbols 11
      (stmt_list_node 1%nat stmt_list_null
         (ast_while 1%nat (ast_integer 1%nat 1)
            (stmt_list_node 2%nat stmt_list_null
               (ast_return 2%nat (Some (ast_integer 2%nat 1))))))
      (mk_tc_state false (diagnostics initial_state)) =
    Done ((stmt_list_node 1%nat stmt_list_null
             (ast_while 1%nat (ast_integer 1%nat 1)
                (stmt_list_node 2%nat stmt_list_null
                   (ast_return 2%nat (Some (ast_integer 2%nat 1))))), t),
          mk_tc_state true []).
Proof.
  apply (do_typecheck_adds_nothing_after_walk sample_symbols 11
           (sample_symbols 11)).
  - reflexivity.
  - right. reflexivity.
Defined.

(** X7: [do_typecheck] keeps every diagnostic reported before it, in
    order, and it leaves the flag set only if a return statement occurs in
    this body: the flag of an earlier body never carries over. *)
Theorem do_typecheck_appends_and_resets_flag :
  forall get_symbol current env body s body' s',
    do_typecheck get_symbol current env body s = Done (body', s') ->
    (exists added, diagnostics s' = (diagnostics s ++ added)%list) /\
    (has_return s' = true -> stmt_list_has_return body = true).
Proof.
  intros gs cur env body s body' s' H.
  apply do_typecheck_inv in H. destruct H as (t & s1 & Hb & He).
  destruct (type_check_stmt_flag gs cur) as (_ & Hl & _).
  destruct (Hl _ _ _ _ Hb) as (Hext & _ & Hmay & _).
  pose proof (error_if_extends _ _ _ _ _ _ He) as Hext2.
  pose proof (error_if_has_return _ _ _ _ _ _ He) as Hflag.
  split.
  - apply (extends_trans (mk_tc_state false (diagnostics s)) s1 s');
      assumption.
  - intros Hs. rewrite Hflag in Hs.
    destruct (Hmay Hs) as [Hbad|Hok]; [discriminate Hbad | exact Hok].
Qed.

Lemma do_typecheck_appends_and_resets_flag_witness :
  (exists added,
      [mk_diagnostic None "earlier"] =
      ([mk_diagnostic None "earlier"] ++ added)%list) /\
  (true = true ->
   stmt_list_has_return
     (stmt_list_node 1%nat stmt_list_null (ast_return 1%nat None)) = true).
Proof.
  apply (do_typecheck_appends_and_resets_flag sample_symbols 12
           (sample_symbols 12)
           (stmt_list_node 1%nat stmt_list_null (ast_return 1%nat None))
           (mk_tc_state false [mk_diagnostic None "earlier"])
           (stmt_list_node 1%nat stmt_list_null (ast_return 1%nat None))
           (mk_tc_state true [mk_diagnostic None "earlier"])).
  reflexivity.
Defined.

(** ** Formals against actuals *)

(** X8: [chk_param] answers true exactly when there are as many actuals as
    formals and every actual either has its formal's type or faces a real
    formal. *)
Theorem chk_param_true_iff_compatible :
  forall formals actuals,
    fst (chk_param formals actuals) = true <->
    Forall2 (fun formal t => t = formal \/ formal = real_type)
      formals (actual_types actuals).
Proof.
  induction formals as [|formal formals IH]; intros [|p preceding e];
    simpl.
  - split; [constructor | reflexivity].
  - split; [discriminate | intros H; inv H].
  - split; [discriminate | intros H; inv H].
  - specialize (IH preceding).
    destruct (chk_param formals preceding) as [ok preceding'].
    simpl in IH. destruct ok; simpl.
    + destruct (neq (type e) formal) eqn:N;
        [destruct (formal =? real_type) eqn:R|]; simpl.
      * apply Z.eqb_eq in R. split; [|reflexivity].
        intros _. constructor; [auto | apply IH; reflexivity].
      * apply neq_true in N. apply Z.eqb_neq in R.
        split; [discriminate|]. intros H. inv H. tauto.
      * apply neq_false in N. split; [|reflexivity].
        intros _. constructor; [auto | apply IH; reflexivity].
    + split; [discriminate|]. intros H. inv H.
      match goal with
      | F : Forall2 _ formals _ |- _ => apply IH in F; discriminate F
      end.
Qed.

Lemma actual_types_of_formals_checked formals :
  forall actuals,
    fst (chk_param formals actuals) = true ->
    actual_types (snd (chk_param formals actuals)) = formals.
Proof.
  induction formals as [|formal formals IH]; intros [|p preceding e];
    simpl; try discriminate; try reflexivity.
  specialize (IH preceding).
  destruct (chk_param formals preceding) as [ok preceding'].
  simpl in IH. destruct ok; simpl; [|discriminate].
  destruct (neq (type e) formal) eqn:N;
    [destruct (formal =? real_type) eqn:R|]; simpl; try discriminate;
    intros _; rewrite IH by reflexivity.
  - apply Z.eqb_eq in R. unfold new_ast_cast. simpl. congruence.
  - apply neq_false in N. congruence.
Qed.

Lemma chk_param_on_own_types l :
  chk_param (actual_types l) l = (true, l).
Proof.
  induction l as [|p preceding IH e]; [reflexivity|].
  simpl. rewrite IH. simpl. unfold neq. rewrite Z.eqb_refl. reflexivity.
Qed.

(** X9: after [chk_param] has answered true, the type field of every
    actual is the type of its formal, and a second [chk_param] on the
    result answers true and wraps nothing more. *)
Theorem chk_param_success_aligns_types :
  forall formals actuals,
    fst (chk_param formals actuals) = true ->
    actual_types (snd (chk_param formals actuals)) = formals /\
    chk_param formals (snd (chk_param formals actuals)) =
    (true, snd (chk_param formals actuals)).
Proof.
  intros formals actuals H.
  pose proof (actual_types_of_formals_checked formals actuals H) as Ht.
  split; [exact Ht|].
  rewrite <- Ht at 1. apply chk_param_on_own_types.
Qed.

Lemma chk_param_success_aligns_types_witness :
  actual_types
    (snd (chk_param [real_type; integer_type]
            (expr_list_node 1%nat
               (expr_list_node 1%nat expr_list_null (ast_integer 2%nat 1))
               (ast_integer 3%nat 2)))) = [real_type; integer_type] /\
  chk_param [real_type; integer_type]
    (snd (chk_param [real_type; integer_type]
            (expr_list_node 1%nat
               (expr_list_node 1%nat expr_list_null (ast_integer 2%nat 1))
               (ast_integer 3%nat 2)))) =
  (true,
   snd (chk_param [real_type; integer_type]
          (expr_list_node 1%nat
             (expr_list_node 1%nat expr_list_null (ast_integer 2%nat 1))
             (ast_integer 3%nat 2)))).
Proof.
  apply (chk_param_success_aligns_types [real_type; integer_type]
           (expr_list_node 1%nat
              (expr_list_node 1%nat expr_list_null (ast_integer 2%nat 1))
              (ast_integer 3%nat 2))).
  reflexivity.
Defined.

(** ** The remaining operators and the assignment *)

Lemma tc_state_eta s : mk_tc_state (has_return s) (diagnostics s) = s.
Proof. destruct s; reflexivity. Qed.

(** X10: an AND, OR, DIV or MOD node resolves to integer whatever its
    operands are; its operands are never wrapped in a cast; it reports one
    diagnostic for each operand that is not integer, the right operand's
    first, both at the node's position; and every one of them but OR gets
    integer written to its type field. *)
Theorem check_binop2_reports_each_operand :
  forall get_symbol op p ty l r s l1 lt s1 r1 rt s2,
    op = op_or \/ op = op_and \/ op = op_idiv \/ op = op_mod ->
    type_check get_symbol l s = Done ((l1, lt), s1) ->
    type_check get_symbol r s1 = Done ((r1, rt), s2) ->
    type_check get_symbol (ast_binaryoperation op p ty l r) s =
    Done ((ast_binaryoperation op p
             (match op with op_or => ty | _ => integer_type end) l1 r1,
           integer_type),
          mk_tc_state (has_return s2)
            (diagnostics s2 ++
             (if rt =? integer_type then []
              else [mk_diagnostic (Some p)
                      ("Rifht part:" ++ binop2_name op
                       ++ " should be an integer")]) ++
             (if lt =? integer_type then []
              else [mk_diagnostic (Some p)
                      ("Left part:" ++ binop2_name op
                       ++ " should be an integer")]))%list).
Proof.
  intros gs op p ty l r s l1 lt s1 r1 rt s2 Hop Hl Hr.
  destruct Hop as [-> | [-> | [-> | ->]]];
    cbn [type_check]; unfold check_binop2, bind; rewrite Hl;
    cbn beta iota; rewrite Hr; cbn beta iota; unfold neq;
    destruct (rt =? integer_type), (lt =? integer_type);
    cbn; rewrite <- ?app_assoc, ?app_nil_r, ?tc_state_eta; reflexivity.
Qed.

Lemma check_binop2_reports_each_operand_witness :
  type_check sample_symbols
    (ast_binaryoperation op_idiv 1%nat void_type
       (ast_real 2%nat 1.5%float) (ast_integer 3%nat 2)) initial_state =
  Done ((ast_binaryoperation op_idiv 1%nat integer_type
           (ast_real 2%nat 1.5%float) (ast_integer 3%nat 2),
         integer_type),
        mk_tc_state false
          [mk_diagnostic (Some 1%nat) "Left part:DIV should be an integer"]).
Proof.
  exact (check_binop2_reports_each_operand sample_symbols op_idiv 1%nat
           void_type (ast_real 2%nat 1.5%float) (ast_integer 3%nat 2)
           initial_state (ast_real 2%nat 1.5%float) real_type initial_state
           (ast_integer 3%nat 2) integer_type initial_state
           (or_intror (or_intror (or_introl eq_refl))) eq_refl eq_refl).
Defined.

(** X11: a relation node ([=], [<>], [<], [>]) resolves to integer and
    gets integer written to its type field; when its operands' resolved
    types differ, each operand that is not real is wrapped in a cast typed
    real, and when they are equal nothing is wrapped; it reports
    nothing. *)
Theorem check_binrel_resolves_to_integer :
  forall get_symbol rel p ty l r s l1 lt s1 r1 rt s2,
    type_check get_symbol l s = Done ((l1, lt), s1) ->
    type_check get_symbol r s1 = Done ((r1, rt), s2) ->
    type_check get_symbol (ast_binaryrelation rel p ty l r) s =
    Done ((ast_binaryrelation rel p integer_type
             (if (lt =? rt) || (lt =? real_type) then l1
              else ast_cast (pos l1) real_type l1)
             (if (lt =? rt) || (rt =? real_type) then r1
              else ast_cast (pos r1) real_type r1),
           integer_type), s2).
Proof.
  intros gs rel p ty l r s l1 lt s1 r1 rt s2 Hl Hr.
  cbn [type_check]. unfold check_binrel, bind. rewrite Hl.
  cbn beta iota. rewrite Hr. cbn beta iota. unfold neq.
  destruct (lt =? rt), (lt =? real_type), (rt =? real_type); reflexivity.
Qed.

Lemma check_binrel_resolves_to_integer_witness :
  type_check sample_symbols
    (ast_binaryrelation rel_lessthan 1%nat void_type
       (ast_integer 2%nat 1) (ast_real 3%nat 2.5%float)) initial_state =
  Done ((ast_binaryrelation rel_lessthan 1%nat integer_type
           (ast_cast 2%nat real_type (ast_integer 2%nat 1))
           (ast_real 3%nat 2.5%float),
         integer_type), initial_state).
Proof.
  exact (check_binrel_resolves_to_integer sample_symbols rel_lessthan 1%nat
           void_type (ast_integer 2%nat 1) (ast_real 3%nat 2.5%float)
           initial_state (ast_integer 2%nat 1) integer_type initial_state
           (ast_real 3%nat 2.5%float) real_type initial_state
           eq_refl eq_refl).
Defined.

(** X12: an assignment returns its left side's type.  An integer right
    side under a real left side is wrapped in a cast typed real, without a
    diagnostic; a real right side under an integer left side is reported at
    the right side's position and left as it is; in every other case the
    right side is left as it is and nothing is reported. *)
Theorem assign_widens_and_reports_narrowing :
  forall get_symbol env p lhs rhs s l1 lt s1 r1 rt s2,
    type_check get_symbol lhs s = Done ((l1, lt), s1) ->
    type_check get_symbol rhs s1 = Done ((r1, rt), s2) ->
    type_check_stmt get_symbol env (ast_assign p lhs rhs) s =
    Done ((ast_assign p l1
             (if (lt =? real_type) && (rt =? integer_type)
              then ast_cast (pos r1) real_type r1 else r1), lt),
          if (lt =? integer_type) && (rt =? real_type)
          then mk_tc_state (has_return s2)
                 (diagnostics s2 ++
                  [mk_diagnostic (Some (pos r1))
                     "Variable of type integer can't be assigned a real value."])
          else s2).
Proof.
  intros gs env p lhs rhs s l1 lt s1 r1 rt s2 Hl Hr.
  cbn [type_check_stmt]. unfold type_check_assign, bind. rewrite Hl.
  cbn beta iota. rewrite Hr. cbn beta iota.
  destruct ((lt =? integer_type) && (rt =? real_type));
    destruct ((lt =? real_type) && (rt =? integer_type)); reflexivity.
Qed.

Lemma assign_widens_and_reports_narrowing_witness :
  type_check_stmt sample_symbols 12
    (ast_assign 1%nat (ast_id_expr (mk_ast_id 2%nat real_type 21))
       (ast_integer 3%nat 4)) initial_state =
  Done ((ast_assign 1%nat (ast_id_expr (mk_ast_id 2%nat real_type 21))
           (ast_cast 3%nat real_type (ast_integer 3%nat 4)), real_type),
        initial_state).
Proof.
  exact (assign_widens_and_reports_narrowing sample_symbols 12 1%nat
           (ast_id_expr (mk_ast_id 2%nat real_type 21))
           (ast_integer 3%nat 4) initial_state
           (ast_id_expr (mk_ast_id 2%nat real_type 21)) real_type
           initial_state (ast_integer 3%nat 4) integer_type initial_state
           eq_refl eq_refl).
Defined.

(** * Further properties of the constant folder *)

Lemma fold_once_list_eq get_symbol l :
  fold_once_list get_symbol l =
  optimize_expr_list (fold_once get_symbol) l.
Proof.
  induction l as [|p preceding IH e]; [reflexivity|].
  simpl. rewrite IH. reflexivity.
Qed.

Lemma fold_binaryoperation_fixed get_symbol f op p ty l r :
  f l = Done l -> f r = Done r ->
  fold_binaryoperation get_symbol f (ast_binaryoperation op p ty l r) =
  fold_binaryoperation get_symbol (fun e => Done e)
    (ast_binaryoperation op p ty l r).
Proof. intros Hl Hr. simpl. rewrite Hl, Hr. reflexivity. Qed.

Lemma fold_constants_refines_fold_once get_symbol fuel :
  refines (fold_constants get_symbol fuel) (fold_once get_symbol).
Proof.
  induction fuel as [|n IH]; intros e o H Ho.
  - simpl in H. subst o. congruence.
  - assert (Hlist : refines (optimize_expr_list (fold_constants get_symbol n))
                      (fold_once_list get_symbol)).
    { intros l o1 H1 Ho1. rewrite fold_once_list_eq.
      eapply optimize_expr_list_refines; eassumption. }
    pose proof (fold_constants_idempotent get_symbol n) as Hid.
    cbn [fold_constants] in H.
    assert (Hstep :
      forall c, (forall c1, fold_constants get_symbol n c = Done c1 ->
                            fold_once get_symbol c = Done c1) /\
                (forall h, fold_constants get_symbol n c = Halt h ->
                           h <> out_of_fuel ->
                           fold_once get_symbol c = Halt h)).
    { intros c. split; intros x Hx.
      - apply (IH c _ Hx). discriminate.
      - intros Hh. apply (IH c _ Hx). congruence. }
    assert (Hh : forall h, o = Halt h -> h <> out_of_fuel)
      by (intros h -> E; apply Ho; congruence).
    destruct e; cbn [optimize fold_once] in *;
      try (cbn in H; exact H);
      try (destruct (fold_constants get_symbol n e) as [c1|h] eqn:E;
           cbn in H;
           [ rewrite (proj1 (Hstep e) _ E); exact H
           | rewrite (proj2 (Hstep e) _ E) by (apply Hh; congruence);
             exact H ]).
    + destruct (fold_constants get_symbol n e1) as [l1|h] eqn:E1;
        cbn [obind] in H;
        [ rewrite (proj1 (Hstep e1) _ E1)
        | rewrite (proj2 (Hstep e1) _ E1) by (apply Hh; congruence);
          exact H ].
      destruct (fold_constants get_symbol n e2) as [r1|h] eqn:E2;
        cbn [obind] in H;
        [ rewrite (proj1 (Hstep e2) _ E2)
        | rewrite (proj2 (Hstep e2) _ E2) by (apply Hh; congruence);
          exact H ].
      cbn [obind].
      replace (is_binop (ast_binaryoperation op pos0 ty l1 r1))
        with true in H by (destruct op; reflexivity).
      rewrite <- H. symmetry.
      apply fold_binaryoperation_fixed; eapply Hid; eassumption.
    + destruct (fold_constants get_symbol n e1) as [l1|h] eqn:E1;
        cbn [obind] in H;
        [ rewrite (proj1 (Hstep e1) _ E1)
        | rewrite (proj2 (Hstep e1) _ E1) by (apply Hh; congruence);
          exact H ].
      destruct (fold_constants get_symbol n e2) as [r1|h] eqn:E2;
        cbn [obind] in H;
        [ rewrite (proj1 (Hstep e2) _ E2)
        | rewrite (proj2 (Hstep e2) _ E2) by (apply Hh; congruence);
          exact H ].
      cbn [obind].
      replace (is_binop (ast_binaryrelation rel pos0 ty l1 r1))
        with false in H by (destruct rel; reflexivity).
      exact H.
    + destruct (optimize_expr_list (fold_constants get_symbol n)
                  parameter_list) as [l1|h] eqn:E; cbn in H.
      * rewrite (Hlist _ _ E) by discriminate. exact H.
      * rewrite (Hlist _ _ E); [exact H|].
        intros X. apply (Hh h); congruence.
Qed.

(** X13: the folding pass terminates, and the second fold that
    [fold_constants] gives the children of a binary operation changes
    nothing: from some nesting depth on, [fold_constants] is the one-pass
    bottom-up fold on every expression, and [do_optimize] is that fold
    applied to the expressions of the body. *)
Theorem fold_constants_is_one_pass_fold :
  forall get_symbol,
    (forall e, exists fuel, forall fuel', (fuel <= fuel')%nat ->
        fold_constants get_symbol fuel' e = fold_once get_symbol e) /\
    (forall body, exists fuel, forall fuel', (fuel <= fuel')%nat ->
        do_optimize get_symbol fuel' body =
        optimize_stmt_list (fold_once get_symbol) body).
Proof.
  intros gs. split.
  - intros e. destruct (fold_constants_terminates gs) as [He _].
    destruct (He e) as [n Hn]. exists n. intros m Hm. symmetry.
    apply (fold_constants_refines_fold_once gs m e _ eq_refl).
    apply (Hn m Hm).
  - intros body. destruct (do_optimize_terminates gs body) as [n Hn].
    exists n. intros m Hm. symmetry.
    destruct (optimize_stmt_refines _ _
                (fold_constants_refines_fold_once gs m)) as (_ & Hl & _).
    apply (Hl body _ eq_refl). apply (Hn m Hm).
Qed.

Lemma fold_once_sound get_symbol fuel e x :
  fold_constants get_symbol fuel e = Done x ->
  fold_once get_symbol e = Done x.
Proof.
  intros H. apply (fold_constants_refines_fold_once _ _ _ _ H).
  discriminate.
Qed.

(** X14: whatever [fold_constants] returns for a node, the node itself or
    the literal that replaces it, stands at the node's position. *)
Theorem fold_constants_keeps_position :
  forall get_symbol fuel e x,
    fold_constants get_symbol fuel e = Done x -> pos x = pos e.
Proof.
  intros gs fuel e x H. apply fold_once_sound in H.
  destruct e; cbn [fold_once] in H; try (inv H; reflexivity);
    try (obind_inv H; inv H; reflexivity).
  obind_inv H. apply fold_binaryoperation_cases in H.
  destruct H as (l' & r' & _ & _ & [-> | [[v ->] | [v ->]]]); reflexivity.
Qed.

Lemma fold_constants_keeps_position_witness :
  pos (ast_integer 1%nat 5) =
  pos (ast_binaryoperation op_add 1%nat integer_type
         (ast_integer 2%nat 2) (ast_integer 3%nat 3)).
Proof.
  apply (fold_constants_keeps_position sample_symbols 2). reflexivity.
Defined.

Lemma fold_once_size get_symbol :
  (forall e x, fold_once get_symbol e = Done x ->
               (size x <= size e)%nat) /\
  (forall l x, fold_once_list get_symbol l = Done x ->
               (size_list x <= size_list l)%nat).
Proof.
  apply ast_expression_mutind; intros; cbn [fold_once fold_once_list] in *;
    try (inv H; lia).
  - obind_inv H0. inv H0. pose proof (H _ E). simpl. lia.
  - obind_inv H1. pose proof (H _ E). pose proof (H0 _ E0).
    apply fold_binaryoperation_cases in H1.
    destruct H1 as (l' & r' & Hl & Hr & Hx). inv Hl. inv Hr.
    destruct Hx as [-> | [[v ->] | [v ->]]]; simpl; lia.
  - obind_inv H1. inv H1. pose proof (H _ E). pose proof (H0 _ E0).
    simpl. lia.
  - obind_inv H0. inv H0. pose proof (H _ E). simpl. lia.
  - obind_inv H0. inv H0. pose proof (H _ E). simpl. lia.
  - inv H0. lia.
  - obind_inv H0. inv H0. pose proof (H _ E). simpl. lia.
  - obind_inv H1. inv H1. pose proof (H _ E). pose proof (H0 _ E0).
    simpl. lia.
Qed.

(** How [optimize] on statements treats the expressions of a statement
    tree: each one is folded or left alone. *)
Lemma optimize_expr_list_exprs f l l' :
  optimize_expr_list f l = Done l' ->
  Forall2 (fun e e' => e' = e \/ f e = Done e')
    (expr_list_exprs l) (expr_list_exprs l').
Proof.
  revert l'. induction l as [|p preceding IH e]; intros l' H; simpl in H.
  - inv H. constructor.
  - obind_inv H. inv H. simpl. apply Forall2_app; [auto|].
    constructor; [auto | constructor].
Qed.

Lemma optimize_stmt_exprs f :
  (forall n n', optimize_stmt f n = Done n' ->
      Forall2 (fun e e' => e' = e \/ f e = Done e')
        (stmt_exprs n) (stmt_exprs n')) /\
  (forall n n', optimize_stmt_list f n = Done n' ->
      Forall2 (fun e e' => e' = e \/ f e = Done e')
        (stmt_list_exprs n) (stmt_list_exprs n')) /\
  (forall n n', optimize_elsif f n = Done n' ->
      Forall2 (fun e e' => e' = e \/ f e = Done e')
        (elsif_exprs n) (elsif_exprs n')) /\
  (forall n n', optimize_elsif_list f n = Done n' ->
      Forall2 (fun e e' => e' = e \/ f e = Done e')
        (elsif_list_exprs n) (elsif_list_exprs n')).
Proof.
  apply ast_statement_mutind; intros; simpl in *.
  - inv H. constructor.
  - obind_inv H. inv H. simpl. apply optimize_expr_list_exprs. assumption.
  - obind_inv H. inv H. simpl.
    constructor; [left; reflexivity|].
    constructor; [right; assumption | constructor].
  - obind_inv H0. inv H0. simpl. constructor; auto.
  - obind_inv H2. inv H2. simpl. constructor; [auto|].
    repeat apply Forall2_app; auto.
  - destruct value as [v|].
    + obind_inv H. inv H. simpl.
      constructor; [right; assumption | constructor].
    + inv H. constructor.
  - inv H. constructor.
  - obind_inv H1. inv H1. simpl. apply Forall2_app; auto.
  - obind_inv H0. inv H0. simpl. constructor; auto.
  - inv H. constructor.
  - obind_inv H1. inv H1. simpl. apply Forall2_app; auto.
Qed.

Lemma total_size_Forall2 (R : ast_expression -> ast_expression -> Prop)
  l l' :
  (forall e e', R e e' -> (size e' <= size e)%nat) ->
  Forall2 R l l' -> (total_size l' <= total_size l)%nat.
Proof.
  intros HR H. induction H as [|e e' l l' He _ IH]; simpl; [lia|].
  apply HR in He. lia.
Qed.

(** X15: folding never grows a tree: the expression that
    [fold_constants] returns has at most as many nodes as the one it was
    given, and so have, taken together, the expressions of a body after
    [do_optimize]. *)
Theorem folding_never_grows :
  forall get_symbol fuel,
    (forall e x, fold_constants get_symbol fuel e = Done x ->
                 (size x <= size e)%nat) /\
    (forall body body',
        do_optimize get_symbol fuel body = Done body' ->
        (total_size (stmt_list_exprs body')
         <= total_size (stmt_list_exprs body))%nat).
Proof.
  intros gs fuel.
  assert (He : forall e x, fold_constants gs fuel e = Done x ->
                           (size x <= size e)%nat).
  { intros e x H. apply fold_once_sound in H.
    apply (proj1 (fold_once_size gs)). assumption. }
  split; [exact He|].
  intros body body' H. unfold do_optimize in H.
  apply (proj1 (proj2 (optimize_stmt_exprs _))) in H.
  eapply total_size_Forall2; [|exact H].
  intros e e' [-> | Hf]; [lia | auto].
Qed.

Lemma folding_never_grows_witness :
  Nat.le (size (ast_integer 1%nat 14))
    (size (ast_binaryoperation op_mult 1%nat integer_type
             (ast_id_expr (mk_ast_id 2%nat integer_type 10))
             (ast_integer 3%nat 2))).
Proof.
  apply (proj1 (folding_never_grows sample_symbols 2)). reflexivity.
Defined.

(** ** What folding can stop on, and the range of folded values *)

Lemma fold_once_leaves get_symbol on_id on_long :
  (forall op p ty l r x,
      leaves on_id on_long l = true -> leaves on_id on_long r = true ->
      fold_binaryoperation get_symbol (fun e => Done e)
        (ast_binaryoperation op p ty l r) = Done x ->
      leaves on_id on_long x = true) ->
  (forall e x, fold_once get_symbol e = Done x ->
               leaves on_id on_long e = true ->
               leaves on_id on_long x = true) /\
  (forall l x, fold_once_list get_symbol l = Done x ->
               leaves_list on_id on_long l = true ->
               leaves_list on_id on_long x = true).
Proof.
  intros Hnew.
  apply ast_expression_mutind; intros; cbn [fold_once fold_once_list] in *;
    repeat match goal with
           | H : obind _ _ = Done _ |- _ => obind_inv H
           | H : Done _ = Done _ |- _ => inv H
           end;
    simpl in *;
    repeat match goal with
           | H : _ && _ = true |- _ =>
               apply andb_true_iff in H; destruct H
           end;
    try assumption;
    try (eapply Hnew; [| |eassumption]; eauto; fail);
    repeat (apply andb_true_iff; split); eauto.
Qed.

Lemma long_value_fits get_symbol e :
  is_const get_symbol e = true -> type e = integer_type ->
  leaves (constant_fits get_symbol) (fun _ => true) e = true ->
  exists v, long_value get_symbol e = Done v.
Proof.
  destruct e; simpl; intros Hc Ht Hf; try discriminate; eauto.
  unfold constant_fits in Hf. apply sym_type_eqb_eq in Hc.
  rewrite Hc in Hf.
  destruct (Symtab.const_value (get_symbol (sym_p id))); eauto.
  rewrite Ht in Hf. discriminate.
Qed.

Lemma double_value_fits get_symbol e :
  is_const get_symbol e = true -> type e = real_type ->
  leaves (constant_fits get_symbol) (fun _ => true) e = true ->
  exists v, double_value get_symbol e = Done v.
Proof.
  destruct e; simpl; intros Hc Ht Hf; try discriminate; eauto.
  unfold constant_fits in Hf. apply sym_type_eqb_eq in Hc.
  rewrite Hc in Hf.
  destruct (Symtab.const_value (get_symbol (sym_p id))); eauto.
  rewrite Ht in Hf. discriminate.
Qed.

Lemma decide_halts_on_division get_symbol op p ty l r h :
  leaves (constant_fits get_symbol) (fun _ => true) l = true ->
  leaves (constant_fits get_symbol) (fun _ => true) r = true ->
  fold_binaryoperation get_symbol (fun e => Done e)
    (ast_binaryoperation op p ty l r) = Halt h ->
  h = arithmetic_fault /\ (op = op_idiv \/ op = op_mod).
Proof.
  intros Fl Fr. simpl.
  destruct (is_const get_symbol l && is_const get_symbol r) eqn:Hc;
    simpl; [|discriminate].
  apply andb_true_iff in Hc. destruct Hc as [Cl Cr].
  destruct ((type l =? integer_type) && (type r =? integer_type)) eqn:Hi.
  { apply andb_true_iff in Hi. destruct Hi as [Tl Tr].
    apply Z.eqb_eq in Tl, Tr.
    destruct (long_value_fits _ _ Cl Tl Fl) as [a ->].
    destruct (long_value_fits _ _ Cr Tr Fr) as [b ->]. simpl.
    destruct op; simpl; try discriminate; unfold long_div, long_mod;
      destruct (b =? 0); simpl;
      try destruct ((a =? LONG_MIN) && (b =? -1)); simpl;
      intros H; inv H; auto. }
  destruct ((type l =? real_type) && (type r =? real_type)) eqn:Hr;
    [|discriminate].
  apply andb_true_iff in Hr. destruct Hr as [Tl Tr].
  apply Z.eqb_eq in Tl, Tr.
  destruct (double_value_fits _ _ Cl Tl Fl) as [a ->].
  destruct (double_value_fits _ _ Cr Tr Fr) as [b ->]. simpl.
  destruct op; discriminate.
Qed.

Lemma decide_keeps_fits get_symbol op p ty l r x :
  leaves (constant_fits get_symbol) (fun _ => true) l = true ->
  leaves (constant_fits get_symbol) (fun _ => true) r = true ->
  fold_binaryoperation get_symbol (fun e => Done e)
    (ast_binaryoperation op p ty l r) = Done x ->
  leaves (constant_fits get_symbol) (fun _ => true) x = true.
Proof.
  intros Fl Fr H. apply fold_binaryoperation_cases in H.
  destruct H as (l' & r' & Hl & Hr & Hx). inv Hl. inv Hr.
  destruct Hx as [-> | [[v ->] | [v ->]]]; simpl; [|reflexivity..].
  now rewrite Fl, Fr.
Qed.

Lemma fold_once_halts_on_division get_symbol :
  (forall e h,
      leaves (constant_fits get_symbol) (fun _ => true) e = true ->
      fold_once get_symbol e = Halt h ->
      h = arithmetic_fault /\ has_idiv_mod e = true) /\
  (forall l h,
      leaves_list (constant_fits get_symbol) (fun _ => true) l = true ->
      fold_once_list get_symbol l = Halt h ->
      h = arithmetic_fault /\ has_idiv_mod_list l = true).
Proof.
  destruct (fold_once_leaves get_symbol (constant_fits get_symbol)
              (fun _ => true) (decide_keeps_fits get_symbol))
    as [Hkeep _].
  assert (Hor : forall a b, a = true \/ b = true -> a || b = true)
    by (intros a b [-> | ->]; [reflexivity | apply orb_true_r]).
  apply ast_expression_mutind; intros; cbn [fold_once fold_once_list] in *;
    simpl leaves in *; simpl leaves_list in *;
    repeat match goal with
           | H : _ && _ = true |- _ =>
               apply andb_true_iff in H; destruct H
           end;
    try discriminate.
  - destruct (fold_once get_symbol index) eqn:E; [discriminate|].
    simpl in *. inv H1. eauto.
  - destruct (fold_once get_symbol left) as [l'|hl] eqn:El; simpl in H2.
    + destruct (fold_once get_symbol right) as [r'|hr] eqn:Er;
        simpl in H2.
      * apply decide_halts_on_division in H2; eauto.
        destruct H2 as [-> [-> | ->]]; auto.
      * inv H2. destruct (H0 _ H3 eq_refl) as [-> Hd]. split; auto.
        simpl. destruct op; auto.
    + inv H2. destruct (H _ H1 eq_refl) as [-> Hd]. split; auto.
      simpl. destruct op; auto.
  - destruct (fold_once get_symbol left) as [l'|hl] eqn:El; simpl in H2.
    + destruct (fold_once get_symbol right) as [r'|hr] eqn:Er;
        simpl in H2; [discriminate|].
      inv H2. destruct (H0 _ H3 eq_refl) as [-> Hd]. split; auto.
      simpl. auto.
    + inv H2. destruct (H _ H1 eq_refl) as [-> Hd]. split; auto.
      simpl. auto.
  - destruct (fold_once get_symbol expr) eqn:E; [discriminate|].
    simpl in *. inv H1. eauto.
  - destruct (fold_once get_symbol expr) eqn:E; [discriminate|].
    simpl in *. inv H1. eauto.
  - destruct (fold_once_list get_symbol parameter_list) eqn:E;
      [discriminate|].
    simpl in *. inv H1. eauto.
  - destruct (fold_once_list get_symbol preceding) as [l'|hl] eqn:El;
      simpl in H2.
    + destruct (fold_once get_symbol last_expr) as [e'|he] eqn:Ee;
        simpl in H2; [discriminate|].
      inv H2. destruct (H0 _ H3 eq_refl) as [-> Hd]. split; auto.
      simpl. auto.
    + inv H2. destruct (H _ H1 eq_refl) as [-> Hd]. split; auto.
      simpl. auto.
Qed.

Lemma optimize_expr_list_halts f l h :
  optimize_expr_list f l = Halt h ->
  Exists (fun e => f e = Halt h) (expr_list_exprs l).
Proof.
  induction l as [|p preceding IH e]; simpl; [discriminate|].
  destruct (optimize_expr_list f preceding) as [l'|hl]; simpl.
  - destruct (f e) as [e'|he] eqn:E; simpl; [discriminate|].
    intros H. inv H. apply Exists_app. right. constructor. assumption.
  - intros H. inv H. apply Exists_app. left. auto.
Qed.

Lemma optimize_stmt_halts f h :
  (forall n, optimize_stmt f n = Halt h ->
             Exists (fun e => f e = Halt h) (stmt_exprs n)) /\
  (forall n, optimize_stmt_list f n = Halt h ->
             Exists (fun e => f e = Halt h) (stmt_list_exprs n)) /\
  (forall n, optimize_elsif f n = Halt h ->
             Exists (fun e => f e = Halt h) (elsif_exprs n)) /\
  (forall n, optimize_elsif_list f n = Halt h ->
             Exists (fun e => f e = Halt h) (elsif_list_exprs n)).
Proof.
  apply ast_statement_mutind; intros; simpl in *; try discriminate.
  - apply optimize_expr_list_halts.
    destruct (optimize_expr_list f parameter_list); [discriminate|].
    simpl in H. congruence.
  - destruct (f rhs) eqn:E; [discriminate|]. simpl in H. inv H.
    right. left. assumption.
  - destruct (f condition) eqn:E; simpl in H0;
      [|inv H0; left; assumption].
    right. apply H.
    destruct (optimize_stmt_list f body); [discriminate|].
    simpl in H0. congruence.
  - destruct (f condition) eqn:E; simpl in H2;
      [|inv H2; left; assumption].
    right. rewrite !Exists_app.
    destruct (optimize_stmt_list f body) eqn:E1; simpl in H2;
      [|inv H2; left; apply H; reflexivity].
    destruct (optimize_elsif_list f elsif_list) eqn:E2; simpl in H2;
      [|inv H2; right; left; apply H0; reflexivity].
    destruct (optimize_stmt_list f else_body) eqn:E3; simpl in H2;
      [discriminate|].
    inv H2. right. right. apply H1. reflexivity.
  - destruct value as [v|]; [|discriminate].
    destruct (f v) eqn:E; [discriminate|]. simpl in H. inv H.
    left. assumption.
  - rewrite Exists_app.
    destruct (optimize_stmt_list f preceding) eqn:E1; simpl in H1;
      [|inv H1; left; apply H; reflexivity].
    destruct (optimize_stmt f last_stmt) eqn:E2; simpl in H1;
      [discriminate|].
    inv H1. right. apply H0. reflexivity.
  - destruct (f condition) eqn:E; simpl in H0;
      [|inv H0; left; assumption].
    right. apply H.
    destruct (optimize_stmt_list f body); [discriminate|].
    simpl in H0. congruence.
  - rewrite Exists_app.
    destruct (optimize_elsif_list f preceding) eqn:E1; simpl in H1;
      [|inv H1; left; apply H; reflexivity].
    destruct (optimize_elsif f last_elsif) eqn:E2; simpl in H1;
      [discriminate|].
    inv H1. right. apply H0. reflexivity.
Qed.

(** X16: where no identifier of a constant contradicts the member its
    constant holds, the folder stops on nothing but an integer division:
    if [fold_constants] does not return an expression (and the nesting
    depth allowed was enough), the host's division has faulted and the
    expression holds a DIV or MOD node; and if [do_optimize] does not
    return a body, one of the body's expressions holds one. *)
Theorem folding_stops_only_on_division :
  forall get_symbol fuel,
    (forall e h,
        leaves (constant_fits get_symbol) (fun _ => true) e = true ->
        fold_constants get_symbol fuel e = Halt h ->
        h = out_of_fuel \/
        (h = arithmetic_fault /\ has_idiv_mod e = true)) /\
    (forall body h,
        forallb (leaves (constant_fits get_symbol) (fun _ => true))
          (stmt_list_exprs body) = true ->
        do_optimize get_symbol fuel body = Halt h ->
        h = out_of_fuel \/
        (h = arithmetic_fault /\
         existsb has_idiv_mod (stmt_list_exprs body) = true)).
Proof.
  intros gs fuel.
  assert (He : forall e h,
             leaves (constant_fits gs) (fun _ => true) e = true ->
             fold_constants gs fuel e = Halt h ->
             h = out_of_fuel \/
             (h = arithmetic_fault /\ has_idiv_mod e = true)).
  { intros e h Hf H.
    destruct h; auto; right;
      apply (proj1 (fold_once_halts_on_division gs) e _ Hf);
      apply (fold_constants_refines_fold_once gs fuel e _ H);
      discriminate. }
  split; [exact He|].
  intros body h Hf H. unfold do_optimize in H.
  apply (proj1 (proj2 (optimize_stmt_halts _ h))) in H.
  apply Exists_exists in H. destruct H as (e & Hin & Hh).
  rewrite forallb_forall in Hf.
  destruct (He e h (Hf e Hin) Hh) as [-> | [-> Hd]]; auto.
  right. split; [reflexivity|]. apply existsb_exists. eauto.
Qed.

Lemma folding_stops_only_on_division_witness :
  arithmetic_fault = out_of_fuel \/
  (arithmetic_fault = arithmetic_fault /\
   has_idiv_mod
     (ast_binaryoperation op_add 1%nat integer_type
        (ast_integer 2%nat 1)
        (ast_binaryoperation op_mod 3%nat integer_type
           (ast_id_expr (mk_ast_id 4%nat integer_type 10))
           (ast_integer 5%nat 0))) = true).
Proof.
  apply (proj1 (folding_stops_only_on_division sample_symbols 3)).
  - reflexivity.
  - reflexivity.
Defined.

Lemma long_wrap_in_long z : in_long (long_wrap z) = true.
Proof.
  unfold in_long, long_wrap, LONG_MIN, LONG_MAX.
  pose proof (Z.mod_pos_bound (z + 2 ^ 63) (2 ^ 64) eq_refl).
  apply andb_true_iff. split; apply Z.leb_le; lia.
Qed.

Lemma long_of_bool_in_long b : in_long (long_of_bool b) = true.
Proof. destruct b; reflexivity. Qed.

Lemma in_long_bounds z :
  in_long z = true <-> - 2 ^ 63 <= z <= 2 ^ 63 - 1.
Proof.
  unfold in_long, LONG_MIN, LONG_MAX.
  rewrite andb_true_iff, !Z.leb_le. tauto.
Qed.

Lemma long_div_in_long a b q :
  in_long a = true -> in_long b = true ->
  long_div a b = Done q -> in_long q = true.
Proof.
  unfold long_div. intros Ha Hb.
  destruct (b =? 0) eqn:Eb; [discriminate|].
  destruct ((a =? LONG_MIN) && (b =? -1)) eqn:Em; [discriminate|].
  intros H. inv H.
  apply Z.eqb_neq in Eb. apply andb_false_iff in Em.
  rewrite !Z.eqb_neq in Em. unfold LONG_MIN in Em.
  apply in_long_bounds in Ha, Hb. apply in_long_bounds.
  destruct (Z.eq_dec b (-1)) as [->|Hm].
  { change (-1) with (- (1)). rewrite Z.quot_opp_r, Z.quot_1_r by lia.
    lia. }
  destruct (Z.eq_dec b 1) as [->|Hp].
  { rewrite Z.quot_1_r. lia. }
  pose proof (Z.quot_abs a b Eb) as Habs.
  assert (Hq : Z.abs a ÷ Z.abs b <= 2 ^ 62).
  { rewrite Z.quot_div_nonneg by lia.
    apply Z.div_le_upper_bound; lia. }
  lia.
Qed.

Lemma long_mod_in_long a b q :
  in_long a = true -> in_long b = true ->
  long_mod a b = Done q -> in_long q = true.
Proof.
  unfold long_mod. intros Ha Hb.
  destruct (b =? 0) eqn:Eb; [discriminate|].
  destruct ((a =? LONG_MIN) && (b =? -1)); [discriminate|].
  intros H. inv H. apply Z.eqb_neq in Eb.
  apply in_long_bounds in Ha, Hb. apply in_long_bounds.
  pose proof (Z.rem_bound_abs a b Eb). lia.
Qed.

Lemma long_value_in_long get_symbol e v :
  is_const get_symbol e = true ->
  leaves (constant_in_long get_symbol) in_long e = true ->
  long_value get_symbol e = Done v -> in_long v = true.
Proof.
  destruct e; simpl; intros Hc Hf H; try discriminate.
  - unfold constant_in_long in Hf. apply sym_type_eqb_eq in Hc.
    rewrite Hc in Hf.
    destruct (Symtab.const_value (get_symbol (sym_p id)));
      inv H. assumption.
  - inv H. assumption.
Qed.

Lemma decide_keeps_long get_symbol op p ty l r x :
  leaves (constant_in_long get_symbol) in_long l = true ->
  leaves (constant_in_long get_symbol) in_long r = true ->
  fold_binaryoperation get_symbol (fun e => Done e)
    (ast_binaryoperation op p ty l r) = Done x ->
  leaves (constant_in_long get_symbol) in_long x = true.
Proof.
  intros Fl Fr. simpl.
  destruct (is_const get_symbol l && is_const get_symbol r) eqn:Hc;
    simpl; [|intros H; inv H; simpl; now rewrite Fl, Fr].
  apply andb_true_iff in Hc. destruct Hc as [Cl Cr].
  destruct ((type l =? integer_type) && (type r =? integer_type)).
  { intros H.
    apply obind_done in H. destruct H as (a & Ha & H).
    apply obind_done in H. destruct H as (b & Hb & H).
    apply (long_value_in_long _ _ _ Cl Fl) in Ha.
    apply (long_value_in_long _ _ _ Cr Fr) in Hb.
    destruct op; simpl in H;
      try (inv H; simpl;
           first [apply long_wrap_in_long | apply long_of_bool_in_long
                 | now rewrite Fl, Fr]);
      apply obind_done in H; destruct H as (q & Hq & H); inv H; simpl;
      first [exact (long_div_in_long _ _ _ Ha Hb Hq)
            | exact (long_mod_in_long _ _ _ Ha Hb Hq)]. }
  destruct ((type l =? real_type) && (type r =? real_type)).
  { intros H.
    apply obind_done in H. destruct H as (a & Ha & H).
    apply obind_done in H. destruct H as (b & Hb & H).
    apply fold_double_cases in H. destruct H as [-> | [v ->]];
      simpl; [now rewrite Fl, Fr | reflexivity]. }
  intros H. inv H. simpl. now rewrite Fl, Fr.
Qed.

(** X17: the folder's integers stay on the host's [long]: if the integer
    literals of an expression and the integer constants it names lie
    between [LONG_MIN] and [LONG_MAX], so does every integer literal of
    the expression that [fold_constants] returns, and of the expressions
    of a body that [do_optimize] returns. *)
Theorem folded_integers_fit_long :
  forall get_symbol fuel,
    (forall e x,
        leaves (constant_in_long get_symbol) in_long e = true ->
        fold_constants get_symbol fuel e = Done x ->
        leaves (constant_in_long get_symbol) in_long x = true) /\
    (forall body body',
        forallb (leaves (constant_in_long get_symbol) in_long)
          (stmt_list_exprs body) = true ->
        do_optimize get_symbol fuel body = Done body' ->
        forallb (leaves (constant_in_long get_symbol) in_long)
          (stmt_list_exprs body') = true).
Proof.
  intros gs fuel.
  assert (He : forall e x,
             leaves (constant_in_long gs) in_long e = true ->
             fold_constants gs fuel e = Done x ->
             leaves (constant_in_long gs) in_long x = true).
  { intros e x Hf H. apply fold_once_sound in H.
    eapply (proj1 (fold_once_leaves gs _ _ (decide_keeps_long gs)));
      eassumption. }
  split; [exact He|].
  intros body body' Hf H. unfold do_optimize in H.
  apply (proj1 (proj2 (optimize_stmt_exprs _))) in H.
  revert Hf. induction H as [|e e' l l' Hee _ IH]; simpl; [reflexivity|].
  rewrite !andb_true_iff. intros [H1 H2]. split; [|auto].
  destruct Hee as [-> | Hee]; eauto.
Qed.

Lemma folded_integers_fit_long_witness :
  leaves (constant_in_long sample_symbols) in_long
    (ast_integer 1%nat LONG_MIN) = true.
Proof.
  apply (proj1 (folded_integers_fit_long sample_symbols 2)
           (ast_binaryoperation op_add 1%nat integer_type
              (ast_integer 2%nat LONG_MAX) (ast_integer 3%nat 1))).
  - reflexivity.
  - reflexivity.
Defined.

(** ** The two passes together *)

Lemma fold_once_cast_operand get_symbol op p ty l r x :
  is_cast l || is_cast r = true ->
  fold_once get_symbol (ast_binaryoperation op p ty l r) = Done x ->
  exists l2 r2, x = ast_binaryoperation op p ty l2 r2.
Proof.
  intros Hc H. cbn [fold_once] in H.
  apply obind_done in H. destruct H as (l' & Hl & H).
  apply obind_done in H. destruct H as (r' & Hr & H).
  assert (Hn : is_const get_symbol l' && is_const get_symbol r' = false).
  { apply orb_true_iff in Hc. destruct Hc as [Hc | Hc].
    - destruct l; try discriminate. cbn [fold_once] in Hl. inv Hl.
      reflexivity.
    - destruct r; try discriminate. cbn [fold_once] in Hr. inv Hr.
      apply andb_false_r. }
  simpl in H. rewrite Hn in H. simpl in H. inv H. eauto.
Qed.

(** X18: the checker's casts keep the folder away from mixed arithmetic.
    Once [type_check] has found operands of different types under [+],
    [-] or [*], or an integer operand under [/], the node it leaves
    resolves to real and [fold_constants] returns it as a binary
    operation of the same operator: it is never replaced by a literal,
    whatever its operands are. *)
Theorem checked_mixed_arithmetic_is_not_folded :
  forall get_symbol op p ty l r s l1 tl s1 r1 tr s2,
    type_check get_symbol l s = Done ((l1, tl), s1) ->
    type_check get_symbol r s1 = Done ((r1, tr), s2) ->
    ((op = op_add \/ op = op_sub \/ op = op_mult) /\ tl <> tr) \/
    (op = op_divide /\ (tl = integer_type \/ tr = integer_type)) ->
    exists e',
      type_check get_symbol (ast_binaryoperation op p ty l r) s
      = Done ((e', real_type), s2) /\
      forall fuel x,
        fold_constants get_symbol fuel e' = Done x ->
        exists l2 r2, x = ast_binaryoperation op p real_type l2 r2.
Proof.
  intros gs op p ty l r s l1 tl s1 r1 tr s2 Hl Hr Hop.
  assert (Hfold : forall L R,
             is_cast L || is_cast R = true ->
             forall fuel x,
               fold_constants gs fuel
                 (ast_binaryoperation op p real_type L R) = Done x ->
               exists l2 r2, x = ast_binaryoperation op p real_type l2 r2).
  { intros L R Hc fuel x H. apply fold_once_sound in H.
    eapply fold_once_cast_operand; eassumption. }
  destruct Hop as [[Hop Hne] | [-> Hint]].
  - assert (Hneq : neq tl tr = true).
    { unfold neq. apply negb_true_iff. apply Z.eqb_neq. assumption. }
    eexists. split.
    + destruct Hop as [-> | [-> | ->]]; cbn [type_check];
        unfold check_binop1, bind; rewrite Hl, Hr, Hneq; reflexivity.
    + apply Hfold. unfold neq.
      destruct (tl =? real_type) eqn:E1; [|reflexivity].
      destruct (tr =? real_type) eqn:E2; [|apply orb_true_r].
      apply Z.eqb_eq in E1, E2. congruence.
  - eexists. split.
    + cbn [type_check]. unfold check_divide, bind. rewrite Hl, Hr.
      reflexivity.
    + apply Hfold.
      destruct Hint as [-> | ->]; rewrite Z.eqb_refl;
        [reflexivity | apply orb_true_r].
Qed.

Lemma checked_mixed_arithmetic_is_not_folded_witness :
  exists e',
    type_check sample_symbols
      (ast_binaryoperation op_add 1%nat void_type
         (ast_integer 2%nat 1) (ast_real 3%nat 2%float)) initial_state
    = Done ((e', real_type), initial_state) /\
    forall fuel x,
      fold_constants sample_symbols fuel e' = Done x ->
      exists l2 r2, x = ast_binaryoperation op_add 1%nat real_type l2 r2.
Proof.
  apply (checked_mixed_arithmetic_is_not_folded sample_symbols op_add
           1%nat void_type (ast_integer 2%nat 1) (ast_real 3%nat 2%float)
           initial_state (ast_integer 2%nat 1) integer_type initial_state
           (ast_real 3%nat 2%float) real_type initial_state).
  - reflexivity.
  - reflexivity.
  - left. split; [left; reflexivity | discriminate].
Defined.

(** ** What the folder always folds, and what it never touches *)

Lemma fold_once_integer_constant get_symbol e :
  integer_constant_expression get_symbol e = true ->
  exists x a,
    fold_once get_symbol e = Done x /\ is_const get_symbol x = true /\
    type x = integer_type /\ long_value get_symbol x = Done a.
Proof.
  induction e using ast_expression_mut with (P0 := fun _ => True);
    try (intros; exact I); cbn [integer_constant_expression];
    try discriminate.
  - intros H. apply andb_true_iff in H. destruct H as [H Hv].
    apply andb_true_iff in H. destruct H as [Hc Ht].
    apply Z.eqb_eq in Ht.
    destruct (Symtab.const_value (get_symbol (sym_p id))) as [v|] eqn:E;
      [|discriminate].
    exists (ast_id_expr id), v. simpl. rewrite E. auto.
  - intros H.
    assert (Hop : (op = op_add \/ op = op_sub \/ op = op_mult \/
                   op = op_and \/ op = op_or) /\
                  integer_constant_expression get_symbol e1 = true /\
                  integer_constant_expression get_symbol e2 = true).
    { destruct op; try discriminate;
        apply andb_true_iff in H; repeat split; tauto. }
    destruct Hop as (Hop & H1 & H2).
    destruct (IHe1 H1) as (l' & a & Fl & Cl & Tl & Vl).
    destruct (IHe2 H2) as (r' & b & Fr & Cr & Tr & Vr).
    cbn [fold_once]. rewrite Fl, Fr. simpl.
    rewrite Cl, Cr, Tl, Tr, Vl, Vr. simpl.
    destruct Hop as [-> | [-> | [-> | [-> | ->]]]]; simpl;
      do 2 eexists; repeat split; reflexivity.
  - intros _. do 2 eexists. repeat split; reflexivity.
Qed.

(** X19: constant integer arithmetic folds completely.  An expression
    built from integer literals, integer-typed identifiers of integer
    constants and the operators [+], [-], [*], AND and OR is folded, at
    every nesting depth from some depth on, to a single constant of
    integer type; the folder does not stop on it. *)
Theorem integer_constant_expression_folds_to_a_constant :
  forall get_symbol e,
    integer_constant_expression get_symbol e = true ->
    exists x,
      is_const get_symbol x = true /\ type x = integer_type /\
      size x = 1%nat /\
      exists fuel, forall fuel', (fuel <= fuel')%nat ->
        fold_constants get_symbol fuel' e = Done x.
Proof.
  intros gs e H.
  destruct (fold_once_integer_constant gs e H) as (x & a & Hf & Hc & Ht & _).
  exists x. split; [assumption|]. split; [assumption|]. split.
  - destruct x; try discriminate; reflexivity.
  - destruct (fold_constants_terminates gs) as [He _].
    destruct (He e) as [n Hn]. exists n. intros m Hm. rewrite <- Hf.
    symmetry. apply (fold_constants_refines_fold_once gs m e _ eq_refl).
    apply (Hn m Hm).
Qed.

Lemma integer_constant_expression_folds_to_a_constant_witness :
  exists x,
    is_const sample_symbols x = true /\ type x = integer_type /\
    size x = 1%nat /\
    exists fuel, forall fuel', (fuel <= fuel')%nat ->
      fold_constants sample_symbols fuel'
        (ast_binaryoperation op_add 1%nat integer_type
           (ast_binaryoperation op_mult 2%nat integer_type
              (ast_id_expr (mk_ast_id 3%nat integer_type 10))
              (ast_integer 4%nat 2))
           (ast_integer 5%nat 3)) = Done x.
Proof.
  apply (integer_constant_expression_folds_to_a_constant sample_symbols).
  reflexivity.
Defined.

Lemma optimize_stmt_targets f :
  (forall n n', optimize_stmt f n = Done n' ->
                stmt_targets n' = stmt_targets n) /\
  (forall n n', optimize_stmt_list f n = Done n' ->
                stmt_list_targets n' = stmt_list_targets n) /\
  (forall n n', optimize_elsif f n = Done n' ->
                elsif_targets n' = elsif_targets n) /\
  (forall n n', optimize_elsif_list f n = Done n' ->
                elsif_list_targets n' = elsif_list_targets n).
Proof.
  apply ast_statement_mutind; intros; simpl in *;
    repeat match goal with
           | H : obind _ _ = Done _ |- _ => obind_inv H
           | H : Done _ = Done _ |- _ => inv H
           end;
    simpl; try reflexivity; eauto;
    repeat match goal with
           | |- (_ ++ _)%list = (_ ++ _)%list => f_equal
           end; eauto.
  match goal with
  | H : match ?o with Some _ => _ | None => _ end = Done _ |- _ =>
      destruct o as [v|]; [destruct (f v); simpl in H|];
      inv H; reflexivity
  end.
Qed.

(** X20: the folder never touches the left side of an assignment:
    after [do_optimize] the assignments of the body have, one by one, the
    left sides they had, an indexed one with its index expression
    unfolded. *)
Theorem do_optimize_keeps_assignment_targets :
  forall get_symbol fuel body body',
    do_optimize get_symbol fuel body = Done body' ->
    stmt_list_targets body' = stmt_list_targets body.
Proof.
  intros gs fuel body body' H. unfold do_optimize in H.
  apply (proj1 (proj2 (optimize_stmt_targets _)) _ _ H).
Qed.

Lemma do_optimize_keeps_assignment_targets_witness :
  stmt_list_targets
    (stmt_list_node 1%nat stmt_list_null
       (ast_assign 2%nat
          (ast_indexed 3%nat integer_type (mk_ast_id 4%nat integer_type 20)
             (ast_binaryoperation op_add 5%nat integer_type
                (ast_integer 6%nat 1) (ast_integer 7%nat 2)))
          (ast_integer 8%nat 3))) =
  stmt_list_targets
    (stmt_list_node 1%nat stmt_list_null
       (ast_assign 2%nat
          (ast_indexed 3%nat integer_type (mk_ast_id 4%nat integer_type 20)
             (ast_binaryoperation op_add 5%nat integer_type
                (ast_integer 6%nat 1) (ast_integer 7%nat 2)))
          (ast_binaryoperation op_add 8%nat integer_type
             (ast_integer 9%nat 1) (ast_integer 10%nat 2)))).
Proof.
  apply (do_optimize_keeps_assignment_targets sample_symbols 2).
  reflexivity.
Defined.

(** ** Return statements *)

(** X21: a return statement that is checked always records that a return
    was seen, and it is accepted without a diagnostic in two cases only:
    a bare [return] in a procedure, and in a function a [return] whose
    value is checked without a diagnostic and resolves to the function's
    type. *)
Theorem return_accepted_iff :
  forall get_symbol current_environment p value s n t s',
    type_check_return get_symbol current_environment p value s
    = Done ((n, t), s') ->
    has_return s' = true /\
    (diagnostics s' = diagnostics s <->
     match value with
     | None => Symtab.tag (get_symbol current_environment) = SYM_PROC
     | Some v =>
         Symtab.tag (get_symbol current_environment) = SYM_FUNC /\
         exists v' s1,
           type_check get_symbol v (mk_tc_state true (diagnostics s))
           = Done ((v', Symtab.type (get_symbol current_environment)), s1)
           /\ diagnostics s1 = diagnostics s
     end).
Proof.
  intros gs env p value s n t s' H. unfold type_check_return in H.
  apply bind_done in H. destruct H as (u & s0 & E0 & H). inv E0.
  destruct value as [v|].
  - apply bind_done in H. destruct H as ([v' tv] & s1 & Ev & H).
    pose proof (proj1 (type_check_has_return gs) _ _ _ _ Ev) as Hflag.
    pose proof (proj1 (type_check_extends gs) _ _ _ _ Ev) as Hext.
    simpl in Hflag.
    destruct (sym_type_eqb (Symtab.tag (gs env)) SYM_FUNC) eqn:Etag;
      simpl in H.
    + apply sym_type_eqb_eq in Etag.
      apply bind_done in H. destruct H as (u' & s2 & Ee & H). inv H.
      split.
      * destruct (neq (Symtab.type (gs env)) tv); inv Ee; assumption.
      * split.
        -- intros Hq.
           destruct (extends_quiet _ _ _ Hext
                       (error_if_extends _ _ _ _ _ _ Ee) Hq) as [Hq1 Hq2].
           destruct (error_if_quiet _ _ _ _ _ _ Ee Hq2) as [Hn _].
           apply neq_false in Hn. subst tv. eauto.
        -- intros (_ & v2 & s3 & Ev2 & Hq). rewrite Ev in Ev2. inv Ev2.
           unfold neq in Ee. rewrite Z.eqb_refl in Ee. inv Ee.
           assumption.
    + apply bind_done in H. destruct H as (u' & s2 & Ee & H). inv H.
      split.
      * rewrite (type_error_has_return _ _ _ _ _ Ee). assumption.
      * split.
        -- intros Hq. exfalso.
           destruct (extends_quiet _ _ _ Hext
                       (type_error_extends _ _ _ _ _ Ee) Hq) as [_ Hq2].
           exact (type_error_loud _ _ _ _ _ Ee Hq2).
        -- intros [Htag _]. rewrite Htag in Etag. discriminate.
  - apply bind_done in H. destruct H as (u' & s2 & Ee & H). inv H.
    destruct (sym_type_eqb (Symtab.tag (gs env)) SYM_PROC) eqn:Etag;
      simpl in Ee; inv Ee; simpl.
    + apply sym_type_eqb_eq in Etag. tauto.
    + split; [reflexivity|]. split.
      * intros Hq. exfalso.
        rewrite <- (app_nil_r (diagnostics s)) in Hq at 2.
        apply app_inv_head in Hq. discriminate.
      * intros Htag. rewrite Htag in Etag. discriminate.
Qed.

Lemma return_accepted_iff_witness :
  has_return
    (mk_tc_state true
       [mk_diagnostic (Some 1%nat) "Procedures may not return a value."])
  = true /\
  (diagnostics
     (mk_tc_state true
        [mk_diagnostic (Some 1%nat) "Procedures may not return a value."])
   = diagnostics initial_state <->
   Symtab.tag (sample_symbols 12) = SYM_FUNC /\
   exists v' s1,
     type_check sample_symbols (ast_integer 2%nat 0)
       (mk_tc_state true (diagnostics initial_state))
     = Done ((v', Symtab.type (sample_symbols 12)), s1)
     /\ diagnostics s1 = diagnostics initial_state).
Proof.
  apply (return_accepted_iff sample_symbols 12 1%nat
           (Some (ast_integer 2%nat 0)) initial_state
           (ast_return 1%nat (Some (ast_integer 2%nat 0))) void_type).
  reflexivity.
Defined.
